(** * chess-finder: the board, the points and the pseudo-move enumerator

    A shallow embedding of [Point.js], [Pieces.js] and [Board.js], and of
    the enumerator of the earlier one-file version [chess-finder.js].

    JavaScript values are modelled as follows.
    - A number is an integer or [NaN] (type [Js.num]); the program only adds
      small integer constants to coordinates and subtracts a character from
      8, so that the integers met are far from the limits of a double.
    - A string is a [string] whose characters stand for code units below 256.
    - A square handed to the board is a string or the number [NaN]
      (type [Square]): [Point.toAlgebraic] returns [NaN] when the file has no
      letter.
    - A method that may throw returns an [outcome]; a [Board] method that
      writes the board or the console is a state transformer over [World]. *)

From Stdlib Require Import ZArith List String Ascii Bool Lia DecimalString DecimalZ.
Import ListNotations.
Open Scope Z_scope.

(** ** JavaScript primitives *)

Module Js.

Inductive num : Type :=
| Int (z : Z)
| NaN.

Definition add (a b : num) : num :=
  match a, b with
  | Int x, Int y => Int (x + y)
  | _, _ => NaN
  end.

Definition sub (a b : num) : num :=
  match a, b with
  | Int x, Int y => Int (x - y)
  | _, _ => NaN
  end.

(** [a >= b] and [a <= b]: false as soon as one side is [NaN]. *)
Definition geb (a b : num) : bool :=
  match a, b with
  | Int x, Int y => y <=? x
  | _, _ => false
  end.

Definition leb (a b : num) : bool :=
  match a, b with
  | Int x, Int y => x <=? y
  | _, _ => false
  end.

(** [a === b] on numbers: [NaN] equals nothing. *)
Definition strict_eq (a b : num) : bool :=
  match a, b with
  | Int x, Int y => x =? y
  | _, _ => false
  end.

(** [!a]: zero and [NaN] are the falsy numbers. *)
Definition falsy (a : num) : bool :=
  match a with
  | Int 0 => true
  | Int _ => false
  | NaN => true
  end.

(** [String(a)]. *)
Definition to_string (a : num) : string :=
  match a with
  | Int z => NilZero.string_of_int (Z.to_int z)
  | NaN => "NaN"
  end.

Definition code (c : ascii) : Z := Z.of_nat (nat_of_ascii c).

Definition between (lo hi c : ascii) : bool :=
  (code lo <=? code c) && (code c <=? code hi).

(** The regular expression [\d] on one character. *)
Definition is_digit (c : ascii) : bool := between "0" "9" c.

(** [parseInt(c)] for a character that matched [\d]. *)
Definition digit_value (c : ascii) : Z := code c - 48.

(** The white space that [Number(...)] trims, among code units below 256. *)
Definition is_space (c : ascii) : bool :=
  existsb (Z.eqb (code c)) [9; 10; 11; 12; 13; 32; 160].

(** [Number(v)] for [v] a one-character string or [undefined] ([None]), as
    the subtraction [8 - square[1]] computes it. *)
Definition to_number (v : option ascii) : num :=
  match v with
  | None => NaN
  | Some c =>
      if is_digit c then Int (digit_value c)
      else if is_space c then Int 0
      else NaN
  end.

(** [c.toUpperCase()]. Outside a-z the model leaves the character as it
    is; the real result may differ there, but it is never one of the six
    one-letter strings that the program compares it with. *)
Definition toUpperCase (c : ascii) : ascii :=
  if between "a" "z" c then ascii_of_nat (nat_of_ascii c - 32) else c.

(** [s.split(sep)] for a one-character separator. *)
Fixpoint split (sep : ascii) (s : string) : list string :=
  match s with
  | EmptyString => [EmptyString]
  | String c s' =>
      if Ascii.eqb c sep then EmptyString :: split sep s'
      else
        match split sep s' with
        | [] => [String c EmptyString]
        | w :: ws => String c w :: ws
        end
  end.

(** The characters of a string, in order. *)
Fixpoint chars (s : string) : list ascii :=
  match s with
  | EmptyString => []
  | String c s' => c :: chars s'
  end.

End Js.

Import Js.

(** ** Results of methods *)

Inductive exn : Type :=
| TypeError
| Error (msg : string).

(** [OutOfFuel] is the result of a loop that was cut short by the model; the
    theorems show that it does not occur. *)
Inductive outcome (A : Type) : Type :=
| Ok (a : A)
| Throw (e : exn)
| OutOfFuel.

Arguments Ok {A} a.
Arguments Throw {A} e.
Arguments OutOfFuel {A}.

Definition obind {A B : Type} (m : outcome A) (k : A -> outcome B) : outcome B :=
  match m with
  | Ok a => k a
  | Throw e => Throw e
  | OutOfFuel => OutOfFuel
  end.

Declare Scope outcome_scope.
Delimit Scope outcome_scope with outcome.
Notation "x <- m ;; k" := (obind m (fun x => k))
  (at level 61, m at next level, right associativity) : outcome_scope.

(** ** Point.js *)

Inductive Square : Type :=
| SqStr (s : string)
| SqNaN.

(** [square[i]]: a character, or [undefined] past the end and on [NaN]. *)
Definition char_at (square : Square) (i : nat) : option ascii :=
  match square with
  | SqStr s => String.get i s
  | SqNaN => None
  end.

Definition files : string := "abcdefgh".

Fixpoint index_from (c : ascii) (s : string) (i : Z) : Z :=
  match s with
  | EmptyString => -1
  | String d s' => if Ascii.eqb c d then i else index_from c s' (i + 1)
  end.

(** ["abcdefgh".indexOf(letter)]; [undefined] is searched as the text
    "undefined", which does not occur. *)
Definition files_indexOf (letter : option ascii) : Z :=
  match letter with
  | None => -1
  | Some c => index_from c files 0
  end.

(** ["abcdefgh"[n]]. *)
Definition files_at (n : num) : option ascii :=
  match n with
  | Int z => if 0 <=? z then String.get (Z.to_nat z) files else None
  | NaN => None
  end.

Record Point : Type := mkPoint { file : num; rank : num }.

Definition toAlgebraic (this : Point) : Square :=
  let letter := files_at (file this) in
  let number := add (rank this) (Int 1) in
  match letter with
  | Some c => SqStr (String c (to_string number))
  | None => SqNaN   (* undefined + number *)
  end.

(** The regular expression [^[a-h][1-8]$]. *)
Definition is_square_name (s : string) : bool :=
  match s with
  | String c1 (String c2 EmptyString) => between "a" "h" c1 && between "1" "8" c2
  | _ => false
  end.

Definition setSquare (this : Point) (square : Square) : outcome Point :=
  match square with
  | SqStr s =>
      if is_square_name s then
        let letter := char_at square 0 in
        let number := char_at square 1 in
        let newFile := files_indexOf letter in
        let newRank := sub (Int 8) (to_number number) in
        Ok {| file := Int newFile; rank := newRank |}
      else Throw (Error "Invalid square")
  | SqNaN => Throw (Error "Invalid square")
  end.

Definition _isInBounds (f r : num) : bool :=
  geb f (Int 0) && leb f (Int 7) && geb r (Int 0) && leb r (Int 7).

Definition isValid (this : Point) : bool := _isInBounds (file this) (rank this).

(** The [while] loop of [getLine]; [points] is the array built so far. *)
Fixpoint getLine_loop (fuel : nat) (this : Point) (dx dy : num)
    (r f : num) (points : list Point) : outcome (list Point) :=
  match fuel with
  | O => OutOfFuel
  | S fuel' =>
      if geb r (Int 0) && leb r (Int 7) && geb f (Int 0) && leb f (Int 7) then
        let points' :=
          if negb (strict_eq r (rank this) && strict_eq f (file this))
          then points ++ [mkPoint f r]
          else points in
        getLine_loop fuel' this dx dy (add r dy) (add f dx) points'
      else Ok points
  end.

(** Nine tests of the loop condition are enough on an 8x8 board
    (see [getLine_loop_fuel]). *)
Definition line_fuel : nat := 9.

Definition getLine (this : Point) (dx dy : num) : outcome (list Point) :=
  if falsy dx && falsy dy then
    Throw (Error "Both deltas can't be zero or unspecified")
  else getLine_loop line_fuel this dx dy (rank this) (file this) [].

Open Scope outcome_scope.

Definition getDiagonals (this : Point) : outcome (list (list Point)) :=
  l1 <- getLine this (Int 1) (Int (-1)) ;;
  l2 <- getLine this (Int 1) (Int 1) ;;
  l3 <- getLine this (Int (-1)) (Int (-1)) ;;
  l4 <- getLine this (Int (-1)) (Int 1) ;;
  Ok [l1; l2; l3; l4].

Definition getStraightLines (this : Point) : outcome (list (list Point)) :=
  l1 <- getLine this (Int (-1)) (Int 0) ;;
  l2 <- getLine this (Int 1) (Int 0) ;;
  l3 <- getLine this (Int 0) (Int (-1)) ;;
  l4 <- getLine this (Int 0) (Int 1) ;;
  Ok [l1; l2; l3; l4].

Definition getAllLines (this : Point) : outcome (list (list Point)) :=
  straight <- getStraightLines this ;;
  diag <- getDiagonals this ;;
  Ok (straight ++ diag).

Definition getSurroundingPoints (this : Point) : list Point :=
  flat_map (fun dy =>
    flat_map (fun dx =>
      if (dx =? 0) && (dy =? 0) then []
      else if _isInBounds (add (file this) (Int dx)) (add (rank this) (Int dy))
           then [mkPoint (add (file this) (Int dx)) (add (rank this) (Int dy))]
           else [])
      [-1; 0; 1])
    [-1; 0; 1].

Definition knight_deltas : list (Z * Z) :=
  [(2, -1); (2, 1); (-2, -1); (-2, 1); (1, -2); (1, 2); (-1, -2); (-1, 2)].

Definition getKnightPoints (this : Point) : list Point :=
  flat_map (fun d =>
    if _isInBounds (add (file this) (Int (fst d))) (add (rank this) (Int (snd d)))
    then [mkPoint (add (file this) (Int (fst d))) (add (rank this) (Int (snd d)))]
    else [])
    knight_deltas.

(** ** Pieces.js *)

Inductive PieceType : Type := PAWN | BISHOP | KNIGHT | ROOK | KING | QUEEN.

Inductive Color : Type := BLACK | WHITE.

Definition PieceType_eqb (a b : PieceType) : bool :=
  match a, b with
  | PAWN, PAWN | BISHOP, BISHOP | KNIGHT, KNIGHT
  | ROOK, ROOK | KING, KING | QUEEN, QUEEN => true
  | _, _ => false
  end.

Definition Color_eqb (a b : Color) : bool :=
  match a, b with
  | BLACK, BLACK | WHITE, WHITE => true
  | _, _ => false
  end.

(** [Piece.colors]. *)
Definition color_name (c : Color) : string :=
  match c with
  | BLACK => "black"
  | WHITE => "white"
  end.

(** A piece: its [point] is [null] ([None]) until the board places it. The
    attack/defence arrays and [isPinned] are never read by the code modelled
    here and are left out. *)
Record Piece : Type := mkPiece {
  type : PieceType;
  point : option Point;
  color : Color
}.

(** [new Pawn(color)], [new Bishop(color)], ... *)
Definition new_Piece (t : PieceType) (c : Color) : Piece :=
  {| type := t; point := None; color := c |}.

(** [this.point.m()]: a [TypeError] while [this.point] is [null]. *)
Definition on_point {A : Type} (this : Piece) (m : Point -> outcome A) : outcome A :=
  match point this with
  | Some p => m p
  | None => Throw TypeError
  end.

Definition Piece_getDiagonals (this : Piece) : outcome (list (list Point)) :=
  on_point this getDiagonals.

Definition Piece_getStraightLines (this : Piece) : outcome (list (list Point)) :=
  on_point this getStraightLines.

Definition Piece_getAllLines (this : Piece) : outcome (list (list Point)) :=
  on_point this getAllLines.

Definition Piece_getSurroundingPoints (this : Piece) : outcome (list Point) :=
  on_point this (fun p => Ok (getSurroundingPoints p)).

Definition Piece_getKnightPoints (this : Piece) : outcome (list Point) :=
  on_point this (fun p => Ok (getKnightPoints p)).

Definition getPointAhead (this : Piece) : outcome (option Point) :=
  on_point this (fun p =>
    let rankAhead :=
      if Color_eqb (color this) BLACK then add (rank p) (Int 1)
      else sub (rank p) (Int 1) in
    let pointAhead := mkPoint (file p) rankAhead in
    Ok (if isValid pointAhead then Some pointAhead else None)).

(** The getter [square]: a square, or [null] ([None]). *)
Definition square (this : Piece) : option Square :=
  match point this with
  | Some p => Some (toAlgebraic p)
  | None => None
  end.

Definition isKing (this : Piece) : bool := PieceType_eqb (type this) KING.

(** ** Board.js *)

(** What a slot of a row holds, and what reading one gives: [null], a piece,
    or [undefined] (a hole of the array, or an index past its end). *)
Inductive Cell : Type :=
| Null
| Undefined
| Occ (p : Piece).

(** [!v]. *)
Definition absent (v : Cell) : bool :=
  match v with
  | Occ _ => false
  | _ => true
  end.

(** A row is an array; writing it at a key that is no array index (-1, for
    a letter outside a-h) adds a property, kept in [props]. *)
Record Row : Type := mkRow {
  cells : list Cell;
  props : list (num * Piece)
}.

Record Board : Type := mkBoard { pieceList : list Row }.

Definition key_eqb (a b : num) : bool :=
  match a, b with
  | Int x, Int y => x =? y
  | NaN, NaN => true
  | _, _ => false
  end.

Fixpoint prop_get (ps : list (num * Piece)) (k : num) : Cell :=
  match ps with
  | [] => Undefined
  | (k', p) :: ps' => if key_eqb k k' then Occ p else prop_get ps' k
  end.

Fixpoint update_nth {A : Type} (n : nat) (x : A) (l : list A) : list A :=
  match l, n with
  | [], _ => []
  | _ :: l', O => x :: l'
  | y :: l', S n' => y :: update_nth n' x l'
  end.

(** [row[k]]. *)
Definition row_get (row : Row) (k : num) : Cell :=
  match k with
  | Int z =>
      if 0 <=? z then nth (Z.to_nat z) (cells row) Undefined
      else prop_get (props row) k
  | NaN => prop_get (props row) k
  end.

(** [row[k] = piece]: an index past the end grows the array, leaving holes. *)
Definition row_set (row : Row) (k : num) (piece : Piece) : Row :=
  match k with
  | Int z =>
      if 0 <=? z then
        let i := Z.to_nat z in
        let cs := cells row in
        {| cells := if (i <? List.length cs)%nat then update_nth i (Occ piece) cs
                    else cs ++ repeat Undefined (i - List.length cs) ++ [Occ piece];
           props := props row |}
      else {| cells := cells row; props := (k, piece) :: props row |}
  | NaN => {| cells := cells row; props := (k, piece) :: props row |}
  end.

(** [this.pieceList[k]]: the row and its index, or [undefined] ([None]). *)
Definition pieceList_at (b : Board) (k : num) : option (nat * Row) :=
  match k with
  | Int z =>
      if 0 <=? z then
        match nth_error (pieceList b) (Z.to_nat z) with
        | Some row => Some (Z.to_nat z, row)
        | None => None
        end
      else None
  | NaN => None
  end.

(** [new Board()]. *)
Definition new_Board : Board :=
  {| pieceList := repeat {| cells := repeat Null 8; props := [] |} 8 |}.

(** [row.filter(sq => sq !== null)]: holes are skipped by [filter]. *)
Fixpoint filter_not_null (row : list Cell) : list Piece :=
  match row with
  | [] => []
  | Occ p :: row' => p :: filter_not_null row'
  | _ :: row' => filter_not_null row'
  end.

Definition pieces (this : Board) : list Piece :=
  let pieceRows := map (fun row => filter_not_null (cells row)) (pieceList this) in
  fold_left (fun pieceArray row => pieceArray ++ row) pieceRows [].

Definition algebraicToPoint (square : Square) : Point :=
  let letter := char_at square 0 in
  let number := char_at square 1 in
  let file := files_indexOf letter in
  let rank := sub (Int 8) (to_number number) in
  mkPoint (Int file) rank.

Definition getPieceAtSquare (this : Board) (square : Square) : outcome Cell :=
  let pt := algebraicToPoint square in
  match pieceList_at this (rank pt) with
  | Some (_, row) => Ok (row_get row (file pt))
  | None => Throw TypeError
  end.


(** Check a discrete set of points (knight and king moves). *)
Fixpoint findUnblockedPoints_loop (this : Board) (pointList : list Point)
    (color0 : Color) (includeCaptures : bool) (validPoints : list Point)
    : outcome (list Point) :=
  match pointList with
  | [] => Ok validPoints
  | pt :: rest =>
      pieceOnSquare <- getPieceAtSquare this (toAlgebraic pt) ;;
      match pieceOnSquare with
      | Occ q =>
          if includeCaptures && negb (Color_eqb (color q) color0) && negb (isKing q)
          then findUnblockedPoints_loop this rest color0 includeCaptures (validPoints ++ [pt])
          else findUnblockedPoints_loop this rest color0 includeCaptures validPoints
      | _ => findUnblockedPoints_loop this rest color0 includeCaptures (validPoints ++ [pt])
      end
  end.

Definition findUnblockedPoints (this : Board) (pointList : list Point)
    (color0 : Color) (includeCaptures : bool) : outcome (list Point) :=
  findUnblockedPoints_loop this pointList color0 includeCaptures [].

(** The inner [for] of [findUnblockedPointsOnLine]: [line] is what is left of
    [lines[i]] from index [k] on; the loop runs while [!blockedLine]. *)
Fixpoint line_loop (this : Board) (color0 : Color) (line : list Point)
    (blockedLine : bool) (validPoints : list Point) : outcome (list Point) :=
  match line with
  | [] => Ok validPoints
  | p :: rest =>
      if blockedLine then Ok validPoints
      else
        pieceOnSquare <- getPieceAtSquare this (toAlgebraic p) ;;
        match pieceOnSquare with
        | Occ q =>
            if Color_eqb (color q) color0 then
              line_loop this color0 rest true validPoints
            else if negb (Color_eqb (color q) color0)
                    && negb (PieceType_eqb (type q) KING) then
              line_loop this color0 rest true (validPoints ++ [p])
            else
              line_loop this color0 rest blockedLine validPoints
        | _ => line_loop this color0 rest blockedLine (validPoints ++ [p])
        end
  end.

(** The outer [for]: [blockedLine] is reset for every line. *)
Fixpoint lines_loop (this : Board) (color0 : Color) (lines : list (list Point))
    (validPoints : list Point) : outcome (list Point) :=
  match lines with
  | [] => Ok validPoints
  | line :: rest =>
      validPoints' <- line_loop this color0 line false validPoints ;;
      lines_loop this color0 rest validPoints'
  end.

Definition findUnblockedPointsOnLine (this : Board) (lines : list (list Point))
    (color0 : Color) : outcome (list Point) :=
  lines_loop this color0 lines [].

(** [getPawnPseudoMoves] builds nothing and returns [undefined]; it can only
    throw, through [getPointAhead]. The result of [concat] is dropped. *)
Definition getPawnPseudoMoves (this : Board) (piece : Piece) : outcome unit :=
  pointAhead <- getPointAhead piece ;;
  Ok tt.

Close Scope outcome_scope.

(** ** Methods that write the board or the console *)

Record World : Type := mkWorld {
  board : Board;
  console : list string
}.

(** A method call: its result, and the world it leaves behind (also when it
    throws: writes made before the exception stay). *)
Definition M (A : Type) : Type := World -> outcome A * World.

Definition ret {A : Type} (a : A) : M A := fun w => (Ok a, w).

Definition mbind {A B : Type} (m : M A) (k : A -> M B) : M B :=
  fun w =>
    match m w with
    | (Ok a, w') => k a w'
    | (Throw e, w') => (Throw e, w')
    | (OutOfFuel, w') => (OutOfFuel, w')
    end.

(** A call that only reads the board. *)
Definition read {A : Type} (f : Board -> outcome A) : M A :=
  fun w => (f (board w), w).

Definition lift {A : Type} (o : outcome A) : M A := fun w => (o, w).

(** [console.log(line)]. *)
Definition console_log (line : string) : M unit :=
  fun w => (Ok tt, {| board := board w; console := console w ++ [line] |}).

Declare Scope world_scope.
Delimit Scope world_scope with world.
Notation "x <- m ;; k" := (mbind m (fun x => k))
  (at level 61, m at next level, right associativity) : world_scope.
Notation "m ;; k" := (mbind m (fun _ => k))
  (at level 61, right associativity) : world_scope.
Open Scope world_scope.

Fixpoint for_each {A : Type} (body : A -> M unit) (l : list A) : M unit :=
  match l with
  | [] => ret tt
  | x :: l' => body x ;; for_each body l'
  end.

(** [piece] is a piece, or [null] when the call comes from [clearSquare].
    The piece stored is the argument with its [point] set; [addPiece] and
    [clearSquare], the only callers, keep no other reference to it. *)
Definition setPieceAtSquare (square0 : Square) (piece : Cell) : M unit :=
  fun w =>
    let pt := algebraicToPoint square0 in
    match piece with
    | Occ pc =>
        let pc' := {| type := type pc; point := Some pt; color := color pc |} in
        match pieceList_at (board w) (sub (Int 7) (rank pt)) with
        | Some (i, row) =>
            (Ok tt,
             {| board := {| pieceList :=
                   update_nth i (row_set row (file pt) pc') (pieceList (board w)) |};
                console := console w |})
        | None => (Throw TypeError, w)
        end
    | _ => (Throw TypeError, w)   (* piece.point = point *)
    end.

Definition addPiece (type0 : PieceType) (color0 : Color) (square0 : Square) : M unit :=
  let piece :=
    match type0 with
    | PAWN => new_Piece PAWN color0
    | BISHOP => new_Piece BISHOP color0
    | KNIGHT => new_Piece KNIGHT color0
    | ROOK => new_Piece ROOK color0
    | KING => new_Piece KING color0
    | QUEEN => new_Piece QUEEN color0
    end in
  setPieceAtSquare square0 (Occ piece).

Definition clearSquare (square0 : Square) : M unit :=
  setPieceAtSquare square0 Null.

(** What a template literal or [console.log] shows for a square. *)
Definition show_square (s : Square) : string :=
  match s with
  | SqStr t => t
  | SqNaN => "NaN"
  end.

Definition show_piece_square (s : option Square) : string :=
  match s with
  | Some sq => show_square sq
  | None => "null"
  end.

Definition header (piece : Piece) (kind : string) : string :=
  ("The pseudomoves for the " ++ color_name (color piece) ++ " " ++ kind
   ++ " on " ++ show_piece_square (square piece) ++ " are:")%string.

(** [pseudoMoves.forEach( x => console.log(x.toAlgebraic()))]. *)
Definition log_moves (pseudoMoves : list Point) : M unit :=
  for_each (fun x => console_log (show_square (toAlgebraic x))) pseudoMoves.

(** The [switch] of [getpseudoLegalMovesForPiece]; the result is the value
    of the local [pseudoMoves] when the [switch] is left. *)
Definition pseudoMoves_switch (piece : Piece) : M (list Point) :=
  match type piece with
  | BISHOP =>
      lineList <- lift (Piece_getDiagonals piece) ;;
      pseudoMoves <- read (fun b => findUnblockedPointsOnLine b lineList (color piece)) ;;
      console_log (header piece "Bishop") ;;
      log_moves pseudoMoves ;;
      ret pseudoMoves
  | ROOK =>
      lineList <- lift (Piece_getStraightLines piece) ;;
      pseudoMoves <- read (fun b => findUnblockedPointsOnLine b lineList (color piece)) ;;
      console_log (header piece "Rook") ;;
      log_moves pseudoMoves ;;
      ret pseudoMoves
  | QUEEN =>
      lineList <- lift (Piece_getAllLines piece) ;;
      pseudoMoves <- read (fun b => findUnblockedPointsOnLine b lineList (color piece)) ;;
      console_log (header piece "Queen") ;;
      log_moves pseudoMoves ;;
      ret pseudoMoves
  | KING =>
      pointList <- lift (Piece_getSurroundingPoints piece) ;;
      pseudoMoves <- read (fun b => findUnblockedPoints b pointList (color piece) true) ;;
      console_log (header piece "King") ;;
      log_moves pseudoMoves ;;
      ret pseudoMoves
  | KNIGHT =>
      pointList <- lift (Piece_getKnightPoints piece) ;;
      pseudoMoves <- read (fun b => findUnblockedPoints b pointList (color piece) true) ;;
      console_log (header piece "Knight") ;;
      log_moves pseudoMoves ;;
      ret pseudoMoves
  | PAWN =>
      let pseudoMoves := [] in
      pointList <- read (fun b => getPawnPseudoMoves b piece) ;;
      console_log (header piece "Pawn") ;;
      log_moves pseudoMoves ;;
      ret pseudoMoves
  end.

(** The function has no [return]: its value is [undefined] ([None]). *)
Definition getpseudoLegalMovesForPiece (piece : Piece) : M (option (list Point)) :=
  pseudoMoves <- pseudoMoves_switch piece ;;
  ret None.

(** The [for] of [getpseudoLegalMoves] over [this.pieces]. The getter is
    evaluated again at every turn; no turn writes the board, so the list is
    the same each time and the loop is a recursion over it. *)
Fixpoint getpseudoLegalMoves_loop (ps : list Piece) (moves : list Point)
    : M (list Point) :=
  match ps with
  | [] => ret moves
  | piece :: ps' =>
      newMoves <- getpseudoLegalMovesForPiece piece ;;
      match newMoves with
      | Some l => getpseudoLegalMoves_loop ps' (moves ++ l)
      | None => getpseudoLegalMoves_loop ps' moves
      end
  end.

Definition getpseudoLegalMoves : M (list Point) :=
  fun w => getpseudoLegalMoves_loop (pieces (board w)) [] w.

(** The regular expression [[rnbkqp]] on one character. *)
Definition is_black_letter (c : ascii) : bool :=
  existsb (Ascii.eqb c) ["r"; "n"; "b"; "k"; "q"; "p"]%char.

(** The [switch] on the upper-cased character. *)
Definition place_letter (c : ascii) (color0 : Color) (square0 : Square) : M unit :=
  if Ascii.eqb c "P" then addPiece PAWN color0 square0
  else if Ascii.eqb c "B" then addPiece BISHOP color0 square0
  else if Ascii.eqb c "N" then addPiece KNIGHT color0 square0
  else if Ascii.eqb c "R" then addPiece ROOK color0 square0
  else if Ascii.eqb c "K" then addPiece KING color0 square0
  else if Ascii.eqb c "Q" then addPiece QUEEN color0 square0
  else ret tt.

(** The [while] of [setPositionFromFEN] on one row: [str] is the row from
    [index] on. *)
Fixpoint fen_row (rank0 : Z) (str : list ascii) (file0 : Z) : M unit :=
  match str with
  | [] => ret tt
  | char :: rest =>
      if file0 <=? 8 then
        if is_digit char then fen_row rank0 rest (file0 + digit_value char)
        else
          let color0 := if is_black_letter char then BLACK else WHITE in
          let char' := toUpperCase char in
          let pt := mkPoint (Int file0) (Int rank0) in
          let square0 := toAlgebraic pt in
          place_letter char' color0 square0 ;;
          fen_row rank0 rest (file0 + 1)
      else ret tt
  end.

(** One turn of the outer [for]: [rows[i]] is [undefined] past the last row,
    and reading its [length] throws. *)
Definition fen_rank (rows : list string) (i : nat) : M unit :=
  match nth_error rows i with
  | Some str => fen_row (Z.of_nat i) (chars str) 0
  | None => lift (Throw TypeError)
  end.

Definition setPositionFromFEN (fenString : string) : M unit :=
  let parts := split " " fenString in
  let boardString := hd EmptyString parts in
  let rows := split "/" boardString in
  for_each (fen_rank rows) [0; 1; 2; 3; 4; 5; 6; 7]%nat.

Definition setInitialPosition : M unit :=
  setPositionFromFEN "rnbqkbnr/pppppppp/8/8/8/8/PPPPPPPP/RNBQKBNR w KQkq - 0 1".

Definition setNoPawnsPosition : M unit :=
  setPositionFromFEN "rnbqkbnr/8/8/8/8/8/8/RNBQKBNR w KQkq - 0 1".

(** ** chess-finder.js *)

(** The earlier, one-file version of the program. Its [Point], its [Piece]
    and the board methods modelled above have the same text there. Its
    enumerator knows the three sliding pieces only and walks their lines
    with a [findUnblockedPoints] that has the text of the
    [findUnblockedPointsOnLine] of [Board.js]. *)
Module ChessFinder.

Definition findUnblockedPoints (this : Board) (lines : list (list Point))
    (color0 : Color) : outcome (list Point) :=
  lines_loop this color0 lines [].

Definition pseudoMoves_switch (piece : Piece) : M (list Point) :=
  match type piece with
  | BISHOP =>
      lineList <- lift (Piece_getDiagonals piece) ;;
      pseudoMoves <- read (fun b => findUnblockedPoints b lineList (color piece)) ;;
      console_log (header piece "Bishop") ;;
      log_moves pseudoMoves ;;
      ret pseudoMoves
  | ROOK =>
      lineList <- lift (Piece_getStraightLines piece) ;;
      pseudoMoves <- read (fun b => findUnblockedPoints b lineList (color piece)) ;;
      console_log (header piece "Rook") ;;
      log_moves pseudoMoves ;;
      ret pseudoMoves
  | QUEEN =>
      lineList <- lift (Piece_getAllLines piece) ;;
      pseudoMoves <- read (fun b => findUnblockedPoints b lineList (color piece)) ;;
      console_log (header piece "Queen") ;;
      log_moves pseudoMoves ;;
      ret pseudoMoves
  | _ => ret []
  end.

Definition getpseudoLegalMovesForPiece (piece : Piece) : M (option (list Point)) :=
  pseudoMoves <- pseudoMoves_switch piece ;;
  ret None.

Fixpoint getpseudoLegalMoves_loop (ps : list Piece) (moves : list Point)
    : M (list Point) :=
  match ps with
  | [] => ret moves
  | piece :: ps' =>
      newMoves <- getpseudoLegalMovesForPiece piece ;;
      match newMoves with
      | Some l => getpseudoLegalMoves_loop ps' (moves ++ l)
      | None => getpseudoLegalMoves_loop ps' moves
      end
  end.

Definition getpseudoLegalMoves : M (list Point) :=
  fun w => getpseudoLegalMoves_loop (pieces (board w)) [] w.

End ChessFinder.

(** A fresh board and an empty console. *)
Definition new_World : World := {| board := new_Board; console := [] |}.

(** Run a method and keep the world; run it and keep the result. *)
Definition exec {A : Type} (m : M A) (w : World) : World := snd (m w).
Definition result {A : Type} (m : M A) (w : World) : outcome A := fst (m w).

(** ** Vocabulary of the properties *)

(** A coordinate of the 8x8 board: both parts are integers from 0 to 7. *)
Definition on_board (p : Point) : Prop :=
  exists f r, p = mkPoint (Int f) (Int r) /\ 0 <= f <= 7 /\ 0 <= r <= 7.

(** One of the eight ray directions. *)
Definition unit_direction (dx dy : Z) : Prop :=
  -1 <= dx <= 1 /\ -1 <= dy <= 1 /\ (dx <> 0 \/ dy <> 0).

(** Chebyshev distance between two points ([NaN] if a coordinate is). *)
Definition chebyshev (o p : Point) : num :=
  match file o, rank o, file p, rank p with
  | Int a, Int b, Int c, Int d => Int (Z.max (Z.abs (c - a)) (Z.abs (d - b)))
  | _, _, _, _ => NaN
  end.

(** [q] is strictly farther from [o] than [p] is. *)
Definition farther (o p q : Point) : Prop :=
  exists a b, chebyshev o p = Int a /\ chebyshev o q = Int b /\ a < b.

(** The point [k] steps from [(f0, r0)] in direction [(dx, dy)]. *)
Definition step_point (f0 r0 dx dy k : Z) : Point :=
  mkPoint (Int (f0 + k * dx)) (Int (r0 + k * dy)).

(** Steps [k], [k+1], ..., [k+m-1] of a ray. *)
Fixpoint ray_from (f0 r0 dx dy k : Z) (m : nat) : list Point :=
  match m with
  | O => []
  | S m' => step_point f0 r0 dx dy k :: ray_from f0 r0 dx dy (k + 1) m'
  end.

(** What the enumerator finds on the square of a point. *)
Definition occupant (b : Board) (p : Point) : outcome Cell :=
  getPieceAtSquare b (toAlgebraic p).

Definition empty_square (b : Board) (p : Point) : Prop :=
  exists v, occupant b p = Ok v /\ absent v = true.

Definition occupied_by (b : Board) (p : Point) (q : Piece) : Prop :=
  occupant b p = Ok (Occ q).

(** The point that the board computes for a square name. *)
Definition at_square (s : string) : Point := algebraicToPoint (SqStr s).

(** The names that [console.log] shows for a list of points. *)
Definition names (l : list Point) : list string :=
  map (fun p => show_square (toAlgebraic p)) l.

(** A slot that holds a piece holds one that has been given a point. *)
Definition placed (c : Cell) : Prop :=
  match c with
  | Occ pc => point pc <> None
  | _ => True
  end.

(** The board has its eight rows and every piece on it has been given a
    point: what holds of every board the methods can build. *)
Definition board_ok (b : Board) : Prop :=
  (8 <= List.length (pieceList b))%nat /\
  Forall (fun row => Forall placed (cells row)) (pieceList b).

(** The worlds that calls of the board's methods lead to, from a fresh
    board. *)
Inductive reachable : World -> Prop :=
| reach_new : reachable new_World
| reach_addPiece : forall w t c sq,
    reachable w -> reachable (exec (addPiece t c sq) w)
| reach_clearSquare : forall w sq,
    reachable w -> reachable (exec (clearSquare sq) w)
| reach_setPositionFromFEN : forall w fen,
    reachable w -> reachable (exec (setPositionFromFEN fen) w)
| reach_getpseudoLegalMoves : forall w,
    reachable w -> reachable (exec getpseudoLegalMoves w)
| reach_one_file_getpseudoLegalMoves : forall w,
    reachable w -> reachable (exec ChessFinder.getpseudoLegalMoves w).

(** *** Structurally invalid placement fields, in the words of the
    specification *)

(** The placement field of a FEN record and its ranks. *)
Definition placement_ranks (fen : string) : list string :=
  split "/" (hd EmptyString (split " " fen)).

Definition is_piece_letter (c : ascii) : bool :=
  existsb (Ascii.eqb c)
    ["r"; "n"; "b"; "k"; "q"; "p"; "R"; "N"; "B"; "K"; "Q"; "P"]%char.

(** Digits stand for consecutive empty squares, letters for pieces. *)
Definition recognized (c : ascii) : bool :=
  between "1" "8" c || is_piece_letter c.

(** The number of squares a rank describes. *)
Definition rank_width (s : string) : Z :=
  fold_left (fun n c => if is_digit c then n + digit_value c else n + 1) (chars s) 0.

Definition wrong_rank_count (fen : string) : bool :=
  negb (List.length (placement_ranks fen) =? 8)%nat.

Definition unrecognized_character (fen : string) : bool :=
  existsb (fun s => existsb (fun c => negb (recognized c)) (chars s))
    (placement_ranks fen).

Definition rank_overflow (fen : string) : bool :=
  existsb (fun s => 8 <? rank_width s) (placement_ranks fen).

Definition structurally_invalid (fen : string) : bool :=
  wrong_rank_count fen || unrecognized_character fen || rank_overflow fen.

(** The 64 square names. *)
Definition square_names : list string :=
  flat_map (fun c1 => map (fun c2 => String c1 (String c2 EmptyString))
                          ["1"; "2"; "3"; "4"; "5"; "6"; "7"; "8"]%char)
           ["a"; "b"; "c"; "d"; "e"; "f"; "g"; "h"]%char.


(** A method keeps a property of the world, whatever its result. *)
Definition preserves {A : Type} (P : World -> Prop) (m : M A) : Prop :=
  forall w, P w -> P (snd (m w)).

(** A method returns, or throws a [TypeError]. *)
Definition fails_only_with_TypeError {A : Type} (m : M A) : Prop :=
  forall w,
    match fst (m w) with
    | Ok _ => True
    | Throw e => e = TypeError
    | OutOfFuel => False
    end.

Definition is_null (o : outcome Cell) : bool :=
  match o with
  | Ok Null => true
  | _ => false
  end.

(** *** Positions used in the examples, loaded on a fresh board *)

Definition rook_on_a1 : World :=
  exec (setPositionFromFEN "8/8/8/8/8/8/8/R7") new_World.

Definition rook_on_d4 : World :=
  exec (setPositionFromFEN "8/8/8/8/3R4/8/8/8") new_World.

Definition rook_d4_pawn_d6 : World :=
  exec (setPositionFromFEN "8/8/3P4/8/3R4/8/8/8") new_World.

Definition rook_d4_king_d5 : World :=
  exec (setPositionFromFEN "8/8/8/3k4/3R4/8/8/8") new_World.

Ltac unit_dir := unfold unit_direction; lia.

(** ** More of Point.js and Pieces.js *)



Definition getPointTwoAhead (this : Piece) : outcome (option Point) :=
  on_point this (fun p =>
    let rankTwoAhead :=
      if Color_eqb (color this) BLACK then add (rank p) (Int 2)
      else sub (rank p) (Int 2) in
    let pointAhead := mkPoint (file p) rankTwoAhead in
    Ok (if isValid pointAhead then Some pointAhead else None)).

Definition getPawnAttackPoints (this : Piece) : outcome (list Point) :=
  on_point this (fun p =>
    let dy := if Color_eqb (color this) BLACK then Int 1 else Int (-1) in
    let attack1 := mkPoint (sub (file p) (Int 1)) (add (rank p) dy) in
    let attack2 := mkPoint (add (file p) (Int 1)) (add (rank p) dy) in
    Ok ((if isValid attack1 then [attack1] else [])
          ++ (if isValid attack2 then [attack2] else []))).

(** [isOnStartingSquare] of [Pawn]. *)
Definition Pawn_isOnStartingSquare (this : Piece) : outcome bool :=
  on_point this (fun p =>
    if Color_eqb (color this) BLACK && strict_eq (rank p) (Int 1) then Ok true
    else if Color_eqb (color this) WHITE && strict_eq (rank p) (Int 6) then Ok true
    else Ok false).

(** ** More vocabulary *)

(** The file and rank offsets from [p] to [q], when all four coordinates are
    integers. *)
Definition offsets (p q : Point) : option (Z * Z) :=
  match file p, rank p, file q, rank q with
  | Int a, Int b, Int c, Int d => Some (c - a, d - b)
  | _, _, _, _ => None
  end.

(** [q] is another square on the file or the rank of [p]. *)
Definition on_straight_line (p q : Point) : Prop :=
  exists df dr, offsets p q = Some (df, dr) /\
                (df = 0 \/ dr = 0) /\ (df <> 0 \/ dr <> 0).

(** [q] is another square on a diagonal of [p]. *)
Definition on_diagonal (p q : Point) : Prop :=
  exists df dr, offsets p q = Some (df, dr) /\ Z.abs df = Z.abs dr /\ df <> 0.

(** [q] is a knight's jump away from [p]. *)
Definition knight_jump (p q : Point) : Prop :=
  exists df dr, offsets p q = Some (df, dr) /\
                (Z.abs df = 1 /\ Z.abs dr = 2 \/ Z.abs df = 2 /\ Z.abs dr = 1).

Definition Point_eqb (p q : Point) : bool :=
  key_eqb (file p) (file q) && key_eqb (rank p) (rank q).

(** The 64 points of the board. *)
Definition all_points : list Point :=
  flat_map (fun f => map (fun r => mkPoint (Int f) (Int r)) [0; 1; 2; 3; 4; 5; 6; 7])
           [0; 1; 2; 3; 4; 5; 6; 7].

Definition on_straight_line_b (p q : Point) : bool :=
  match offsets p q with
  | Some (df, dr) => ((df =? 0) || (dr =? 0)) && negb ((df =? 0) && (dr =? 0))
  | None => false
  end.

Definition on_diagonal_b (p q : Point) : bool :=
  match offsets p q with
  | Some (df, dr) => (Z.abs df =? Z.abs dr) && negb (df =? 0)
  | None => false
  end.

Fixpoint distinct (l : list Point) : bool :=
  match l with
  | [] => true
  | p :: l' => negb (existsb (Point_eqb p) l') && distinct l'
  end.

(** A check, for one origin, that [lines] returns [n] lines, without
    repetition, whose points are those of the board that [rel] relates to
    the origin. *)
Definition lines_checked (lines : Point -> outcome (list (list Point)))
    (rel : Point -> Point -> bool) (n : nat) (p : Point) : bool :=
  match lines p with
  | Ok ls =>
      (List.length ls =? n)%nat
      && distinct (List.concat ls)
      && forallb (fun q => existsb (Point_eqb q) all_points) (List.concat ls)
      && forallb (fun q => Bool.eqb (existsb (Point_eqb q) (List.concat ls)) (rel p q))
                 all_points
  | _ => false
  end.

(** What the slot of row [i] and column [j] may hold: [null], or a piece
    whose point is that of the slot. *)
Definition slot_ok (i j : nat) (c : Cell) : Prop :=
  match c with
  | Null => True
  | Undefined => False
  | Occ pc => point pc = Some (mkPoint (Int (Z.of_nat j)) (Int (7 - Z.of_nat i)))
  end.

(** The grid of the constructor, with every piece in the slot of its
    point. *)
Definition board_grid (b : Board) : Prop :=
  List.length (pieceList b) = 8%nat /\
  forall i row, nth_error (pieceList b) i = Some row ->
    List.length (cells row) = 8%nat /\
    forall j c, nth_error (cells row) j = Some c -> slot_ok i j c.

(** The piece that [addPiece] stores for a square. *)
Definition stored_piece (t : PieceType) (c : Color) (sq : Square) : Piece :=
  {| type := t; point := Some (algebraicToPoint sq); color := c |}.

Definition Square_eqb (a b : Square) : bool :=
  match a, b with
  | SqStr s, SqStr t => String.eqb s t
  | SqNaN, SqNaN => true
  | _, _ => false
  end.

(** A square is a string that matches [^[a-h][1-8]$]. *)
Definition is_valid_square (sq : Square) : bool :=
  match sq with
  | SqStr s => is_square_name s
  | SqNaN => false
  end.

(** The second character of a square is a digit from 1 to 8. *)
Definition has_rank_digit (sq : Square) : bool :=
  match char_at sq 1 with
  | Some c => between "1" "8" c
  | None => false
  end.

(** The first character of a square is a letter from a to h. *)
Definition has_file_letter (sq : Square) : bool :=
  match char_at sq 0 with
  | Some c => between "a" "h" c
  | None => false
  end.

(** The second character of a square is the character [c]. *)
Definition rank_digit_is (sq : Square) (c : ascii) : bool :=
  match char_at sq 1 with
  | Some d => Ascii.eqb d c
  | None => false
  end.

(** The piece [this] with its point set, as after a move to [p]. *)
Definition moved_to (this : Piece) (p : Point) : Piece :=
  {| type := type this; point := Some p; color := color this |}.

(** The rank step of a pawn of the colour of [this]. *)
Definition pawn_step (this : Piece) : Z :=
  if Color_eqb (color this) BLACK then 1 else -1.

(** The test of [findUnblockedPoints] on one point: the square is empty, or
    holds a piece that can be captured. *)
Definition unblocked (b : Board) (color0 : Color) (includeCaptures : bool)
    (p : Point) : bool :=
  match occupant b p with
  | Ok (Occ q) => includeCaptures && negb (Color_eqb (color q) color0) && negb (isKing q)
  | _ => true
  end.

(** *** The placement field of a FEN record, read square by square *)

(** The piece that a letter of a placement field stands for. *)
Definition letter_piece (ch : ascii) : option (PieceType * Color) :=
  if Ascii.eqb ch "P" then Some (PAWN, WHITE)
  else if Ascii.eqb ch "B" then Some (BISHOP, WHITE)
  else if Ascii.eqb ch "N" then Some (KNIGHT, WHITE)
  else if Ascii.eqb ch "R" then Some (ROOK, WHITE)
  else if Ascii.eqb ch "K" then Some (KING, WHITE)
  else if Ascii.eqb ch "Q" then Some (QUEEN, WHITE)
  else if Ascii.eqb ch "p" then Some (PAWN, BLACK)
  else if Ascii.eqb ch "b" then Some (BISHOP, BLACK)
  else if Ascii.eqb ch "n" then Some (KNIGHT, BLACK)
  else if Ascii.eqb ch "r" then Some (ROOK, BLACK)
  else if Ascii.eqb ch "k" then Some (KING, BLACK)
  else if Ascii.eqb ch "q" then Some (QUEEN, BLACK)
  else None.

(** The character that stands on file [j] of a rank of a placement field,
    if any: a digit skips as many files as it says, any other character
    takes one file. [file0] is the file of the first character. *)
Fixpoint rank_lookup (str : list ascii) (file0 j : Z) : option ascii :=
  match str with
  | [] => None
  | ch :: rest =>
      if is_digit ch then rank_lookup rest (file0 + digit_value ch) j
      else if file0 =? j then Some ch
      else rank_lookup rest (file0 + 1) j
  end.

(** The piece that the [k]-th rank of the ranks [rows] puts on file [j]. *)
Definition rows_piece (rows : list string) (k j : Z) : option (PieceType * Color) :=
  match nth_error rows (Z.to_nat k) with
  | Some s =>
      match rank_lookup (chars s) 0 j with
      | Some ch => letter_piece ch
      | None => None
      end
  | None => None
  end.

(** The piece that the ranks [rows] put on a square: they go from the
    eighth rank to the first, their files from a to h. *)
Definition square_piece (rows : list string) (sq : Square)
    : option (PieceType * Color) :=
  match sq with
  | SqStr (String l (String d EmptyString)) =>
      rows_piece rows (code "8" - code d) (code l - code "a")
  | _ => None
  end.

(** The piece that a FEN record puts on a square. *)
Definition fen_piece (fen : string) (sq : Square) : option (PieceType * Color) :=
  square_piece (placement_ranks fen) sq.

(** After a call that led from [w] to [w'], the square holds a piece of the
    kind and colour [x] that knows it is there, or reads as before the call
    when [x] is nothing. *)
Definition reads_as (w w' : World) (sq : Square) (x : option (PieceType * Color))
    : Prop :=
  match x with
  | Some (t, c) =>
      exists pc, getPieceAtSquare (board w') sq = Ok (Occ pc)
                 /\ type pc = t /\ color pc = c /\ square pc = Some sq
  | None => getPieceAtSquare (board w') sq = getPieceAtSquare (board w) sq
  end.

(** The pieces of the first and eighth ranks at the start of a game, by
    file. *)
Definition back_rank (l : ascii) : option PieceType :=
  if Ascii.eqb l "a" || Ascii.eqb l "h" then Some ROOK
  else if Ascii.eqb l "b" || Ascii.eqb l "g" then Some KNIGHT
  else if Ascii.eqb l "c" || Ascii.eqb l "f" then Some BISHOP
  else if Ascii.eqb l "d" then Some QUEEN
  else if Ascii.eqb l "e" then Some KING
  else None.

(** The position at the start of a game; with [pawns] false, without its
    pawns. *)
Definition initial_piece (pawns : bool) (sq : Square) : option (PieceType * Color) :=
  match sq with
  | SqStr (String l (String d EmptyString)) =>
      if Ascii.eqb d "1" then option_map (fun t => (t, WHITE)) (back_rank l)
      else if Ascii.eqb d "8" then option_map (fun t => (t, BLACK)) (back_rank l)
      else if pawns && Ascii.eqb d "2" then Some (PAWN, WHITE)
      else if pawns && Ascii.eqb d "7" then Some (PAWN, BLACK)
      else None
  | _ => None
  end.

(** The width of a rank from [file0] on. *)
Definition width_from (str : list ascii) (file0 : Z) : Z :=
  fold_left (fun n c => if is_digit c then n + digit_value c else n + 1) str file0.

(** Reading the square finds a piece. *)
Definition occupied_at (sq : Square) (w : World) : Prop :=
  exists pc, getPieceAtSquare (board w) sq = Ok (Occ pc).

(** * Properties *)
(** ** Rays *)

Lemma loop_guard_spec (r f : Z) :
  geb (Int r) (Int 0) && leb (Int r) (Int 7)
    && geb (Int f) (Int 0) && leb (Int f) (Int 7) = true
  <-> 0 <= f <= 7 /\ 0 <= r <= 7.
Proof. simpl. rewrite !andb_true_iff, !Z.leb_le. lia. Qed.

Lemma guard_on_board (p : Point) :
  geb (rank p) (Int 0) && leb (rank p) (Int 7)
    && geb (file p) (Int 0) && leb (file p) (Int 7) = true ->
  on_board p.
Proof.
  destruct p as [[f|] [r|]]; cbn [file rank]; intros G;
    try (simpl in G; rewrite ?andb_false_r in G; discriminate).
  apply loop_guard_spec in G. exists f, r. split; [reflexivity | exact G].
Qed.

Lemma on_board_dec (p : Point) : on_board p \/ ~ on_board p.
Proof.
  destruct (geb (rank p) (Int 0) && leb (rank p) (Int 7)
            && geb (file p) (Int 0) && leb (file p) (Int 7)) eqn:G.
  - left. apply guard_on_board. exact G.
  - right. intros (f & r & -> & Hf & Hr). cbn [file rank] in G.
    assert (geb (Int r) (Int 0) && leb (Int r) (Int 7)
            && geb (Int f) (Int 0) && leb (Int f) (Int 7) = true)
      by (apply loop_guard_spec; lia).
    congruence.
Qed.

(** The loop from an origin on the board, for integer deltas that are not
    both zero. *)
Section Rays.

Variables f0 r0 dx dy : Z.
Hypothesis origin_in : 0 <= f0 <= 7 /\ 0 <= r0 <= 7.
Hypothesis moving : dx <> 0 \/ dy <> 0.

(** A step that is still on the board is at most the seventh. *)
Lemma step_on_board_le (k : Z) :
  0 <= k ->
  0 <= f0 + k * dx <= 7 /\ 0 <= r0 + k * dy <= 7 ->
  k <= 7.
Proof. intros Hk H. destruct moving; nia. Qed.

Lemma step_not_origin (k : Z) :
  1 <= k ->
  strict_eq (Int (r0 + k * dy)) (Int r0)
    && strict_eq (Int (f0 + k * dx)) (Int f0) = false.
Proof.
  intros Hk. simpl. apply andb_false_iff.
  rewrite !Z.eqb_neq. destruct moving; [right | left]; nia.
Qed.

Lemma moving_truthy : falsy (Int dx) && falsy (Int dy) = false.
Proof.
  apply andb_false_iff. destruct moving as [H|H]; [left | right].
  - destruct dx; simpl; congruence.
  - destruct dy; simpl; congruence.
Qed.

(** From step [k] on, with enough fuel, the loop appends the steps that are
    on the board and returns. *)
Lemma getLine_loop_ray (n : nat) :
  forall (k : Z) (acc : list Point),
    (1 <= n)%nat -> 1 <= k -> 9 <= Z.of_nat n + k ->
    exists m,
      getLine_loop n (mkPoint (Int f0) (Int r0)) (Int dx) (Int dy)
        (Int (r0 + k * dy)) (Int (f0 + k * dx)) acc
      = Ok (acc ++ ray_from f0 r0 dx dy k m)
      /\ Forall on_board (ray_from f0 r0 dx dy k m).
Proof.
  induction n as [|n IH]; intros k acc Hn Hk Hfuel; [lia|].
  cbn [getLine_loop rank file].
  destruct (geb (Int (r0 + k * dy)) (Int 0) && leb (Int (r0 + k * dy)) (Int 7)
            && geb (Int (f0 + k * dx)) (Int 0) && leb (Int (f0 + k * dx)) (Int 7))
    eqn:G.
  - apply loop_guard_spec in G.
    assert (k <= 7) by (apply step_on_board_le; [lia | exact G]).
    rewrite step_not_origin by lia. cbn [negb add].
    replace (r0 + k * dy + dy) with (r0 + (k + 1) * dy) by ring.
    replace (f0 + k * dx + dx) with (f0 + (k + 1) * dx) by ring.
    destruct (IH (k + 1) (acc ++ [mkPoint (Int (f0 + k * dx)) (Int (r0 + k * dy))]))
      as (m & Hm & Hall); try lia.
    exists (S m). split.
    + rewrite Hm. rewrite <- app_assoc. reflexivity.
    + cbn [ray_from]. constructor; [|exact Hall].
      exists (f0 + k * dx), (r0 + k * dy). split; [reflexivity | exact G].
  - exists 0%nat. split; [cbn; now rewrite app_nil_r | constructor].
Qed.

Lemma getLine_on_board_origin :
  exists m,
    getLine (mkPoint (Int f0) (Int r0)) (Int dx) (Int dy)
    = Ok (ray_from f0 r0 dx dy 1 m)
    /\ Forall on_board (ray_from f0 r0 dx dy 1 m).
Proof.
  unfold getLine. rewrite moving_truthy.
  unfold line_fuel. cbn [getLine_loop rank file].
  assert (geb (Int r0) (Int 0) && leb (Int r0) (Int 7)
          && geb (Int f0) (Int 0) && leb (Int f0) (Int 7) = true) as ->
    by (apply loop_guard_spec; exact origin_in).
  assert (strict_eq (Int r0) (Int r0) && strict_eq (Int f0) (Int f0) = true) as ->
    by (simpl; now rewrite !Z.eqb_refl).
  cbn [negb add].
  destruct (getLine_loop_ray 8 1 []) as (m & Hm & Hall); try lia.
  exists m. split; [|exact Hall].
  replace (r0 + 1 * dy) with (r0 + dy) in Hm by ring.
  replace (f0 + 1 * dx) with (f0 + dx) in Hm by ring.
  exact Hm.
Qed.

(** The [i]-th point of a ray that starts at step [k] is step [k + i]. *)
Lemma nth_error_ray_from (m : nat) :
  forall (k : Z) (i : nat) (p : Point),
    nth_error (ray_from f0 r0 dx dy k m) i = Some p ->
    p = step_point f0 r0 dx dy (k + Z.of_nat i).
Proof.
  induction m as [|m IH]; intros k i p H.
  - destruct i; discriminate.
  - destruct i as [|i]; cbn in H.
    + inversion H. f_equal; f_equal; lia.
    + apply IH in H. rewrite H. f_equal; lia.
Qed.

End Rays.

(** In a unit direction, step [k] is at Chebyshev distance [k]. *)
Lemma chebyshev_step (f0 r0 dx dy k : Z) :
  unit_direction dx dy -> 0 <= k ->
  chebyshev (mkPoint (Int f0) (Int r0)) (step_point f0 r0 dx dy k) = Int k.
Proof.
  intros (Hx & Hy & Hne) Hk.
  unfold chebyshev, step_point. cbn [file rank]. f_equal.
  replace (f0 + k * dx - f0) with (k * dx) by ring.
  replace (r0 + k * dy - r0) with (k * dy) by ring.
  nia.
Qed.

(** From a point off the board the loop is left at once. *)
Lemma getLine_off_board (p : Point) (dx dy : num) :
  falsy dx && falsy dy = false -> ~ on_board p -> getLine p dx dy = Ok [].
Proof.
  intros Hd Hoff. unfold getLine. rewrite Hd.
  unfold line_fuel. cbn [getLine_loop].
  destruct (geb (rank p) (Int 0) && leb (rank p) (Int 7)
            && geb (file p) (Int 0) && leb (file p) (Int 7)) eqn:G.
  - exfalso. apply Hoff. apply guard_on_board. exact G.
  - reflexivity.
Qed.

(** A delta that is [NaN] takes the walk off the board at the first step. *)
Lemma getLine_NaN (p : Point) (dx dy : num) :
  falsy dx && falsy dy = false -> dx = NaN \/ dy = NaN ->
  getLine p dx dy = Ok [].
Proof.
  intros Hd Hnan.
  destruct (on_board_dec p) as [(f0 & r0 & -> & Hin)|Hoff];
    [|now apply getLine_off_board].
  unfold getLine. rewrite Hd. unfold line_fuel. cbn [getLine_loop rank file].
  assert (geb (Int r0) (Int 0) && leb (Int r0) (Int 7)
          && geb (Int f0) (Int 0) && leb (Int f0) (Int 7) = true) as ->
    by (apply loop_guard_spec; exact Hin).
  assert (strict_eq (Int r0) (Int r0) && strict_eq (Int f0) (Int f0) = true) as ->
    by (simpl; now rewrite !Z.eqb_refl).
  cbn [negb].
  destruct dx as [dx|], dy as [dy|]; destruct Hnan as [H|H];
    try discriminate H; cbn [add geb leb getLine_loop];
    rewrite ?andb_false_r; reflexivity.
Qed.

(** [getLine] never runs out of fuel: it throws when both deltas are falsy
    and otherwise returns points of the board. *)
Lemma getLine_loop_fuel (p : Point) (dx dy : num) :
  falsy dx && falsy dy = false ->
  exists l, getLine p dx dy = Ok l /\ Forall on_board l.
Proof.
  intros Hd.
  destruct dx as [dx|]; [destruct dy as [dy|]|].
  - destruct (on_board_dec p) as [(f0 & r0 & -> & Hin)|Hoff].
    + assert (dx <> 0 \/ dy <> 0) as Hmove.
      { apply andb_false_iff in Hd. destruct Hd as [H|H]; [left | right];
          intros ->; discriminate. }
      destruct (getLine_on_board_origin f0 r0 dx dy Hin Hmove) as (m & Hm & Hall).
      eexists. split; [exact Hm | exact Hall].
    + exists []. split; [now apply getLine_off_board | constructor].
  - exists []. split; [apply getLine_NaN; auto | constructor].
  - exists []. split; [apply getLine_NaN; auto | constructor].
Qed.

Lemma unit_direction_truthy (dx dy : Z) :
  unit_direction dx dy -> falsy (Int dx) && falsy (Int dy) = false.
Proof. intros (_ & _ & Hne). now apply moving_truthy. Qed.

(** [getLine] in a unit direction: the ray it returns. *)
Lemma getLine_unit (p : Point) (dx dy : Z) :
  unit_direction dx dy ->
  exists l,
    getLine p (Int dx) (Int dy) = Ok l /\ Forall on_board l /\
    forall i q, nth_error l i = Some q -> chebyshev p q = Int (1 + Z.of_nat i).
Proof.
  intros Hd. destruct (on_board_dec p) as [(f0 & r0 & -> & Hin)|Hoff].
  - destruct (getLine_on_board_origin f0 r0 dx dy Hin (proj2 (proj2 Hd)))
      as (m & Hm & Hall).
    exists (ray_from f0 r0 dx dy 1 m). repeat split; try assumption.
    intros i q Hq. apply nth_error_ray_from in Hq. subst q.
    apply chebyshev_step; [exact Hd | lia].
  - exists []. split.
    + apply getLine_off_board; [now apply unit_direction_truthy | exact Hoff].
    + split; [constructor|]. intros [|i] q Hq; discriminate.
Qed.

(** C10: in each of the eight unit directions [getLine] returns a list of
    points that are all on the board (file and rank between 0 and 7), and
    each point is strictly farther from the origin, in Chebyshev distance,
    than the one before it. *)
Theorem getLine_in_bounds_and_farther (origin : Point) (dx dy : Z) :
  unit_direction dx dy ->
  exists l,
    getLine origin (Int dx) (Int dy) = Ok l /\
    (forall p, In p l -> on_board p) /\
    (forall i p q,
        nth_error l i = Some p -> nth_error l (S i) = Some q ->
        farther origin p q).
Proof.
  intros Hd. destruct (getLine_unit origin dx dy Hd) as (l & Hl & Hall & Hdist).
  exists l. split; [exact Hl|]. split.
  - intros p Hp. rewrite Forall_forall in Hall. now apply Hall.
  - intros i p q Hp Hq.
    exists (1 + Z.of_nat i), (1 + Z.of_nat (S i)).
    split; [now apply Hdist|]. split; [now apply Hdist|]. lia.
Qed.

Lemma getLine_in_bounds_and_farther_witness :
  exists l,
    getLine (mkPoint (Int 3) (Int 4)) (Int 0) (Int (-1)) = Ok l /\
    (forall p, In p l -> on_board p) /\
    (forall i p q,
        nth_error l i = Some p -> nth_error l (S i) = Some q ->
        farther (mkPoint (Int 3) (Int 4)) p q).
Proof.
  apply (getLine_in_bounds_and_farther (mkPoint (Int 3) (Int 4)) 0 (-1)).
  unfold unit_direction. lia.
Defined.

(** ** Reading the square of a point *)

Lemma small_cases (z : Z) :
  0 <= z <= 7 ->
  z = 0 \/ z = 1 \/ z = 2 \/ z = 3 \/ z = 4 \/ z = 5 \/ z = 6 \/ z = 7.
Proof. lia. Qed.

(** On the board, the name that [toAlgebraic] gives to a point is read back
    by [algebraicToPoint] as the point mirrored in its rank. *)
Lemma algebraicToPoint_toAlgebraic (f r : Z) :
  0 <= f <= 7 -> 0 <= r <= 7 ->
  algebraicToPoint (toAlgebraic (mkPoint (Int f) (Int r)))
  = mkPoint (Int f) (Int (7 - r)).
Proof.
  intros Hf Hr.
  destruct (small_cases f Hf) as [->|[->|[->|[->|[->|[->|[->| ->]]]]]]];
    destruct (small_cases r Hr) as [->|[->|[->|[->|[->|[->|[->| ->]]]]]]];
    reflexivity.
Qed.

Lemma occupant_on_board (b : Board) (f r : Z) :
  0 <= f <= 7 -> 0 <= r <= 7 ->
  occupant b (mkPoint (Int f) (Int r))
  = match nth_error (pieceList b) (Z.to_nat (7 - r)) with
    | Some row => Ok (nth (Z.to_nat f) (cells row) Undefined)
    | None => Throw TypeError
    end.
Proof.
  intros Hf Hr. unfold occupant, getPieceAtSquare.
  rewrite algebraicToPoint_toAlgebraic by assumption.
  cbn [rank file pieceList_at row_get].
  assert ((0 <=? 7 - r) = true) as -> by (apply Z.leb_le; lia).
  assert ((0 <=? f) = true) as -> by (apply Z.leb_le; lia).
  destruct (nth_error (pieceList b) (Z.to_nat (7 - r))); reflexivity.
Qed.

Lemma occupant_total (b : Board) (p : Point) :
  (8 <= List.length (pieceList b))%nat -> on_board p ->
  exists v, occupant b p = Ok v.
Proof.
  intros Hrows (f & r & -> & Hf & Hr).
  rewrite occupant_on_board by assumption.
  destruct (nth_error (pieceList b) (Z.to_nat (7 - r))) as [row|] eqn:E.
  - eexists; reflexivity.
  - apply nth_error_None in E. lia.
Qed.

(** ** The loops of the enumerator return *)

Section Loops.

Variable b : Board.
Hypothesis rows : (8 <= List.length (pieceList b))%nat.
Variable color0 : Color.

Lemma line_loop_total (line : list Point) :
  Forall on_board line ->
  forall blocked acc, exists l, line_loop b color0 line blocked acc = Ok l.
Proof.
  induction 1 as [|p line Hp _ IH]; intros blocked acc; cbn [line_loop].
  - eexists; reflexivity.
  - destruct blocked; [eexists; reflexivity|].
    destruct (occupant_total b p rows Hp) as (v & Hv).
    unfold occupant in Hv. rewrite Hv. cbn [obind].
    destruct v as [| |q]; try apply IH.
    destruct (Color_eqb (color q) color0); cbn [negb andb]; [apply IH|].
    destruct (PieceType_eqb (type q) KING); cbn [negb]; apply IH.
Qed.

Lemma lines_loop_total (lines : list (list Point)) :
  Forall (Forall on_board) lines ->
  forall acc, exists l, lines_loop b color0 lines acc = Ok l.
Proof.
  induction 1 as [|line lines Hl _ IH]; intros acc; cbn [lines_loop].
  - eexists; reflexivity.
  - destruct (line_loop_total line Hl false acc) as (l & ->). cbn [obind].
    apply IH.
Qed.

Lemma findUnblockedPoints_loop_total (pointList : list Point) (caps : bool) :
  Forall on_board pointList ->
  forall acc, exists l, findUnblockedPoints_loop b pointList color0 caps acc = Ok l.
Proof.
  induction 1 as [|p l Hp _ IH]; intros acc; cbn [findUnblockedPoints_loop].
  - eexists; reflexivity.
  - destruct (occupant_total b p rows Hp) as (v & Hv).
    unfold occupant in Hv. rewrite Hv. cbn [obind].
    destruct v as [| |q]; try apply IH.
    destruct (caps && negb (Color_eqb (color q) color0) && negb (isKing q));
      apply IH.
Qed.

End Loops.

(** ** The lines and point sets of a piece are on the board *)

Lemma getStraightLines_total (p : Point) :
  exists ls, getStraightLines p = Ok ls /\ Forall (Forall on_board) ls.
Proof.
  unfold getStraightLines.
  destruct (getLine_unit p (-1) 0) as (l1 & -> & H1 & _); [unit_dir|].
  destruct (getLine_unit p 1 0) as (l2 & -> & H2 & _); [unit_dir|].
  destruct (getLine_unit p 0 (-1)) as (l3 & -> & H3 & _); [unit_dir|].
  destruct (getLine_unit p 0 1) as (l4 & -> & H4 & _); [unit_dir|].
  cbn [obind]. eexists. split; [reflexivity|]. repeat constructor; assumption.
Qed.

Lemma getDiagonals_total (p : Point) :
  exists ls, getDiagonals p = Ok ls /\ Forall (Forall on_board) ls.
Proof.
  unfold getDiagonals.
  destruct (getLine_unit p 1 (-1)) as (l1 & -> & H1 & _); [unit_dir|].
  destruct (getLine_unit p 1 1) as (l2 & -> & H2 & _); [unit_dir|].
  destruct (getLine_unit p (-1) (-1)) as (l3 & -> & H3 & _); [unit_dir|].
  destruct (getLine_unit p (-1) 1) as (l4 & -> & H4 & _); [unit_dir|].
  cbn [obind]. eexists. split; [reflexivity|]. repeat constructor; assumption.
Qed.

Lemma getAllLines_total (p : Point) :
  exists ls, getAllLines p = Ok ls /\ Forall (Forall on_board) ls.
Proof.
  unfold getAllLines.
  destruct (getStraightLines_total p) as (s & -> & Hs).
  destruct (getDiagonals_total p) as (d & -> & Hd).
  cbn [obind]. eexists. split; [reflexivity|].
  apply Forall_app. split; assumption.
Qed.

Lemma _isInBounds_on_board (f r : num) :
  _isInBounds f r = true -> on_board (mkPoint f r).
Proof.
  unfold _isInBounds. destruct f as [f|], r as [r|]; simpl;
    rewrite ?andb_false_r; try discriminate.
  rewrite !andb_true_iff, !Z.leb_le. intros H.
  exists f, r. split; [reflexivity | lia].
Qed.

Lemma getSurroundingPoints_on_board (p : Point) :
  Forall on_board (getSurroundingPoints p).
Proof.
  unfold getSurroundingPoints. apply Forall_forall. intros q Hq.
  apply in_flat_map in Hq. destruct Hq as (dy & _ & Hq).
  apply in_flat_map in Hq. destruct Hq as (dx & _ & Hq).
  destruct ((dx =? 0) && (dy =? 0)); [destruct Hq|].
  destruct (_isInBounds _ _) eqn:E; [|destruct Hq].
  destruct Hq as [<-|[]]. now apply _isInBounds_on_board.
Qed.

Lemma getKnightPoints_on_board (p : Point) :
  Forall on_board (getKnightPoints p).
Proof.
  unfold getKnightPoints. apply Forall_forall. intros q Hq.
  apply in_flat_map in Hq. destruct Hq as (d & _ & Hq).
  destruct (_isInBounds _ _) eqn:E; [|destruct Hq].
  destruct Hq as [<-|[]]. now apply _isInBounds_on_board.
Qed.

(** ** The enumerator returns nothing *)

Lemma log_moves_runs (l : list Point) :
  forall w, exists w', log_moves l w = (Ok tt, w') /\ board w' = board w.
Proof.
  unfold log_moves.
  induction l as [|p l IH]; intros w; cbn [for_each].
  - exists w. split; reflexivity.
  - unfold mbind at 1. cbn [console_log].
    destruct (IH {| board := board w;
                    console := console w ++ [show_square (toAlgebraic p)] |})
      as (w' & Hw' & Hb).
    exists w'. split; [exact Hw' | exact Hb].
Qed.

(** The part that every case of the [switch] ends with. *)
Lemma log_and_leave (h : string) (l : list Point) (w : World) :
  exists w',
    mbind (console_log h) (fun _ => mbind (log_moves l) (fun _ => ret l)) w
    = (Ok l, w')
    /\ board w' = board w.
Proof.
  unfold mbind at 1. cbn [console_log].
  destruct (log_moves_runs l {| board := board w; console := console w ++ [h] |})
    as (w' & Hw' & Hb).
  unfold mbind. rewrite Hw'. exists w'. split; [reflexivity | exact Hb].
Qed.

Lemma pseudoMoves_switch_runs (piece : Piece) (w : World) :
  (8 <= List.length (pieceList (board w)))%nat ->
  point piece <> None ->
  exists l w', pseudoMoves_switch piece w = (Ok l, w') /\ board w' = board w.
Proof.
  intros Hrows Hpt.
  destruct (point piece) as [p|] eqn:Ep; [clear Hpt | congruence].
  unfold pseudoMoves_switch.
  destruct (type piece).
  - (* pawn *)
    unfold mbind at 1. unfold read, getPawnPseudoMoves, getPointAhead, on_point.
    rewrite Ep. cbn [obind].
    destruct (log_and_leave (header piece "Pawn") [] w) as (w' & Hw' & Hb).
    exists [], w'. split; assumption.
  - (* bishop *)
    unfold mbind at 1. unfold lift, Piece_getDiagonals, on_point. rewrite Ep.
    destruct (getDiagonals_total p) as (ls & -> & Hls).
    unfold mbind at 1. unfold read, findUnblockedPointsOnLine.
    destruct (lines_loop_total (board w) Hrows (color piece) ls Hls []) as (l & ->).
    destruct (log_and_leave (header piece "Bishop") l w) as (w' & Hw' & Hb).
    exists l, w'. split; assumption.
  - (* knight *)
    unfold mbind at 1. unfold lift, Piece_getKnightPoints, on_point. rewrite Ep.
    unfold mbind at 1. unfold read, findUnblockedPoints.
    destruct (findUnblockedPoints_loop_total (board w) Hrows (color piece)
                (getKnightPoints p) true (getKnightPoints_on_board p) [])
      as (l & ->).
    destruct (log_and_leave (header piece "Knight") l w) as (w' & Hw' & Hb).
    exists l, w'. split; assumption.
  - (* rook *)
    unfold mbind at 1. unfold lift, Piece_getStraightLines, on_point. rewrite Ep.
    destruct (getStraightLines_total p) as (ls & -> & Hls).
    unfold mbind at 1. unfold read, findUnblockedPointsOnLine.
    destruct (lines_loop_total (board w) Hrows (color piece) ls Hls []) as (l & ->).
    destruct (log_and_leave (header piece "Rook") l w) as (w' & Hw' & Hb).
    exists l, w'. split; assumption.
  - (* king *)
    unfold mbind at 1. unfold lift, Piece_getSurroundingPoints, on_point. rewrite Ep.
    unfold mbind at 1. unfold read, findUnblockedPoints.
    destruct (findUnblockedPoints_loop_total (board w) Hrows (color piece)
                (getSurroundingPoints p) true (getSurroundingPoints_on_board p) [])
      as (l & ->).
    destruct (log_and_leave (header piece "King") l w) as (w' & Hw' & Hb).
    exists l, w'. split; assumption.
  - (* queen *)
    unfold mbind at 1. unfold lift, Piece_getAllLines, on_point. rewrite Ep.
    destruct (getAllLines_total p) as (ls & -> & Hls).
    unfold mbind at 1. unfold read, findUnblockedPointsOnLine.
    destruct (lines_loop_total (board w) Hrows (color piece) ls Hls []) as (l & ->).
    destruct (log_and_leave (header piece "Queen") l w) as (w' & Hw' & Hb).
    exists l, w'. split; assumption.
Qed.

Lemma getpseudoLegalMovesForPiece_undefined (piece : Piece) (w : World) :
  (8 <= List.length (pieceList (board w)))%nat ->
  point piece <> None ->
  exists w', getpseudoLegalMovesForPiece piece w = (Ok None, w')
             /\ board w' = board w.
Proof.
  intros Hrows Hpt. unfold getpseudoLegalMovesForPiece, mbind.
  destruct (pseudoMoves_switch_runs piece w Hrows Hpt) as (l & w' & -> & Hb).
  exists w'. split; [reflexivity | exact Hb].
Qed.

Lemma getpseudoLegalMoves_loop_keeps (ps : list Piece) :
  Forall (fun pc => point pc <> None) ps ->
  forall moves w,
    (8 <= List.length (pieceList (board w)))%nat ->
    exists w', getpseudoLegalMoves_loop ps moves w = (Ok moves, w')
               /\ board w' = board w.
Proof.
  induction 1 as [|piece ps Hp _ IH]; intros moves w Hrows;
    cbn [getpseudoLegalMoves_loop].
  - exists w. split; reflexivity.
  - unfold mbind.
    destruct (getpseudoLegalMovesForPiece_undefined piece w Hrows Hp)
      as (w1 & -> & Hb1).
    destruct (IH moves w1) as (w2 & Hw2 & Hb2); [rewrite Hb1; exact Hrows|].
    exists w2. split; [exact Hw2 | congruence].
Qed.

(** The same for the one-file version. *)
Lemma one_file_pseudoMoves_switch_runs (piece : Piece) (w : World) :
  (8 <= List.length (pieceList (board w)))%nat ->
  point piece <> None ->
  exists l w', ChessFinder.pseudoMoves_switch piece w = (Ok l, w')
               /\ board w' = board w.
Proof.
  intros Hrows Hpt.
  destruct (point piece) as [p|] eqn:Ep; [clear Hpt | congruence].
  unfold ChessFinder.pseudoMoves_switch.
  destruct (type piece); try (exists [], w; split; reflexivity).
  - unfold mbind at 1. unfold lift, Piece_getDiagonals, on_point. rewrite Ep.
    destruct (getDiagonals_total p) as (ls & -> & Hls).
    unfold mbind at 1. unfold read, ChessFinder.findUnblockedPoints.
    destruct (lines_loop_total (board w) Hrows (color piece) ls Hls []) as (l & ->).
    destruct (log_and_leave (header piece "Bishop") l w) as (w' & Hw' & Hb).
    exists l, w'. split; assumption.
  - unfold mbind at 1. unfold lift, Piece_getStraightLines, on_point. rewrite Ep.
    destruct (getStraightLines_total p) as (ls & -> & Hls).
    unfold mbind at 1. unfold read, ChessFinder.findUnblockedPoints.
    destruct (lines_loop_total (board w) Hrows (color piece) ls Hls []) as (l & ->).
    destruct (log_and_leave (header piece "Rook") l w) as (w' & Hw' & Hb).
    exists l, w'. split; assumption.
  - unfold mbind at 1. unfold lift, Piece_getAllLines, on_point. rewrite Ep.
    destruct (getAllLines_total p) as (ls & -> & Hls).
    unfold mbind at 1. unfold read, ChessFinder.findUnblockedPoints.
    destruct (lines_loop_total (board w) Hrows (color piece) ls Hls []) as (l & ->).
    destruct (log_and_leave (header piece "Queen") l w) as (w' & Hw' & Hb).
    exists l, w'. split; assumption.
Qed.

Lemma one_file_getpseudoLegalMovesForPiece_undefined (piece : Piece) (w : World) :
  (8 <= List.length (pieceList (board w)))%nat ->
  point piece <> None ->
  exists w', ChessFinder.getpseudoLegalMovesForPiece piece w = (Ok None, w')
             /\ board w' = board w.
Proof.
  intros Hrows Hpt. unfold ChessFinder.getpseudoLegalMovesForPiece, mbind.
  destruct (one_file_pseudoMoves_switch_runs piece w Hrows Hpt)
    as (l & w' & -> & Hb).
  exists w'. split; [reflexivity | exact Hb].
Qed.

Lemma one_file_getpseudoLegalMoves_loop_keeps (ps : list Piece) :
  Forall (fun pc => point pc <> None) ps ->
  forall moves w,
    (8 <= List.length (pieceList (board w)))%nat ->
    exists w', ChessFinder.getpseudoLegalMoves_loop ps moves w = (Ok moves, w')
               /\ board w' = board w.
Proof.
  induction 1 as [|piece ps Hp _ IH]; intros moves w Hrows;
    cbn [ChessFinder.getpseudoLegalMoves_loop].
  - exists w. split; reflexivity.
  - unfold mbind.
    destruct (one_file_getpseudoLegalMovesForPiece_undefined piece w Hrows Hp)
      as (w1 & -> & Hb1).
    destruct (IH moves w1) as (w2 & Hw2 & Hb2); [rewrite Hb1; exact Hrows|].
    exists w2. split; [exact Hw2 | congruence].
Qed.

(** ** Every board that the methods build is well formed *)

Lemma fold_left_app_In (rows : list (list Piece)) :
  forall acc pc,
    In pc (fold_left (fun pieceArray row => pieceArray ++ row) rows acc) ->
    In pc acc \/ exists row, In row rows /\ In pc row.
Proof.
  induction rows as [|row rows IH]; intros acc pc H; cbn in H.
  - now left.
  - apply IH in H. destruct H as [H|(row' & Hr & Hpc)].
    + apply in_app_or in H. destruct H as [H|H]; [now left|].
      right. exists row. split; [now left | exact H].
    + right. exists row'. split; [now right | exact Hpc].
Qed.

Lemma filter_not_null_In (cs : list Cell) (pc : Piece) :
  In pc (filter_not_null cs) -> In (Occ pc) cs.
Proof.
  induction cs as [|c cs IH]; cbn; [tauto|].
  destruct c as [| |q]; cbn; intros H.
  - right; auto.
  - right; auto.
  - destruct H as [->|H]; [now left | right; auto].
Qed.

Lemma board_ok_pieces (b : Board) :
  board_ok b -> Forall (fun pc => point pc <> None) (pieces b).
Proof.
  intros (_ & Hall). apply Forall_forall. intros pc Hpc.
  unfold pieces in Hpc. apply fold_left_app_In in Hpc.
  destruct Hpc as [[]|(row & Hrow & Hpc)].
  apply in_map_iff in Hrow. destruct Hrow as (r & <- & Hr).
  apply filter_not_null_In in Hpc.
  rewrite Forall_forall in Hall. specialize (Hall r Hr).
  rewrite Forall_forall in Hall. exact (Hall _ Hpc).
Qed.

Lemma getpseudoLegalMoves_keeps (w : World) :
  board_ok (board w) ->
  exists w', getpseudoLegalMoves w = (Ok [], w') /\ board w' = board w.
Proof.
  intros Hok. unfold getpseudoLegalMoves.
  apply getpseudoLegalMoves_loop_keeps.
  - now apply board_ok_pieces.
  - exact (proj1 Hok).
Qed.

Lemma one_file_getpseudoLegalMoves_keeps (w : World) :
  board_ok (board w) ->
  exists w', ChessFinder.getpseudoLegalMoves w = (Ok [], w') /\ board w' = board w.
Proof.
  intros Hok. unfold ChessFinder.getpseudoLegalMoves.
  apply one_file_getpseudoLegalMoves_loop_keeps.
  - now apply board_ok_pieces.
  - exact (proj1 Hok).
Qed.

Section Preservation.

Variable P : World -> Prop.

Lemma preserves_ret {A : Type} (a : A) : preserves P (ret a).
Proof. intros w H. exact H. Qed.

Lemma preserves_lift {A : Type} (o : outcome A) : preserves P (lift o).
Proof. intros w H. exact H. Qed.

Lemma preserves_mbind {A B : Type} (m : M A) (k : A -> M B) :
  preserves P m -> (forall a, preserves P (k a)) -> preserves P (mbind m k).
Proof.
  intros Hm Hk w H. unfold mbind. specialize (Hm w H).
  destruct (m w) as [[a|e|] w']; cbn [snd] in *; auto.
  now apply Hk.
Qed.

Lemma preserves_for_each {A : Type} (body : A -> M unit) (l : list A) :
  (forall x, preserves P (body x)) -> preserves P (for_each body l).
Proof.
  intros Hbody. induction l as [|x l IH]; cbn [for_each].
  - apply preserves_ret.
  - apply preserves_mbind; [apply Hbody | intros _; exact IH].
Qed.

End Preservation.

Lemma length_update_nth {A : Type} (l : list A) :
  forall n x, List.length (update_nth n x l) = List.length l.
Proof.
  induction l as [|y l IH]; intros [|n] x; cbn; auto.
Qed.

Lemma Forall_update_nth {A : Type} (Q : A -> Prop) (l : list A) :
  forall n x, Forall Q l -> Q x -> Forall Q (update_nth n x l).
Proof.
  induction l as [|y l IH]; intros [|n] x Hl Hx; cbn; auto;
    inversion Hl; subst; constructor; auto.
Qed.

Lemma row_set_placed (row : Row) (k : num) (pc : Piece) :
  Forall placed (cells row) -> point pc <> None ->
  Forall placed (cells (row_set row k pc)).
Proof.
  intros Hrow Hpc. unfold row_set.
  destruct k as [z|]; [|exact Hrow].
  destruct (0 <=? z); [|exact Hrow]. cbn [cells].
  destruct (Z.to_nat z <? List.length (cells row))%nat.
  - apply Forall_update_nth; assumption.
  - apply Forall_app. split; [exact Hrow|].
    apply Forall_app. split.
    + apply Forall_forall. intros c Hc. apply repeat_spec in Hc. now subst c.
    + constructor; [exact Hpc | constructor].
Qed.

Lemma setPieceAtSquare_ok (sq : Square) (piece : Cell) :
  preserves (fun w => board_ok (board w)) (setPieceAtSquare sq piece).
Proof.
  intros w (Hlen & Hall). unfold setPieceAtSquare.
  destruct piece as [| |pc]; try (split; assumption).
  destruct (pieceList_at (board w) _) as [[i row]|] eqn:E; [|split; assumption].
  unfold board_ok. cbn [snd board pieceList]. split.
  - rewrite length_update_nth. exact Hlen.
  - apply Forall_update_nth; [exact Hall|].
    apply row_set_placed; [|discriminate].
    unfold pieceList_at in E.
    destruct (sub (Int 7) (rank (algebraicToPoint sq))) as [z|]; [|discriminate].
    destruct (0 <=? z); [|discriminate].
    destruct (nth_error (pieceList (board w)) (Z.to_nat z)) as [row'|] eqn:En;
      [|discriminate].
    inversion E; subst. apply nth_error_In in En.
    rewrite Forall_forall in Hall. exact (Hall _ En).
Qed.

Lemma addPiece_ok (t : PieceType) (c : Color) (sq : Square) :
  preserves (fun w => board_ok (board w)) (addPiece t c sq).
Proof. unfold addPiece. apply setPieceAtSquare_ok. Qed.

Lemma place_letter_ok (ch : ascii) (c : Color) (sq : Square) :
  preserves (fun w => board_ok (board w)) (place_letter ch c sq).
Proof.
  unfold place_letter.
  repeat match goal with
         | |- context [if ?t then _ else _] => destruct t; [apply addPiece_ok|]
         end.
  apply preserves_ret.
Qed.

Lemma fen_row_ok (rank0 : Z) (str : list ascii) :
  forall file0, preserves (fun w => board_ok (board w)) (fen_row rank0 str file0).
Proof.
  induction str as [|ch rest IH]; intros file0; cbn [fen_row].
  - apply preserves_ret.
  - destruct (file0 <=? 8); [|apply preserves_ret].
    destruct (is_digit ch); [apply IH|].
    apply preserves_mbind; [apply place_letter_ok | intros _; apply IH].
Qed.

Lemma setPositionFromFEN_ok (fen : string) :
  preserves (fun w => board_ok (board w)) (setPositionFromFEN fen).
Proof.
  unfold setPositionFromFEN. apply preserves_for_each. intros i.
  unfold fen_rank. destruct (nth_error _ i).
  - apply fen_row_ok.
  - apply preserves_lift.
Qed.

Lemma new_Board_ok : board_ok new_Board.
Proof.
  split; [cbn; lia|]. cbn. repeat constructor.
Qed.

Lemma reachable_board_ok (w : World) : reachable w -> board_ok (board w).
Proof.
  induction 1 as [|w t c sq _ IH|w sq _ IH|w fen _ IH|w _ IH|w _ IH].
  - exact new_Board_ok.
  - exact (addPiece_ok t c sq w IH).
  - exact (setPieceAtSquare_ok sq Null w IH).
  - exact (setPositionFromFEN_ok fen w IH).
  - destruct (getpseudoLegalMoves_keeps w IH) as (w' & Hw' & Hb).
    unfold exec. rewrite Hw'. cbn [snd]. rewrite Hb. exact IH.
  - destruct (one_file_getpseudoLegalMoves_keeps w IH) as (w' & Hw' & Hb).
    unfold exec. rewrite Hw'. cbn [snd]. rewrite Hb. exact IH.
Qed.

(** C4: on every board that the methods can build, [getpseudoLegalMoves]
    returns the empty list: [getpseudoLegalMovesForPiece] computes and prints
    the candidates of each piece but returns [undefined], which the
    aggregator drops. The board is left as it was. The same holds of the
    one-file version in [chess-finder.js]. *)
Theorem getpseudoLegalMoves_returns_nothing (w : World) :
  reachable w ->
  (result getpseudoLegalMoves w = Ok [] /\
   board (exec getpseudoLegalMoves w) = board w /\
   forall piece, In piece (pieces (board w)) ->
     result (getpseudoLegalMovesForPiece piece) w = Ok None) /\
  (result ChessFinder.getpseudoLegalMoves w = Ok [] /\
   board (exec ChessFinder.getpseudoLegalMoves w) = board w /\
   forall piece, In piece (pieces (board w)) ->
     result (ChessFinder.getpseudoLegalMovesForPiece piece) w = Ok None).
Proof.
  intros Hr. pose proof (reachable_board_ok w Hr) as Hok.
  pose proof (board_ok_pieces _ Hok) as Hall. rewrite Forall_forall in Hall.
  split.
  - destruct (getpseudoLegalMoves_keeps w Hok) as (w' & Hw' & Hb).
    unfold result, exec. rewrite Hw'. cbn [fst snd].
    split; [reflexivity|]. split; [exact Hb|].
    intros piece Hp.
    destruct (getpseudoLegalMovesForPiece_undefined piece w (proj1 Hok) (Hall _ Hp))
      as (w1 & -> & _).
    reflexivity.
  - destruct (one_file_getpseudoLegalMoves_keeps w Hok) as (w' & Hw' & Hb).
    unfold result, exec. rewrite Hw'. cbn [fst snd].
    split; [reflexivity|]. split; [exact Hb|].
    intros piece Hp.
    destruct (one_file_getpseudoLegalMovesForPiece_undefined piece w (proj1 Hok)
                (Hall _ Hp)) as (w1 & -> & _).
    reflexivity.
Qed.

Lemma getpseudoLegalMoves_returns_nothing_witness :
  reachable (exec setNoPawnsPosition new_World) /\
  result getpseudoLegalMoves (exec setNoPawnsPosition new_World) = Ok [] /\
  result ChessFinder.getpseudoLegalMoves (exec setNoPawnsPosition new_World) = Ok [].
Proof.
  assert (reachable (exec setNoPawnsPosition new_World)) as Hr
    by (apply reach_setPositionFromFEN; apply reach_new).
  split; [exact Hr|].
  pose proof (getpseudoLegalMoves_returns_nothing
                (exec setNoPawnsPosition new_World) Hr) as H.
  split; [exact (proj1 (proj1 H)) | exact (proj1 (proj2 H))].
Defined.

(** ** Walking one ray *)

Lemma Color_eqb_eq (a b : Color) : Color_eqb a b = true <-> a = b.
Proof. destruct a, b; simpl; split; congruence. Qed.

Lemma PieceType_eqb_eq (a b : PieceType) : PieceType_eqb a b = true <-> a = b.
Proof. destruct a, b; simpl; split; congruence. Qed.

Section Walk.

Variable b : Board.
Variable color0 : Color.

Lemma line_loop_blocked (line acc : list Point) :
  line_loop b color0 line true acc = Ok acc.
Proof. destruct line; reflexivity. Qed.

(** Empty squares are collected and the walk goes on. *)
Lemma line_loop_empty_prefix (pre : list Point) :
  Forall (empty_square b) pre ->
  forall rest acc,
    line_loop b color0 (pre ++ rest) false acc
    = line_loop b color0 rest false (acc ++ pre).
Proof.
  induction 1 as [|p pre (v & Hv & Habs) _ IH]; intros rest acc.
  - now rewrite app_nil_r.
  - cbn [app line_loop]. unfold occupant in Hv. rewrite Hv. cbn [obind].
    destruct v as [| |q]; try discriminate;
      rewrite IH, <- app_assoc; reflexivity.
Qed.

(** A piece of the walker's colour ends the ray and is left out. *)
Lemma line_loop_own (p : Point) (q : Piece) (post acc : list Point) :
  occupied_by b p q -> color q = color0 ->
  line_loop b color0 (p :: post) false acc = Ok acc.
Proof.
  intros Hq Hc. cbn [line_loop]. unfold occupied_by, occupant in Hq.
  rewrite Hq. cbn [obind].
  apply Color_eqb_eq in Hc. rewrite Hc. apply line_loop_blocked.
Qed.

(** A piece of the other colour that is no king is taken and ends the ray. *)
Lemma line_loop_capture (p : Point) (q : Piece) (post acc : list Point) :
  occupied_by b p q -> color q <> color0 -> type q <> KING ->
  line_loop b color0 (p :: post) false acc = Ok (acc ++ [p]).
Proof.
  intros Hq Hc Hk. cbn [line_loop]. unfold occupied_by, occupant in Hq.
  rewrite Hq. cbn [obind].
  destruct (Color_eqb (color q) color0) eqn:Ec;
    [apply Color_eqb_eq in Ec; contradiction|].
  destruct (PieceType_eqb (type q) KING) eqn:Ek;
    [apply PieceType_eqb_eq in Ek; contradiction|].
  cbn [negb andb]. apply line_loop_blocked.
Qed.

(** A king of the other colour is passed over: it is not taken and the
    walk goes on behind it. *)
Lemma line_loop_enemy_king (p : Point) (q : Piece) (post acc : list Point) :
  occupied_by b p q -> color q <> color0 -> type q = KING ->
  line_loop b color0 (p :: post) false acc
  = line_loop b color0 post false acc.
Proof.
  intros Hq Hc Hk. cbn [line_loop]. unfold occupied_by, occupant in Hq.
  rewrite Hq. cbn [obind].
  destruct (Color_eqb (color q) color0) eqn:Ec;
    [apply Color_eqb_eq in Ec; contradiction|].
  rewrite Hk. reflexivity.
Qed.

End Walk.

(** The outer loop hands the points found so far to the walk of the next
    ray, with [blockedLine] reset. *)
Lemma lines_loop_app (b : Board) (color0 : Color) (lines1 lines2 : list (list Point)) :
  forall acc,
    lines_loop b color0 (lines1 ++ lines2) acc
    = obind (lines_loop b color0 lines1 acc) (lines_loop b color0 lines2).
Proof.
  induction lines1 as [|line lines1 IH]; intros acc; cbn [app lines_loop obind].
  - reflexivity.
  - destruct (line_loop b color0 line false acc); cbn [obind];
      [apply IH | reflexivity | reflexivity].
Qed.

Lemma findUnblockedPointsOnLine_next_ray (b : Board) (color0 : Color)
    (lines : list (list Point)) (ray validPoints : list Point) :
  findUnblockedPointsOnLine b lines color0 = Ok validPoints ->
  findUnblockedPointsOnLine b (lines ++ [ray]) color0
  = line_loop b color0 ray false validPoints.
Proof.
  unfold findUnblockedPointsOnLine. intros H.
  rewrite lines_loop_app, H. cbn [obind lines_loop].
  destruct (line_loop b color0 ray false validPoints); reflexivity.
Qed.

(** C2: the walk of a ray from its nearest square, after the rays [lines]
    before it gave [validPoints]. The empty squares [pre] at its start are
    all collected; if the ray ends there, that is all. If the next square
    holds a piece of the walker's colour, the ray ends without that square;
    if it holds a piece of the other colour that is not a king, the square
    is collected and the ray ends there. So, with the rook on d4 and a pawn
    of its colour on d6, the ray d5, d6, d7, d8 gives d5 alone: on the
    position loaded from FEN, with the squares named by [toAlgebraic], and
    also when the two pieces are put by [addPiece], with the squares read
    by [algebraicToPoint]. *)
Theorem findUnblockedPointsOnLine_walks_ray :
  (forall (b : Board) (color0 : Color) (lines : list (list Point))
          (validPoints pre : list Point),
      findUnblockedPointsOnLine b lines color0 = Ok validPoints ->
      Forall (empty_square b) pre ->
      findUnblockedPointsOnLine b (lines ++ [pre]) color0
      = Ok (validPoints ++ pre) /\
      forall p q post,
        occupied_by b p q ->
        (color q = color0 ->
         findUnblockedPointsOnLine b (lines ++ [pre ++ p :: post]) color0
         = Ok (validPoints ++ pre)) /\
        (color q <> color0 -> type q <> KING ->
         findUnblockedPointsOnLine b (lines ++ [pre ++ p :: post]) color0
         = Ok (validPoints ++ pre ++ [p]))) /\
  (let d5 := mkPoint (Int 3) (Int 4) in
   let d6 := mkPoint (Int 3) (Int 5) in
   let d7 := mkPoint (Int 3) (Int 6) in
   let d8 := mkPoint (Int 3) (Int 7) in
   getPieceAtSquare (board rook_d4_pawn_d6) (SqStr "d4")
   = Ok (Occ {| type := ROOK; point := Some (mkPoint (Int 3) (Int 3)); color := WHITE |}) /\
   getPieceAtSquare (board rook_d4_pawn_d6) (SqStr "d6")
   = Ok (Occ {| type := PAWN; point := Some d6; color := WHITE |}) /\
   getLine (mkPoint (Int 3) (Int 3)) (Int 0) (Int 1) = Ok [d5; d6; d7; d8] /\
   names [d5; d6; d7; d8] = ["d5"; "d6"; "d7"; "d8"]%string /\
   findUnblockedPointsOnLine (board rook_d4_pawn_d6) [[d5; d6; d7; d8]] WHITE
   = Ok [d5]) /\
  (let w := exec (addPiece PAWN WHITE (SqStr "d6"))
              (exec (addPiece ROOK WHITE (SqStr "d4")) new_World) in
   getLine (at_square "d4") (Int 0) (Int (-1))
   = Ok [at_square "d5"; at_square "d6"; at_square "d7"; at_square "d8"] /\
   findUnblockedPointsOnLine (board w)
     [[at_square "d5"; at_square "d6"; at_square "d7"; at_square "d8"]] WHITE
   = Ok [at_square "d5"]).
Proof.
  split; [|split; [repeat split; reflexivity | split; reflexivity]].
  - intros b color0 lines validPoints pre Hlines Hpre. split.
    + rewrite (findUnblockedPointsOnLine_next_ray _ _ _ _ _ Hlines).
      rewrite <- (app_nil_r pre) at 1.
      rewrite line_loop_empty_prefix by exact Hpre. reflexivity.
    + intros p q post Hq. split.
      * intros Hc.
        rewrite (findUnblockedPointsOnLine_next_ray _ _ _ _ _ Hlines).
        rewrite line_loop_empty_prefix by exact Hpre.
        now apply line_loop_own with (q := q).
      * intros Hc Hk.
        rewrite (findUnblockedPointsOnLine_next_ray _ _ _ _ _ Hlines).
        rewrite line_loop_empty_prefix by exact Hpre.
        rewrite app_assoc. now apply line_loop_capture with (q := q).
Qed.

Lemma findUnblockedPointsOnLine_walks_ray_witness :
  findUnblockedPointsOnLine (board rook_d4_pawn_d6) [] WHITE = Ok [] /\
  Forall (empty_square (board rook_d4_pawn_d6)) [mkPoint (Int 3) (Int 4)] /\
  occupied_by (board rook_d4_pawn_d6) (mkPoint (Int 3) (Int 5))
    {| type := PAWN; point := Some (mkPoint (Int 3) (Int 5)); color := WHITE |} /\
  findUnblockedPointsOnLine (board rook_d4_pawn_d6)
    ([] ++ [[mkPoint (Int 3) (Int 4)]
              ++ mkPoint (Int 3) (Int 5)
                 :: [mkPoint (Int 3) (Int 6); mkPoint (Int 3) (Int 7)]])
    WHITE
  = Ok ([] ++ [mkPoint (Int 3) (Int 4)]).
Proof.
  assert (Forall (empty_square (board rook_d4_pawn_d6)) [mkPoint (Int 3) (Int 4)])
    as Hpre.
  { constructor; [|constructor]. exists Null. split; reflexivity. }
  split; [reflexivity|]. split; [exact Hpre|]. split; [reflexivity|].
  apply (proj2 (proj1 findUnblockedPointsOnLine_walks_ray
                  (board rook_d4_pawn_d6) WHITE [] [] [mkPoint (Int 3) (Int 4)]
                  eq_refl Hpre)
           (mkPoint (Int 3) (Int 5))
           {| type := PAWN; point := Some (mkPoint (Int 3) (Int 5)); color := WHITE |}
           [mkPoint (Int 3) (Int 6); mkPoint (Int 3) (Int 7)]).
  - reflexivity.
  - reflexivity.
Defined.

(** ** Square names *)

Lemma between_a_h (c : ascii) :
  between "a" "h" c = true ->
  In c ["a"; "b"; "c"; "d"; "e"; "f"; "g"; "h"]%char.
Proof.
  destruct c as [[] [] [] [] [] [] [] []]; vm_compute; intros H;
    try discriminate; tauto.
Qed.

Lemma between_1_8 (c : ascii) :
  between "1" "8" c = true ->
  In c ["1"; "2"; "3"; "4"; "5"; "6"; "7"; "8"]%char.
Proof.
  destruct c as [[] [] [] [] [] [] [] []]; vm_compute; intros H;
    try discriminate; tauto.
Qed.

Lemma is_square_name_In (s : string) :
  is_square_name s = true -> In s square_names.
Proof.
  destruct s as [|c1 [|c2 [|]]]; try discriminate. cbn [is_square_name].
  intros H. apply andb_true_iff in H. destruct H as (H1 & H2).
  apply between_a_h in H1. apply between_1_8 in H2.
  unfold square_names. apply in_flat_map. exists c1. split; [exact H1|].
  apply in_map_iff. exists c2. split; [reflexivity | exact H2].
Qed.

Lemma is_null_Ok (o : outcome Cell) : is_null o = true -> o = Ok Null.
Proof. destruct o as [[| |]| |]; simpl; congruence. Qed.

(** C7: after loading the placement 8/8/8/8/8/8/8/R7 on a fresh board,
    [getPieceAtSquare] gives a white rook for a1 and [null] for every other
    square name. *)
Theorem fen_rook_a1 :
  result (setPositionFromFEN "8/8/8/8/8/8/8/R7") new_World = Ok tt /\
  (exists pc,
      getPieceAtSquare (board rook_on_a1) (SqStr "a1") = Ok (Occ pc) /\
      type pc = ROOK /\ color pc = WHITE) /\
  (forall s,
      is_square_name s = true -> s <> "a1"%string ->
      getPieceAtSquare (board rook_on_a1) (SqStr s) = Ok Null).
Proof.
  split; [reflexivity|]. split.
  - eexists. split; [reflexivity|]. split; reflexivity.
  - intros s Hs Hne. apply is_square_name_In in Hs.
    assert (forallb (fun s => String.eqb s "a1"
                              || is_null (getPieceAtSquare (board rook_on_a1) (SqStr s)))
              square_names = true) as Hall by (vm_compute; reflexivity).
    rewrite forallb_forall in Hall. specialize (Hall s Hs).
    apply orb_true_iff in Hall. destruct Hall as [Heq|Hnull].
    + apply String.eqb_eq in Heq. contradiction.
    + now apply is_null_Ok.
Qed.

Lemma fen_rook_a1_witness :
  is_square_name "h8" = true /\ "h8"%string <> "a1"%string /\
  getPieceAtSquare (board rook_on_a1) (SqStr "h8") = Ok Null.
Proof.
  split; [reflexivity|]. split; [discriminate|].
  apply (proj2 (proj2 fen_rook_a1)); [reflexivity | discriminate].
Defined.

(** C5 fails on the code: the name read back after [algebraicToPoint] is
    the name of the mirrored rank, for each of the 64 squares; a1 comes back
    as a8, also through [setSquare]. *)
Theorem algebraic_round_trip_mirrors :
  toAlgebraic (algebraicToPoint (SqStr "a1")) = SqStr "a8" /\
  (exists p, setSquare (mkPoint (Int 0) (Int 0)) (SqStr "a1") = Ok p
             /\ toAlgebraic p = SqStr "a8") /\
  Forall (fun s => toAlgebraic (algebraicToPoint (SqStr s)) <> SqStr s)
         square_names.
Proof.
  split; [reflexivity|]. split.
  - eexists. split; reflexivity.
  - unfold square_names. cbn [flat_map map app].
    repeat (constructor; [vm_compute; discriminate|]). constructor.
Qed.

(** C6 fails on the code: [setPieceAtSquare] writes row [7 - rank] and
    [getPieceAtSquare] reads row [rank]. On a fresh board the square just
    filled reads as [null], whatever the piece and the square, and the piece
    put on a1 is found on a8; a piece put on the a1 of a board whose a1 holds
    a rook leaves that rook where it is. *)
Theorem addPiece_then_getPieceAtSquare (t : PieceType) (c : Color) :
  result (addPiece t c (SqStr "a1")) new_World = Ok tt /\
  getPieceAtSquare (board (exec (addPiece t c (SqStr "a1")) new_World)) (SqStr "a1")
  = Ok Null /\
  getPieceAtSquare (board (exec (addPiece t c (SqStr "a1")) new_World)) (SqStr "a8")
  = Ok (Occ {| type := t; point := Some (mkPoint (Int 0) (Int 7)); color := c |}) /\
  Forall (fun s =>
            getPieceAtSquare (board (exec (addPiece t c (SqStr s)) new_World)) (SqStr s)
            = Ok Null)
         square_names /\
  getPieceAtSquare (board (exec (addPiece t c (SqStr "a1")) rook_on_a1)) (SqStr "a1")
  = getPieceAtSquare (board rook_on_a1) (SqStr "a1").
Proof.
  split; [destruct t; reflexivity|].
  split; [destruct t; reflexivity|].
  split; [destruct t; reflexivity|].
  split; [|destruct t; reflexivity].
  unfold square_names. cbn [flat_map map app].
  repeat (constructor; [destruct t; reflexivity|]). constructor.
Qed.

(** C8 fails on the code: [clearSquare] hands [null] to [setPieceAtSquare],
    which assigns to [piece.point] first: a [TypeError], on every board and
    for every square, and the board is left as it was. The rook loaded on a1
    is still there after [clearSquare] of a1. *)
Theorem clearSquare_throws (w : World) (sq : Square) :
  result (clearSquare sq) w = Throw TypeError /\
  exec (clearSquare sq) w = w /\
  exists rook,
    getPieceAtSquare (board rook_on_a1) (SqStr "a1") = Ok (Occ rook) /\
    getPieceAtSquare (board (exec (clearSquare (SqStr "a1")) rook_on_a1)) (SqStr "a1")
    = Ok (Occ rook).
Proof.
  split; [reflexivity|]. split; [reflexivity|].
  eexists. split; reflexivity.
Qed.

(** C1 fails on the code: for the rook on d4 of an otherwise empty board the
    [switch] computes and prints the fourteen squares of its file and rank,
    but [getpseudoLegalMovesForPiece] returns [undefined]. *)
Theorem rook_d4_moves_not_returned :
  let rook := {| type := ROOK; point := Some (mkPoint (Int 3) (Int 3)); color := WHITE |} in
  getPieceAtSquare (board rook_on_d4) (SqStr "d4") = Ok (Occ rook) /\
  pieces (board rook_on_d4) = [rook] /\
  result (getpseudoLegalMovesForPiece rook) rook_on_d4 = Ok None /\
  exists l,
    result (pseudoMoves_switch rook) rook_on_d4 = Ok l /\
    names l = ["c4"; "b4"; "a4"; "e4"; "f4"; "g4"; "h4";
               "d3"; "d2"; "d1"; "d5"; "d6"; "d7"; "d8"]%string.
Proof.
  intros rook. split; [reflexivity|]. split; [reflexivity|].
  split; [reflexivity|]. eexists. split; reflexivity.
Qed.

(** C3 fails on the code: the king of the other colour is not collected,
    but it does not end the ray either. With the white rook on d4 and the
    black king on d5, the walk of d5, d6, d7, d8 gives d6, d7 and d8. *)
Theorem enemy_king_does_not_stop_ray :
  let d5 := mkPoint (Int 3) (Int 4) in
  let d6 := mkPoint (Int 3) (Int 5) in
  let d7 := mkPoint (Int 3) (Int 6) in
  let d8 := mkPoint (Int 3) (Int 7) in
  getPieceAtSquare (board rook_d4_king_d5) (SqStr "d4")
  = Ok (Occ {| type := ROOK; point := Some (mkPoint (Int 3) (Int 3)); color := WHITE |}) /\
  getPieceAtSquare (board rook_d4_king_d5) (SqStr "d5")
  = Ok (Occ {| type := KING; point := Some d5; color := BLACK |}) /\
  getLine (mkPoint (Int 3) (Int 3)) (Int 0) (Int 1) = Ok [d5; d6; d7; d8] /\
  names [d5; d6; d7; d8] = ["d5"; "d6"; "d7"; "d8"]%string /\
  findUnblockedPointsOnLine (board rook_d4_king_d5) [[d5; d6; d7; d8]] WHITE
  = Ok [d6; d7; d8].
Proof.
  intros d5 d6 d7 d8. repeat split; reflexivity.
Qed.

(** ** Failures of the FEN loader *)

Lemma TypeError_ret {A : Type} (a : A) : fails_only_with_TypeError (ret a).
Proof. intros w. exact I. Qed.

Lemma TypeError_mbind {A B : Type} (m : M A) (k : A -> M B) :
  fails_only_with_TypeError m ->
  (forall a, fails_only_with_TypeError (k a)) ->
  fails_only_with_TypeError (mbind m k).
Proof.
  intros Hm Hk w. unfold mbind. specialize (Hm w).
  destruct (m w) as [[a|e|] w']; cbn [fst] in *; auto.
  apply Hk.
Qed.

Lemma TypeError_for_each {A : Type} (body : A -> M unit) (l : list A) :
  (forall x, fails_only_with_TypeError (body x)) ->
  fails_only_with_TypeError (for_each body l).
Proof.
  intros Hbody. induction l as [|x l IH]; cbn [for_each].
  - apply TypeError_ret.
  - apply TypeError_mbind; [apply Hbody | intros _; exact IH].
Qed.

Lemma TypeError_setPieceAtSquare (sq : Square) (piece : Cell) :
  fails_only_with_TypeError (setPieceAtSquare sq piece).
Proof.
  intros w. unfold setPieceAtSquare.
  destruct piece as [| |pc]; try reflexivity.
  destruct (pieceList_at (board w) _) as [[i row]|]; [exact I | reflexivity].
Qed.

Lemma TypeError_place_letter (ch : ascii) (c : Color) (sq : Square) :
  fails_only_with_TypeError (place_letter ch c sq).
Proof.
  unfold place_letter, addPiece.
  repeat match goal with
         | |- context [if ?t then _ else _] =>
             destruct t; [apply TypeError_setPieceAtSquare|]
         end.
  apply TypeError_ret.
Qed.

Lemma TypeError_fen_row (rank0 : Z) (str : list ascii) :
  forall file0, fails_only_with_TypeError (fen_row rank0 str file0).
Proof.
  induction str as [|ch rest IH]; intros file0; cbn [fen_row].
  - apply TypeError_ret.
  - destruct (file0 <=? 8); [|apply TypeError_ret].
    destruct (is_digit ch); [apply IH|].
    apply TypeError_mbind; [apply TypeError_place_letter | intros _; apply IH].
Qed.

Lemma TypeError_fen_rank (rows : list string) (i : nat) :
  fails_only_with_TypeError (fen_rank rows i).
Proof.
  unfold fen_rank. destruct (nth_error rows i).
  - apply TypeError_fen_row.
  - intros w. reflexivity.
Qed.

(** A loop one of whose turns always throws ends with an exception. *)
Lemma for_each_throws {A : Type} (body : A -> M unit) (x0 : A) (l : list A) :
  (forall x, fails_only_with_TypeError (body x)) ->
  (forall w, fst (body x0 w) = Throw TypeError) ->
  In x0 l ->
  forall w, fst (for_each body l w) = Throw TypeError.
Proof.
  intros Hbody Hx0. induction l as [|x l IH]; intros Hin w; [destruct Hin|].
  cbn [for_each]. unfold mbind.
  pose proof (Hbody x w) as Hx.
  destruct (body x w) as [[a|e|] w'] eqn:E; cbn [fst] in *.
  - destruct Hin as [->|Hin].
    + specialize (Hx0 w). rewrite E in Hx0. discriminate.
    + now apply IH.
  - now subst e.
  - destruct Hx.
Qed.

(** C9 as the code has it: the loader checks nothing and has no error of
    its own. It never fails otherwise than with a [TypeError], and it does
    so whenever the placement field has fewer than eight ranks; fields with
    too many ranks, with unknown characters or with too long a rank can be
    loaded without any error. *)
Theorem setPositionFromFEN_fails_only_with_TypeError :
  (forall fen w e,
      result (setPositionFromFEN fen) w = Throw e -> e = TypeError) /\
  (forall fen w, result (setPositionFromFEN fen) w <> OutOfFuel) /\
  (forall fen w,
      (List.length (placement_ranks fen) < 8)%nat ->
      result (setPositionFromFEN fen) w = Throw TypeError) /\
  (exists fen, wrong_rank_count fen = true
               /\ result (setPositionFromFEN fen) new_World = Ok tt) /\
  (exists fen, unrecognized_character fen = true
               /\ result (setPositionFromFEN fen) new_World = Ok tt) /\
  (exists fen, rank_overflow fen = true
               /\ result (setPositionFromFEN fen) new_World = Ok tt).
Proof.
  assert (forall fen, fails_only_with_TypeError (setPositionFromFEN fen)) as Honly.
  { intros fen. unfold setPositionFromFEN.
    apply TypeError_for_each. intros i. apply TypeError_fen_rank. }
  split; [|split; [|split; [|split; [|split]]]].
  - intros fen w e H. specialize (Honly fen w). unfold result in H.
    rewrite H in Honly. exact Honly.
  - intros fen w H. specialize (Honly fen w). unfold result in H.
    rewrite H in Honly. exact Honly.
  - intros fen w Hlen. unfold result, setPositionFromFEN.
    fold (placement_ranks fen).
    apply for_each_throws with (x0 := List.length (placement_ranks fen)).
    + intros i. apply TypeError_fen_rank.
    + intros w'. unfold fen_rank.
      assert (nth_error (placement_ranks fen) (List.length (placement_ranks fen)) = None)
        as -> by (apply nth_error_None; lia).
      reflexivity.
    + cbn [In]. lia.
  - exists "8/8/8/8/8/8/8/8/8"%string. split; reflexivity.
  - exists "8/8/8/8/8/8/8/x7"%string. split; reflexivity.
  - exists "8/8/8/8/8/8/8/R8"%string. split; reflexivity.
Qed.

Lemma setPositionFromFEN_fails_only_with_TypeError_witness :
  (List.length (placement_ranks "8/8/8/8/8/8/R7") < 8)%nat /\
  result (setPositionFromFEN "8/8/8/8/8/8/R7") new_World = Throw TypeError.
Proof.
  split; [cbn; lia|].
  apply (proj1 (proj2 (proj2 setPositionFromFEN_fails_only_with_TypeError))).
  cbn; lia.
Defined.

(** C9 does not hold of the code: a field with nine ranks, a field with an
    unknown character and a field with a rank of nine squares are all loaded
    without any error. *)
Lemma setPositionFromFEN_accepts_malformed :
  (wrong_rank_count "8/8/8/8/8/8/8/8/R7" = true /\
   structurally_invalid "8/8/8/8/8/8/8/8/R7" = true /\
   setPositionFromFEN "8/8/8/8/8/8/8/8/R7" new_World = (Ok tt, new_World)) /\
  (unrecognized_character "8/8/8/8/8/8/8/x7" = true /\
   structurally_invalid "8/8/8/8/8/8/8/x7" = true /\
   setPositionFromFEN "8/8/8/8/8/8/8/x7" new_World = (Ok tt, new_World)) /\
  (rank_overflow "8/8/8/8/8/8/8/R8" = true /\
   structurally_invalid "8/8/8/8/8/8/8/R8" = true /\
   setPositionFromFEN "8/8/8/8/8/8/8/R8" new_World = (Ok tt, rook_on_a1)).
Proof. repeat split; reflexivity. Qed.

(** * Further properties *)

(** ** The geometry of [Point] *)

Lemma key_eqb_eq (a b : num) : key_eqb a b = true <-> a = b.
Proof.
  destruct a as [x|], b as [y|]; simpl; split; try congruence.
  - intros H. apply Z.eqb_eq in H. now subst.
  - intros [= ->]. apply Z.eqb_refl.
Qed.

Lemma Point_eqb_eq (p q : Point) : Point_eqb p q = true <-> p = q.
Proof.
  unfold Point_eqb. rewrite andb_true_iff, !key_eqb_eq.
  destruct p as [pf pr], q as [qf qr]; cbn [file rank]. split.
  - intros [-> ->]. reflexivity.
  - intros [= -> ->]. split; reflexivity.
Qed.

Lemma existsb_Point_eqb (q : Point) (l : list Point) :
  existsb (Point_eqb q) l = true <-> In q l.
Proof.
  rewrite existsb_exists. split.
  - intros (x & Hx & E). apply Point_eqb_eq in E. now subst.
  - intros H. exists q. split; [exact H | now apply Point_eqb_eq].
Qed.

Lemma all_points_on_board (p : Point) : In p all_points <-> on_board p.
Proof.
  unfold all_points. rewrite in_flat_map. split.
  - intros (f & Hf & Hp). apply in_map_iff in Hp. destruct Hp as (r & <- & Hr).
    exists f, r. split; [reflexivity|]. cbn in Hf, Hr. lia.
  - intros (f & r & -> & Hf & Hr). exists f. split.
    + cbn. lia.
    + apply in_map_iff. exists r. split; [reflexivity | cbn; lia].
Qed.

Lemma on_straight_line_b_spec (p q : Point) :
  on_straight_line_b p q = true <-> on_straight_line p q.
Proof.
  unfold on_straight_line_b, on_straight_line.
  destruct (offsets p q) as [[df dr]|]; split.
  - intros H. exists df, dr. split; [reflexivity|].
    apply andb_true_iff in H. destruct H as (H1 & H2).
    apply orb_true_iff in H1. apply negb_true_iff, andb_false_iff in H2.
    rewrite !Z.eqb_eq in H1. rewrite !Z.eqb_neq in H2. split; assumption.
  - intros (df' & dr' & [= <- <-] & H1 & H2).
    apply andb_true_iff. split.
    + apply orb_true_iff. rewrite !Z.eqb_eq. exact H1.
    + apply negb_true_iff, andb_false_iff. rewrite !Z.eqb_neq. exact H2.
  - discriminate.
  - intros (df & dr & H & _). discriminate.
Qed.

Lemma on_diagonal_b_spec (p q : Point) :
  on_diagonal_b p q = true <-> on_diagonal p q.
Proof.
  unfold on_diagonal_b, on_diagonal.
  destruct (offsets p q) as [[df dr]|]; split.
  - intros H. exists df, dr. split; [reflexivity|].
    apply andb_true_iff in H. destruct H as (H1 & H2).
    apply Z.eqb_eq in H1. apply negb_true_iff, Z.eqb_neq in H2. split; assumption.
  - intros (df' & dr' & [= <- <-] & H1 & H2).
    apply andb_true_iff. split.
    + now apply Z.eqb_eq.
    + now apply negb_true_iff, Z.eqb_neq.
  - discriminate.
  - intros (df & dr & H & _). discriminate.
Qed.

(** The points of a ray are not its origin. *)
Lemma ray_from_not_origin (f0 r0 dx dy : Z) (m : nat) :
  dx <> 0 \/ dy <> 0 ->
  forall k, 1 <= k -> ~ In (mkPoint (Int f0) (Int r0)) (ray_from f0 r0 dx dy k m).
Proof.
  intros Hmove. induction m as [|m IH]; intros k Hk; cbn [ray_from].
  - intros [].
  - intros [H|H].
    + unfold step_point in H. injection H as Hf Hr. destruct Hmove; nia.
    + apply (IH (k + 1)); [lia | exact H].
Qed.

(** X1: [getLine] throws exactly when both deltas are zero or [NaN]; with any
    other deltas, of any size, it returns points of the board, none of which
    is the origin. *)
Theorem getLine_throws_or_returns (p : Point) (dx dy : num) :
  (falsy dx && falsy dy = true ->
   getLine p dx dy = Throw (Error "Both deltas can't be zero or unspecified")) /\
  (falsy dx && falsy dy = false ->
   exists l, getLine p dx dy = Ok l /\ Forall on_board l /\ ~ In p l).
Proof.
  split.
  - intros H. unfold getLine. rewrite H. reflexivity.
  - intros Hd.
    destruct dx as [dx|]; [destruct dy as [dy|]|].
    + destruct (on_board_dec p) as [(f0 & r0 & -> & Hin)|Hoff].
      * assert (dx <> 0 \/ dy <> 0) as Hmove.
        { apply andb_false_iff in Hd. destruct Hd as [H|H]; [left | right];
            intros ->; discriminate. }
        destruct (getLine_on_board_origin f0 r0 dx dy Hin Hmove) as (m & Hm & Hall).
        eexists. split; [exact Hm|]. split; [exact Hall|].
        apply ray_from_not_origin; [exact Hmove | lia].
      * exists []. split; [now apply getLine_off_board|].
        split; [constructor | intros []].
    + exists []. split; [apply getLine_NaN; auto|]. split; [constructor | intros []].
    + exists []. split; [apply getLine_NaN; auto|]. split; [constructor | intros []].
Qed.

Lemma getLine_throws_or_returns_witness :
  falsy (Int 2) && falsy (Int (-1)) = false /\
  exists l, getLine (mkPoint (Int 1) (Int 6)) (Int 2) (Int (-1)) = Ok l
            /\ Forall on_board l /\ ~ In (mkPoint (Int 1) (Int 6)) l.
Proof.
  split; [reflexivity|].
  apply (proj2 (getLine_throws_or_returns (mkPoint (Int 1) (Int 6)) (Int 2) (Int (-1)))).
  reflexivity.
Defined.

Lemma distinct_NoDup (l : list Point) : distinct l = true -> NoDup l.
Proof.
  induction l as [|p l IH]; cbn [distinct]; intros H; constructor.
  - apply andb_true_iff in H. destruct H as (H & _).
    apply negb_true_iff in H. intros Hin.
    apply existsb_Point_eqb in Hin. congruence.
  - apply IH. apply andb_true_iff in H. tauto.
Qed.

(** What a successful check says. *)
Lemma lines_checked_spec (lines : Point -> outcome (list (list Point)))
    (rel : Point -> Point -> bool) (n : nat) (p : Point) :
  lines_checked lines rel n p = true ->
  exists ls,
    lines p = Ok ls /\ List.length ls = n /\ NoDup (List.concat ls) /\
    forall q, In q (List.concat ls) <-> on_board q /\ rel p q = true.
Proof.
  unfold lines_checked. destruct (lines p) as [ls| |]; try discriminate.
  intros H. apply andb_true_iff in H. destruct H as (H & Hrel).
  apply andb_true_iff in H. destruct H as (H & Hon).
  apply andb_true_iff in H. destruct H as (Hn & Hd).
  exists ls. split; [reflexivity|]. split; [now apply Nat.eqb_eq|].
  split; [now apply distinct_NoDup|].
  rewrite forallb_forall in Hon, Hrel. intros q. split.
  - intros Hq. assert (on_board q) as Hb.
    { apply all_points_on_board. apply existsb_Point_eqb. now apply Hon. }
    split; [exact Hb|].
    apply all_points_on_board in Hb. specialize (Hrel q Hb).
    apply eqb_prop in Hrel. rewrite <- Hrel. now apply existsb_Point_eqb.
  - intros (Hb & Hr). apply all_points_on_board in Hb. specialize (Hrel q Hb).
    apply eqb_prop in Hrel. apply existsb_Point_eqb. congruence.
Qed.

(** X2: the four straight lines of a point of the board hold, once each, the
    other squares of its file and of its rank: fourteen squares. *)
Theorem getStraightLines_file_and_rank (p : Point) :
  on_board p ->
  exists ls,
    getStraightLines p = Ok ls /\ List.length ls = 4%nat /\
    NoDup (List.concat ls) /\ List.length (List.concat ls) = 14%nat /\
    forall q, In q (List.concat ls) <-> on_board q /\ on_straight_line p q.
Proof.
  intros Hp. apply all_points_on_board in Hp.
  assert (forallb (lines_checked getStraightLines on_straight_line_b 4) all_points
          = true) as Hall by (vm_compute; reflexivity).
  assert (forallb (fun p => match getStraightLines p with
                            | Ok ls => (List.length (List.concat ls) =? 14)%nat
                            | _ => false
                            end) all_points = true) as Hcount
      by (vm_compute; reflexivity).
  rewrite forallb_forall in Hall, Hcount.
  destruct (lines_checked_spec _ _ _ _ (Hall p Hp)) as (ls & Hls & Hn & Hnd & Hmem).
  specialize (Hcount p Hp). rewrite Hls in Hcount. apply Nat.eqb_eq in Hcount.
  exists ls. repeat split; try assumption.
  - now apply Hmem.
  - apply on_straight_line_b_spec. now apply Hmem.
  - intros (Hb & Hr). apply Hmem. split; [exact Hb|].
    now apply on_straight_line_b_spec.
Qed.

Lemma getStraightLines_file_and_rank_witness :
  on_board (mkPoint (Int 3) (Int 4)) /\
  exists ls,
    getStraightLines (mkPoint (Int 3) (Int 4)) = Ok ls /\ List.length ls = 4%nat /\
    NoDup (List.concat ls) /\ List.length (List.concat ls) = 14%nat /\
    forall q, In q (List.concat ls)
              <-> on_board q /\ on_straight_line (mkPoint (Int 3) (Int 4)) q.
Proof.
  assert (on_board (mkPoint (Int 3) (Int 4))) as H
    by (exists 3, 4; split; [reflexivity | lia]).
  split; [exact H|].
  apply (getStraightLines_file_and_rank (mkPoint (Int 3) (Int 4)) H).
Defined.

(** X3: the four diagonals of a point of the board hold, once each, the other
    squares of its two diagonals. *)
Theorem getDiagonals_diagonals (p : Point) :
  on_board p ->
  exists ls,
    getDiagonals p = Ok ls /\ List.length ls = 4%nat /\
    NoDup (List.concat ls) /\
    forall q, In q (List.concat ls) <-> on_board q /\ on_diagonal p q.
Proof.
  intros Hp. apply all_points_on_board in Hp.
  assert (forallb (lines_checked getDiagonals on_diagonal_b 4) all_points = true)
    as Hall by (vm_compute; reflexivity).
  rewrite forallb_forall in Hall.
  destruct (lines_checked_spec _ _ _ _ (Hall p Hp)) as (ls & Hls & Hn & Hnd & Hmem).
  exists ls. repeat split; try assumption.
  - now apply Hmem.
  - apply on_diagonal_b_spec. now apply Hmem.
  - intros (Hb & Hr). apply Hmem. split; [exact Hb|].
    now apply on_diagonal_b_spec.
Qed.

Lemma getDiagonals_diagonals_witness :
  on_board (mkPoint (Int 3) (Int 4)) /\
  exists ls,
    getDiagonals (mkPoint (Int 3) (Int 4)) = Ok ls /\ List.length ls = 4%nat /\
    NoDup (List.concat ls) /\
    forall q, In q (List.concat ls)
              <-> on_board q /\ on_diagonal (mkPoint (Int 3) (Int 4)) q.
Proof.
  assert (on_board (mkPoint (Int 3) (Int 4))) as H
    by (exists 3, 4; split; [reflexivity | lia]).
  split; [exact H|].
  apply (getDiagonals_diagonals (mkPoint (Int 3) (Int 4)) H).
Defined.

(** X4: the eight lines of [getAllLines] are the four straight lines followed by
    the four diagonals: together, once each, the squares that a queen on the
    point sees on an empty board. *)
Theorem getAllLines_straight_and_diagonal (p : Point) :
  on_board p ->
  exists straight diag,
    getStraightLines p = Ok straight /\ getDiagonals p = Ok diag /\
    getAllLines p = Ok (straight ++ diag) /\
    NoDup (List.concat (straight ++ diag)) /\
    forall q, In q (List.concat (straight ++ diag))
              <-> on_board q /\ (on_straight_line p q \/ on_diagonal p q).
Proof.
  intros Hp. apply all_points_on_board in Hp.
  assert (forallb (lines_checked getAllLines
                     (fun p q => on_straight_line_b p q || on_diagonal_b p q) 8)
            all_points = true) as Hall by (vm_compute; reflexivity).
  rewrite forallb_forall in Hall.
  destruct (lines_checked_spec _ _ _ _ (Hall p Hp)) as (ls & Hls & Hn & Hnd & Hmem).
  destruct (getStraightLines_total p) as (s & Hs & _).
  destruct (getDiagonals_total p) as (d & Hd & _).
  assert (ls = s ++ d) as ->.
  { unfold getAllLines in Hls. rewrite Hs, Hd in Hls. cbn [obind] in Hls.
    congruence. }
  exists s, d. repeat split; try assumption.
  - now apply Hmem.
  - apply Hmem in H. destruct H as (_ & H). apply orb_true_iff in H.
    destruct H as [H|H]; [left; now apply on_straight_line_b_spec
                         | right; now apply on_diagonal_b_spec].
  - intros (Hb & Hr). apply Hmem. split; [exact Hb|]. apply orb_true_iff.
    destruct Hr as [H|H]; [left; now apply on_straight_line_b_spec
                          | right; now apply on_diagonal_b_spec].
Qed.

Lemma getAllLines_straight_and_diagonal_witness :
  on_board (mkPoint (Int 0) (Int 7)) /\
  exists straight diag,
    getStraightLines (mkPoint (Int 0) (Int 7)) = Ok straight /\
    getDiagonals (mkPoint (Int 0) (Int 7)) = Ok diag /\
    getAllLines (mkPoint (Int 0) (Int 7)) = Ok (straight ++ diag) /\
    NoDup (List.concat (straight ++ diag)) /\
    forall q, In q (List.concat (straight ++ diag))
              <-> on_board q /\ (on_straight_line (mkPoint (Int 0) (Int 7)) q
                                 \/ on_diagonal (mkPoint (Int 0) (Int 7)) q).
Proof.
  assert (on_board (mkPoint (Int 0) (Int 7))) as H
    by (exists 0, 7; split; [reflexivity | lia]).
  split; [exact H|].
  apply (getAllLines_straight_and_diagonal (mkPoint (Int 0) (Int 7)) H).
Defined.

Lemma _isInBounds_spec (f r : num) :
  _isInBounds f r = true <-> on_board (mkPoint f r).
Proof.
  split; [apply _isInBounds_on_board|].
  intros (a & b & [= -> ->] & Ha & Hb). unfold _isInBounds. simpl.
  rewrite !andb_true_iff, !Z.leb_le. lia.
Qed.

(** X5: [getKnightPoints] returns exactly the squares of the board that are a
    knight's jump away, from any point whatever. *)
Theorem getKnightPoints_jumps (p q : Point) :
  In q (getKnightPoints p) <-> on_board q /\ knight_jump p q.
Proof.
  unfold getKnightPoints. rewrite in_flat_map. split.
  - intros ([d1 d2] & Hd & Hq). cbn [fst snd] in Hq.
    destruct (_isInBounds _ _) eqn:E; [|destruct Hq].
    destruct Hq as [<-|[]]. apply _isInBounds_spec in E. split; [exact E|].
    destruct p as [[a|] [b|]]; cbn [file rank add] in *;
      try (destruct E as (x & y & [=] & _); fail).
    exists d1, d2. split.
    + unfold offsets. cbn [file rank]. f_equal. f_equal; ring.
    + cbn in Hd. repeat (destruct Hd as [[= <- <-]|Hd]; [lia|]). destruct Hd.
  - intros (Hb & df & dr & Hoff & Hj).
    destruct p as [[a|] [b|]], q as [[c|] [d|]]; try discriminate Hoff.
    unfold offsets in Hoff. cbn [file rank] in Hoff. injection Hoff as <- <-.
    exists (c - a, d - b). cbn [fst snd file rank add]. split.
    + cbn. assert (forall x y : Z, (x, y) = (c - a, d - b) <-> x = c - a /\ y = d - b)
        as E by (intros; split; [intros [= -> ->]; tauto | intros [-> ->]; reflexivity]).
      rewrite !E. lia.
    + replace (a + (c - a)) with c by ring. replace (b + (d - b)) with d by ring.
      apply _isInBounds_spec in Hb. rewrite Hb. now left.
Qed.

(** X6: [getSurroundingPoints] returns exactly the squares of the board at
    Chebyshev distance one, from any point whatever. *)
Theorem getSurroundingPoints_neighbours (p q : Point) :
  In q (getSurroundingPoints p) <-> on_board q /\ chebyshev p q = Int 1.
Proof.
  unfold getSurroundingPoints. rewrite in_flat_map. split.
  - intros (dy & Hdy & Hq). apply in_flat_map in Hq. destruct Hq as (dx & Hdx & Hq).
    destruct ((dx =? 0) && (dy =? 0)) eqn:Z0; [destruct Hq|].
    destruct (_isInBounds _ _) eqn:E; [|destruct Hq].
    destruct Hq as [<-|[]]. apply _isInBounds_spec in E. split; [exact E|].
    destruct p as [[a|] [b|]]; cbn [file rank add] in *;
      try (destruct E as (x & y & [=] & _); fail).
    unfold chebyshev. cbn [file rank]. f_equal.
    apply andb_false_iff in Z0. rewrite !Z.eqb_neq in Z0.
    cbn in Hdx, Hdy. lia.
  - intros (Hb & Hc).
    destruct p as [[a|] [b|]], q as [[c|] [d|]]; try discriminate Hc.
    unfold chebyshev in Hc. cbn [file rank] in Hc. injection Hc as Hc.
    exists (d - b). split; [cbn; lia|].
    apply in_flat_map. exists (c - a). split; [cbn; lia|].
    assert ((c - a =? 0) && (d - b =? 0) = false) as ->
      by (apply andb_false_iff; rewrite !Z.eqb_neq; lia).
    cbn [file rank add].
    replace (a + (c - a)) with c by ring. replace (b + (d - b)) with d by ring.
    apply _isInBounds_spec in Hb. rewrite Hb. now left.
Qed.


(** ** Names of squares *)

Lemma files_indexOf_letter (c : ascii) :
  (between "a" "h" c = true -> 0 <= files_indexOf (Some c) <= 7) /\
  (between "a" "h" c = false -> files_indexOf (Some c) = -1).
Proof.
  destruct c as [[] [] [] [] [] [] [] []]; vm_compute; split; intros H;
    try discriminate H; try reflexivity; split; discriminate.
Qed.

Lemma rank_of_digit (c : ascii) :
  (between "1" "8" c = true ->
   exists r, sub (Int 8) (to_number (Some c)) = Int r /\ 0 <= r <= 7) /\
  (between "1" "8" c = false ->
   sub (Int 8) (to_number (Some c)) = NaN
   \/ sub (Int 8) (to_number (Some c)) = Int 8
   \/ sub (Int 8) (to_number (Some c)) = Int (-1)).
Proof.
  destruct c as [[] [] [] [] [] [] [] []]; vm_compute; split; intros H;
    try discriminate H; auto;
    eexists; (split; [reflexivity | split; discriminate]).
Qed.

Lemma files_indexOf_range (l : option ascii) : -1 <= files_indexOf l <= 7.
Proof.
  destruct l as [c|]; [|cbn; lia].
  destruct (between "a" "h" c) eqn:E.
  - apply files_indexOf_letter in E. lia.
  - apply files_indexOf_letter in E. lia.
Qed.

(** The rank that [algebraicToPoint] computes is on the board exactly when
    the second character is a digit from 1 to 8. *)
Lemma algebraicToPoint_rank (sq : Square) :
  (has_rank_digit sq = true ->
   exists r, rank (algebraicToPoint sq) = Int r /\ 0 <= r <= 7) /\
  (has_rank_digit sq = false ->
   rank (algebraicToPoint sq) = NaN \/ rank (algebraicToPoint sq) = Int 8
   \/ rank (algebraicToPoint sq) = Int (-1)).
Proof.
  unfold has_rank_digit, algebraicToPoint. cbn [rank].
  destruct (char_at sq 1) as [c|].
  - apply rank_of_digit.
  - split; [discriminate | intros _; left; reflexivity].
Qed.

Lemma algebraicToPoint_file (sq : Square) :
  exists f, file (algebraicToPoint sq) = Int f /\
            (has_file_letter sq = true -> 0 <= f <= 7) /\
            (has_file_letter sq = false -> f = -1).
Proof.
  unfold has_file_letter, algebraicToPoint. cbn [file].
  eexists. split; [reflexivity|].
  destruct (char_at sq 0) as [c|].
  - apply files_indexOf_letter.
  - split; [discriminate | reflexivity].
Qed.

Lemma algebraicToPoint_letters (sq : Square) :
  has_file_letter sq = true -> has_rank_digit sq = true ->
  on_board (algebraicToPoint sq).
Proof.
  intros H1 H2.
  destruct (algebraicToPoint_file sq) as (f & Hf & Hf1 & _).
  destruct (proj1 (algebraicToPoint_rank sq) H2) as (r & Hr & Hrange).
  exists f, r. split; [|split; [now apply Hf1 | exact Hrange]].
  destruct (algebraicToPoint sq) as [pf pr]. cbn [file rank] in *. now subst.
Qed.

(** X8: [algebraicToPoint] looks at the first two characters only: its point is
    on the board exactly when they are a letter from a to h and a digit from
    1 to 8, whatever follows them; it never throws. *)
Theorem algebraicToPoint_on_board (sq : Square) :
  on_board (algebraicToPoint sq)
  <-> has_file_letter sq = true /\ has_rank_digit sq = true.
Proof.
  destruct (algebraicToPoint_file sq) as (f & Hf & Hf1 & Hf0).
  destruct (algebraicToPoint_rank sq) as (Hr1 & Hr0).
  split.
  - intros (a & b & E & Ha & Hb).
    rewrite E in Hf. cbn [file] in Hf. injection Hf as <-.
    rewrite E in Hr0. cbn [rank] in Hr0.
    destruct (has_file_letter sq); [|specialize (Hf0 eq_refl); lia].
    destruct (has_rank_digit sq); [tauto|].
    destruct (Hr0 eq_refl) as [H|[H|H]]; try discriminate H;
      injection H as H; lia.
  - intros (H1 & H2). now apply algebraicToPoint_letters.
Qed.

(** X9: [setSquare] throws "Invalid square" unless the square is a string that
    matches [^[a-h][1-8]$]; otherwise its point is the one that
    [algebraicToPoint] computes, which is on the board. What the point was
    before does not matter. *)
Theorem setSquare_validates (this : Point) (sq : Square) :
  if is_valid_square sq
  then setSquare this sq = Ok (algebraicToPoint sq) /\ on_board (algebraicToPoint sq)
  else setSquare this sq = Throw (Error "Invalid square").
Proof.
  destruct sq as [s|]; cbn [is_valid_square]; [|reflexivity].
  destruct (is_square_name s) eqn:E.
  - split; [unfold setSquare; rewrite E; reflexivity|].
    destruct s as [|c1 [|c2 [|]]]; try discriminate E.
    cbn [is_square_name] in E. apply andb_true_iff in E. destruct E as (E1 & E2).
    apply algebraicToPoint_letters; [exact E1 | exact E2].
  - unfold setSquare. rewrite E. reflexivity.
Qed.

(** A number that prints as one digit from 1 to 8 is that digit. *)
Lemma to_string_one_digit (n : num) (c : ascii) :
  to_string n = String c EmptyString -> between "1" "8" c = true ->
  exists z, n = Int z /\ 1 <= z <= 8.
Proof.
  destruct n as [z|]; [|discriminate]. cbn [to_string]. intros H Hc.
  exists z. split; [reflexivity|].
  rewrite <- (DecimalZ.of_to z).
  destruct (Z.to_int z) as [u|u]; cbn [NilZero.string_of_int] in H.
  - destruct u as [|u|u|u|u|u|u|u|u|u|u]; cbn in H; inversion H; subst c;
      try discriminate Hc;
      match goal with
      | Hu : NilEmpty.string_of_uint ?v = EmptyString |- _ =>
          destruct v; try discriminate Hu
      end; cbn; lia.
  - inversion H; subst c. discriminate Hc.
Qed.

Lemma files_at_Some (n : num) (c : ascii) :
  files_at n = Some c -> exists z, n = Int z /\ 0 <= z <= 7.
Proof.
  destruct n as [z|]; [|discriminate]. cbn [files_at].
  destruct (0 <=? z) eqn:E; [|discriminate]. apply Z.leb_le in E.
  intros H. exists z. split; [reflexivity|].
  destruct (Z.to_nat z) as [|[|[|[|[|[|[|[|n]]]]]]]] eqn:En; try lia.
  discriminate H.
Qed.

(** X10: [toAlgebraic] gives a name that matches [^[a-h][1-8]$] exactly for the
    points of the board. Reading that name back with [algebraicToPoint]
    gives the point mirrored in its rank, so that naming and reading twice
    gives the point back. *)
Theorem toAlgebraic_names_the_board (p : Point) :
  (is_valid_square (toAlgebraic p) = true <-> on_board p) /\
  (on_board p ->
   algebraicToPoint (toAlgebraic p) = mkPoint (file p) (sub (Int 7) (rank p)) /\
   algebraicToPoint (toAlgebraic (algebraicToPoint (toAlgebraic p))) = p).
Proof.
  split; [split|].
  - unfold toAlgebraic. destruct (files_at (file p)) as [c|] eqn:Ef; [|discriminate].
    cbn [is_valid_square is_square_name].
    destruct (to_string (add (rank p) (Int 1))) as [|c2 [|]] eqn:Er; try discriminate.
    intros H. apply andb_true_iff in H. destruct H as (_ & H2).
    destruct (files_at_Some _ _ Ef) as (f & Hf & Hfr).
    destruct (to_string_one_digit _ _ Er H2) as (z & Hz & Hzr).
    destruct p as [pf [r|]]; cbn [file rank add] in *; [|discriminate].
    injection Hz as <-. exists f, r. subst pf. split; [reflexivity | lia].
  - intros (f & r & -> & Hf & Hr).
    destruct (small_cases f Hf) as [->|[->|[->|[->|[->|[->|[->| ->]]]]]]];
      destruct (small_cases r Hr) as [->|[->|[->|[->|[->|[->|[->| ->]]]]]]];
      reflexivity.
  - intros (f & r & -> & Hf & Hr). cbn [file rank sub].
    rewrite algebraicToPoint_toAlgebraic by assumption.
    split; [reflexivity|].
    rewrite algebraicToPoint_toAlgebraic by lia.
    f_equal. f_equal. ring.
Qed.

Lemma toAlgebraic_names_the_board_witness :
  on_board (mkPoint (Int 4) (Int 3)) /\
  algebraicToPoint (toAlgebraic (mkPoint (Int 4) (Int 3)))
  = mkPoint (Int 4) (Int 4) /\
  algebraicToPoint (toAlgebraic (algebraicToPoint (toAlgebraic (mkPoint (Int 4) (Int 3)))))
  = mkPoint (Int 4) (Int 3).
Proof.
  assert (on_board (mkPoint (Int 4) (Int 3))) as H
    by (exists 4, 3; split; [reflexivity | lia]).
  split; [exact H|].
  exact (proj2 (toAlgebraic_names_the_board (mkPoint (Int 4) (Int 3))) H).
Defined.

(** ** Writing and reading the board *)

Lemma nth_error_update_nth_eq {A : Type} (l : list A) :
  forall n x, (n < List.length l)%nat -> nth_error (update_nth n x l) n = Some x.
Proof.
  induction l as [|y l IH]; intros [|n] x H; cbn in *; try lia; auto.
  apply IH. lia.
Qed.

Lemma nth_error_update_nth_ne {A : Type} (l : list A) :
  forall n m x, n <> m -> nth_error (update_nth n x l) m = nth_error l m.
Proof.
  induction l as [|y l IH]; intros [|n] [|m] x H; cbn; auto; try congruence.
Qed.

Lemma nth_update_nth_eq {A : Type} (l : list A) (d : A) :
  forall n x, (n < List.length l)%nat -> nth n (update_nth n x l) d = x.
Proof.
  induction l as [|y l IH]; intros [|n] x H; cbn in *; try lia; auto.
  apply IH. lia.
Qed.

Lemma nth_update_nth_ne {A : Type} (l : list A) (d : A) :
  forall n m x, n <> m -> nth m (update_nth n x l) d = nth m l d.
Proof.
  induction l as [|y l IH]; intros [|n] [|m] x H; cbn; auto; try congruence.
Qed.

(** A row read where it was just written gives the piece; elsewhere it
    reads as before, also when the write made the array longer. *)
Lemma row_get_row_set (row : Row) (j j' : Z) (pc : Piece) :
  0 <= j -> 0 <= j' ->
  row_get (row_set row (Int j) pc) (Int j')
  = if j' =? j then Occ pc else row_get row (Int j').
Proof.
  intros Hj Hj'. unfold row_get, row_set.
  assert ((0 <=? j) = true) as -> by (now apply Z.leb_le).
  assert ((0 <=? j') = true) as -> by (now apply Z.leb_le).
  cbn [cells].
  destruct (Z.to_nat j <? List.length (cells row))%nat eqn:E.
  - apply Nat.ltb_lt in E. destruct (j' =? j) eqn:Ej.
    + apply Z.eqb_eq in Ej. subst j'. now apply nth_update_nth_eq.
    + apply Z.eqb_neq in Ej. apply nth_update_nth_ne. lia.
  - apply Nat.ltb_ge in E. destruct (j' =? j) eqn:Ej.
    + apply Z.eqb_eq in Ej. subst j'.
      rewrite app_nth2 by lia. rewrite app_nth2 by (rewrite repeat_length; lia).
      rewrite repeat_length.
      replace (Z.to_nat j - List.length (cells row)
               - (Z.to_nat j - List.length (cells row)))%nat with 0%nat by lia.
      reflexivity.
    + apply Z.eqb_neq in Ej.
      destruct (Nat.lt_ge_cases (Z.to_nat j') (List.length (cells row))) as [L|L].
      * now rewrite app_nth1 by exact L.
      * rewrite app_nth2 by exact L.
        rewrite (nth_overflow (cells row)) by exact L.
        destruct (Nat.lt_ge_cases (Z.to_nat j' - List.length (cells row))
                    (Z.to_nat j - List.length (cells row))) as [M|M].
        -- rewrite app_nth1 by (rewrite repeat_length; exact M).
           apply nth_repeat_lt. exact M.
        -- rewrite app_nth2 by (rewrite repeat_length; exact M).
           rewrite repeat_length. apply nth_overflow. cbn. lia.
Qed.

(** A write under a key that is no index leaves the cells alone. *)
Lemma cells_row_set_negative (row : Row) (j : Z) (pc : Piece) :
  j < 0 -> cells (row_set row (Int j) pc) = cells row.
Proof.
  intros Hj. unfold row_set.
  assert ((0 <=? j) = false) as -> by (apply Z.leb_gt; lia). reflexivity.
Qed.

Lemma addPiece_setPieceAtSquare (t : PieceType) (c : Color) (sq : Square) :
  addPiece t c sq = setPieceAtSquare sq (Occ (new_Piece t c)).
Proof. destruct t; reflexivity. Qed.

Lemma pieceList_at_row (b : Board) (k : Z) :
  0 <= k -> (Z.to_nat k < List.length (pieceList b))%nat ->
  exists row, nth_error (pieceList b) (Z.to_nat k) = Some row
              /\ pieceList_at b (Int k) = Some (Z.to_nat k, row).
Proof.
  intros Hk Hlen. unfold pieceList_at.
  assert ((0 <=? k) = true) as -> by (now apply Z.leb_le).
  destruct (nth_error (pieceList b) (Z.to_nat k)) as [row|] eqn:E.
  - exists row. split; reflexivity.
  - apply nth_error_None in E. lia.
Qed.

(** What [addPiece] does on a board of at least eight rows when the square
    has its rank digit: the write goes to row [7 - rank]. *)
Lemma addPiece_writes (w : World) (t : PieceType) (c : Color) (sq : Square) (f k : Z) :
  (8 <= List.length (pieceList (board w)))%nat ->
  algebraicToPoint sq = mkPoint (Int f) (Int k) -> 0 <= k <= 7 ->
  exists row,
    nth_error (pieceList (board w)) (Z.to_nat (7 - k)) = Some row /\
    addPiece t c sq w
    = (Ok tt,
       {| board := {| pieceList :=
            update_nth (Z.to_nat (7 - k)) (row_set row (Int f) (stored_piece t c sq))
              (pieceList (board w)) |};
          console := console w |}).
Proof.
  intros Hrows Hpt Hk. rewrite addPiece_setPieceAtSquare.
  unfold setPieceAtSquare. rewrite Hpt. cbn [rank file sub new_Piece type color].
  destruct (pieceList_at_row (board w) (7 - k)) as (row & Hrow & ->); try lia.
  exists row. split; [exact Hrow|]. unfold stored_piece. rewrite Hpt. reflexivity.
Qed.

(** X11: a piece put on a square is found on the squares whose point is the one
    of the name that [toAlgebraic] gives to the point of the square: the
    square mirrored in its rank. Every other square reads as before. *)
Theorem addPiece_read_back (w : World) (t : PieceType) (c : Color) (sq sq' : Square) :
  (8 <= List.length (pieceList (board w)))%nat ->
  has_file_letter sq = true -> has_rank_digit sq = true ->
  has_file_letter sq' = true -> has_rank_digit sq' = true ->
  result (addPiece t c sq) w = Ok tt /\
  getPieceAtSquare (board (exec (addPiece t c sq) w)) sq'
  = if Point_eqb (algebraicToPoint sq')
         (algebraicToPoint (toAlgebraic (algebraicToPoint sq)))
    then Ok (Occ (stored_piece t c sq))
    else getPieceAtSquare (board w) sq'.
Proof.
  intros Hrows Hf Hr Hf' Hr'.
  destruct (algebraicToPoint_letters sq Hf Hr)
    as (j & k & Hpt & Hj & Hk).
  destruct (algebraicToPoint_letters sq' Hf' Hr')
    as (j' & k' & Hpt' & Hj' & Hk').
  destruct (addPiece_writes w t c sq j k Hrows Hpt Hk) as (row & Hrow & Hadd).
  unfold result, exec. rewrite Hadd. cbn [fst snd board].
  split; [reflexivity|].
  rewrite Hpt at 1. rewrite algebraicToPoint_toAlgebraic by assumption.
  unfold getPieceAtSquare. rewrite Hpt'. cbn [rank file pieceList_at pieceList].
  unfold Point_eqb. cbn [file rank key_eqb].
  assert ((0 <=? k') = true) as -> by (apply Z.leb_le; lia).
  destruct (k' =? 7 - k) eqn:Ek.
  - apply Z.eqb_eq in Ek. subst k'.
    rewrite nth_error_update_nth_eq
      by (apply nth_error_Some; rewrite Hrow; discriminate).
    rewrite Hrow. rewrite row_get_row_set by lia.
    rewrite andb_true_r. destruct (j' =? j); reflexivity.
  - apply Z.eqb_neq in Ek. rewrite andb_false_r.
    rewrite nth_error_update_nth_ne by lia. reflexivity.
Qed.

Lemma addPiece_read_back_witness :
  (8 <= List.length (pieceList (board new_World)))%nat /\
  getPieceAtSquare (board (exec (addPiece QUEEN BLACK (SqStr "c3")) new_World))
    (SqStr "c6")
  = (if Point_eqb (algebraicToPoint (SqStr "c6"))
          (algebraicToPoint (toAlgebraic (algebraicToPoint (SqStr "c3"))))
     then Ok (Occ (stored_piece QUEEN BLACK (SqStr "c3")))
     else getPieceAtSquare (board new_World) (SqStr "c6")).
Proof.
  assert (8 <= List.length (pieceList (board new_World)))%nat as H by (cbn; lia).
  split; [exact H|].
  apply (addPiece_read_back new_World QUEEN BLACK (SqStr "c3") (SqStr "c6") H);
    reflexivity.
Defined.

Lemma pieceList_at_outside (b : Board) (k : num) :
  List.length (pieceList b) = 8%nat ->
  k = NaN \/ k = Int 8 \/ k = Int (-1) ->
  pieceList_at b k = None.
Proof.
  intros Hlen [->|[->| ->]]; unfold pieceList_at; try reflexivity.
  assert (nth_error (pieceList b) (Z.to_nat 8) = None) as ->
    by (apply nth_error_None; rewrite Hlen; cbn; lia).
  reflexivity.
Qed.

(** X12: on a board of eight rows the rank digit alone decides whether a square
    can be read or written: with a digit from 1 to 8 as second character
    [getPieceAtSquare] returns and [addPiece] succeeds, whatever the first
    character; without it both throw a [TypeError], and [addPiece] leaves
    the world as it was. *)
Theorem rank_digit_decides_failure (w : World) (t : PieceType) (c : Color) (sq : Square) :
  List.length (pieceList (board w)) = 8%nat ->
  if has_rank_digit sq
  then (exists v, getPieceAtSquare (board w) sq = Ok v)
       /\ result (addPiece t c sq) w = Ok tt
  else getPieceAtSquare (board w) sq = Throw TypeError
       /\ addPiece t c sq w = (Throw TypeError, w).
Proof.
  intros Hlen. destruct (algebraicToPoint_rank sq) as (H1 & H0).
  destruct (algebraicToPoint_file sq) as (f & Hf & _).
  destruct (has_rank_digit sq).
  - destruct (H1 eq_refl) as (k & Hk & Hrange). split.
    + unfold getPieceAtSquare. rewrite Hk.
      destruct (pieceList_at_row (board w) k) as (row & _ & ->); try lia.
      eexists; reflexivity.
    + destruct (addPiece_writes w t c sq f k) as (row & _ & Hadd); try lia.
      * destruct (algebraicToPoint sq) as [pf pr]. cbn [file rank] in *. now subst.
      * unfold result. rewrite Hadd. reflexivity.
  - specialize (H0 eq_refl). split.
    + unfold getPieceAtSquare. rewrite pieceList_at_outside; auto.
    + rewrite addPiece_setPieceAtSquare. unfold setPieceAtSquare.
      rewrite pieceList_at_outside; [reflexivity | exact Hlen|].
      destruct H0 as [->|[->| ->]]; cbn; auto.
Qed.

Lemma rank_digit_decides_failure_witness :
  List.length (pieceList (board new_World)) = 8%nat /\
  getPieceAtSquare (board new_World) (SqStr "a9") = Throw TypeError /\
  addPiece KNIGHT WHITE (SqStr "a9") new_World = (Throw TypeError, new_World).
Proof.
  split; [reflexivity|].
  apply (rank_digit_decides_failure new_World KNIGHT WHITE (SqStr "a9")).
  reflexivity.
Defined.

Lemma map_cells_update_nth (rows : list Row) (row row' : Row) :
  forall i, nth_error rows i = Some row -> cells row' = cells row ->
            map cells (update_nth i row' rows) = map cells rows.
Proof.
  induction rows as [|r rows IH]; intros [|i] H E; cbn in *; try discriminate.
  - injection H as ->. now rewrite E.
  - f_equal. now apply IH.
Qed.

Lemma pieces_map_cells (b b' : Board) :
  map cells (pieceList b') = map cells (pieceList b) -> pieces b' = pieces b.
Proof.
  intros H. unfold pieces.
  rewrite <- (map_map cells filter_not_null (pieceList b')).
  rewrite <- (map_map cells filter_not_null (pieceList b)).
  now rewrite H.
Qed.

(** X13: a piece put on a square whose first character is no letter from a to h
    (with a rank digit) is lost without an error: the call succeeds, the
    list of pieces is as before and so is every square with a proper
    letter. *)
Theorem addPiece_bad_letter_is_lost (w : World) (t : PieceType) (c : Color)
    (sq sq' : Square) :
  (8 <= List.length (pieceList (board w)))%nat ->
  has_file_letter sq = false -> has_rank_digit sq = true ->
  has_file_letter sq' = true ->
  result (addPiece t c sq) w = Ok tt /\
  pieces (board (exec (addPiece t c sq) w)) = pieces (board w) /\
  getPieceAtSquare (board (exec (addPiece t c sq) w)) sq'
  = getPieceAtSquare (board w) sq'.
Proof.
  intros Hrows Hf Hr Hf'.
  destruct (algebraicToPoint_file sq) as (f & Hfile & _ & Hf0).
  specialize (Hf0 Hf). subst f.
  destruct (proj1 (algebraicToPoint_rank sq) Hr) as (k & Hk & Hrange).
  assert (algebraicToPoint sq = mkPoint (Int (-1)) (Int k)) as Hpt
    by (destruct (algebraicToPoint sq) as [pf pr]; cbn [file rank] in *; now subst).
  destruct (addPiece_writes w t c sq (-1) k Hrows Hpt Hrange) as (row & Hrow & Hadd).
  unfold result, exec. rewrite Hadd. cbn [fst snd board].
  assert (map cells (update_nth (Z.to_nat (7 - k))
                       (row_set row (Int (-1)) (stored_piece t c sq))
                       (pieceList (board w)))
          = map cells (pieceList (board w))) as Hcells
    by (apply map_cells_update_nth with (row := row); [exact Hrow | reflexivity]).
  split; [reflexivity|]. split.
  - apply pieces_map_cells. exact Hcells.
  - destruct (algebraicToPoint_file sq') as (f' & Hfile' & Hf1 & _).
    specialize (Hf1 Hf').
    unfold getPieceAtSquare. rewrite Hfile'.
    destruct (rank (algebraicToPoint sq')) as [k'|]; [|reflexivity].
    unfold pieceList_at. cbn [pieceList].
    destruct (0 <=? k') eqn:E0; [|reflexivity].
    destruct (Nat.eq_dec (Z.to_nat (7 - k)) (Z.to_nat k')) as [E|E].
    + rewrite <- E.
      rewrite nth_error_update_nth_eq
        by (apply nth_error_Some; rewrite Hrow; discriminate).
      rewrite Hrow. f_equal. unfold row_get.
      assert ((0 <=? f') = true) as -> by (apply Z.leb_le; exact (proj1 Hf1)).
      reflexivity.
    + rewrite nth_error_update_nth_ne by exact E. reflexivity.
Qed.

Lemma addPiece_bad_letter_is_lost_witness :
  (8 <= List.length (pieceList (board rook_on_a1)))%nat /\
  result (addPiece QUEEN WHITE (SqStr "z4")) rook_on_a1 = Ok tt /\
  pieces (board (exec (addPiece QUEEN WHITE (SqStr "z4")) rook_on_a1))
  = pieces (board rook_on_a1) /\
  getPieceAtSquare (board (exec (addPiece QUEEN WHITE (SqStr "z4")) rook_on_a1))
    (SqStr "a1")
  = getPieceAtSquare (board rook_on_a1) (SqStr "a1").
Proof.
  assert (8 <= List.length (pieceList (board rook_on_a1)))%nat as H
    by (vm_compute; lia).
  split; [exact H|].
  apply (addPiece_bad_letter_is_lost rook_on_a1 QUEEN WHITE (SqStr "z4") (SqStr "a1") H);
    reflexivity.
Defined.

(** ** The grid and the points of the pieces *)

Lemma pieceList_at_Some (b : Board) (k : num) (i : nat) (row : Row) :
  pieceList_at b k = Some (i, row) ->
  exists z, k = Int z /\ 0 <= z /\ i = Z.to_nat z
            /\ nth_error (pieceList b) i = Some row.
Proof.
  unfold pieceList_at. destruct k as [z|]; [|discriminate].
  destruct (0 <=? z) eqn:E; [|discriminate]. apply Z.leb_le in E.
  destruct (nth_error (pieceList b) (Z.to_nat z)) as [r|] eqn:En; [|discriminate].
  intros [= <- <-]. exists z. repeat split; auto.
Qed.

Lemma setPieceAtSquare_grid (sq : Square) (piece : Cell) :
  preserves (fun w => board_grid (board w)) (setPieceAtSquare sq piece).
Proof.
  intros w (Hlen & Hrows). unfold setPieceAtSquare. cbv zeta.
  destruct piece as [| |pc]; try (split; assumption).
  destruct (pieceList_at (board w) _) as [[i row]|] eqn:E; [|split; assumption].
  apply pieceList_at_Some in E. destruct E as (z & Hz & Hz0 & -> & Hrow).
  destruct (algebraicToPoint_file sq) as (f & Hf & _).
  pose proof (files_indexOf_range (char_at sq 0)) as Hfr.
  assert (f = files_indexOf (char_at sq 0)) as Ef
    by (unfold algebraicToPoint in Hf; cbn [file] in Hf; congruence).
  destruct (rank (algebraicToPoint sq)) as [k|] eqn:Ek; [|discriminate].
  assert (z = 7 - k) as -> by (unfold sub in Hz; congruence). clear Hz.
  assert (Z.to_nat (7 - k) < List.length (pieceList (board w)))%nat as Hi
    by (apply nth_error_Some; rewrite Hrow; discriminate).
  destruct (Hrows _ _ Hrow) as (Hcells & Hslots).
  unfold board_grid. cbn [snd board pieceList]. split.
  - rewrite length_update_nth. exact Hlen.
  - intros i' row' Hrow'.
    destruct (Nat.eq_dec (Z.to_nat (7 - k)) i') as [<-|Hne].
    + rewrite nth_error_update_nth_eq in Hrow' by exact Hi.
      injection Hrow' as <-. unfold row_set. rewrite ?Hf. cbn [file algebraicToPoint].
      rewrite <- ?Ef.
      destruct (0 <=? f) eqn:E0; cbn [cells]; [|split; [exact Hcells | exact Hslots]].
      apply Z.leb_le in E0.
      assert ((Z.to_nat f <? List.length (cells row))%nat = true) as ->
        by (apply Nat.ltb_lt; rewrite Hcells; lia).
      split; [rewrite length_update_nth; exact Hcells|].
      intros j c Hc. destruct (Nat.eq_dec (Z.to_nat f) j) as [<-|Hj].
      * rewrite nth_error_update_nth_eq in Hc by (rewrite Hcells; lia).
        injection Hc as <-. cbn [slot_ok point]. f_equal.
        destruct (algebraicToPoint sq) as [pf pr]. cbn [file rank] in *.
        subst pf pr. f_equal; f_equal; lia.
      * rewrite nth_error_update_nth_ne in Hc by exact Hj. now apply Hslots.
    + rewrite nth_error_update_nth_ne in Hrow' by exact Hne. now apply Hrows.
Qed.

Lemma place_letter_grid (ch : ascii) (c : Color) (sq : Square) :
  preserves (fun w => board_grid (board w)) (place_letter ch c sq).
Proof.
  unfold place_letter.
  repeat match goal with
         | |- context [if ?t then _ else _] =>
             destruct t; [rewrite addPiece_setPieceAtSquare; apply setPieceAtSquare_grid|]
         end.
  apply preserves_ret.
Qed.

Lemma fen_row_grid (rank0 : Z) (str : list ascii) :
  forall file0, preserves (fun w => board_grid (board w)) (fen_row rank0 str file0).
Proof.
  induction str as [|ch rest IH]; intros file0; cbn [fen_row].
  - apply preserves_ret.
  - destruct (file0 <=? 8); [|apply preserves_ret].
    destruct (is_digit ch); [apply IH|].
    apply preserves_mbind; [apply place_letter_grid | intros _; apply IH].
Qed.

Lemma setPositionFromFEN_grid (fen : string) :
  preserves (fun w => board_grid (board w)) (setPositionFromFEN fen).
Proof.
  unfold setPositionFromFEN. apply preserves_for_each. intros i.
  unfold fen_rank. destruct (nth_error _ i).
  - apply fen_row_grid.
  - apply preserves_lift.
Qed.

Lemma new_Board_grid : board_grid new_Board.
Proof.
  split; [reflexivity|]. intros i row Hrow.
  assert (row = {| cells := repeat Null 8; props := [] |}) as ->.
  { apply nth_error_In in Hrow. cbn in Hrow.
    repeat (destruct Hrow as [<-|Hrow]; [reflexivity|]). destruct Hrow. }
  split; [reflexivity|]. intros j c Hc. apply nth_error_In in Hc. cbn in Hc.
  repeat (destruct Hc as [<-|Hc]; [exact I|]). destruct Hc.
Qed.

Lemma reachable_board_grid (w : World) : reachable w -> board_grid (board w).
Proof.
  induction 1 as [|w t c sq Hr IH|w sq Hr IH|w fen Hr IH|w Hr IH|w Hr IH].
  - exact new_Board_grid.
  - rewrite addPiece_setPieceAtSquare. exact (setPieceAtSquare_grid _ _ w IH).
  - exact (setPieceAtSquare_grid sq Null w IH).
  - exact (setPositionFromFEN_grid fen w IH).
  - destruct (getpseudoLegalMoves_keeps w (reachable_board_ok w Hr)) as (w' & Hw' & Hb).
    unfold exec. rewrite Hw'. cbn [snd]. rewrite Hb. exact IH.
  - destruct (one_file_getpseudoLegalMoves_keeps w (reachable_board_ok w Hr))
      as (w' & Hw' & Hb).
    unfold exec. rewrite Hw'. cbn [snd]. rewrite Hb. exact IH.
Qed.

(** On the grid, a slot read by its coordinates. *)
Lemma grid_read (b : Board) (j k : Z) :
  board_grid b -> 0 <= j <= 7 -> 0 <= k <= 7 ->
  exists row c,
    nth_error (pieceList b) (Z.to_nat k) = Some row /\
    nth_error (cells row) (Z.to_nat j) = Some c /\
    slot_ok (Z.to_nat k) (Z.to_nat j) c /\
    forall sq, algebraicToPoint sq = mkPoint (Int j) (Int k) ->
               getPieceAtSquare b sq = Ok c.
Proof.
  intros (Hlen & Hrows) Hj Hk.
  destruct (pieceList_at_row b k) as (row & Hrow & Hat); try lia.
  destruct (Hrows _ _ Hrow) as (Hcells & Hslots).
  destruct (nth_error (cells row) (Z.to_nat j)) as [c|] eqn:Ec;
    [|apply nth_error_None in Ec; lia].
  exists row, c. repeat split; auto.
  intros sq Hsq. unfold getPieceAtSquare. rewrite Hsq. cbn [rank file].
  rewrite Hat. unfold row_get.
  assert ((0 <=? j) = true) as -> by (apply Z.leb_le; lia).
  f_equal. now apply nth_error_nth.
Qed.

Lemma Square_eqb_eq (a b : Square) : Square_eqb a b = true <-> a = b.
Proof.
  destruct a as [s|], b as [t|]; cbn [Square_eqb]; split; try congruence.
  - intros H. apply String.eqb_eq in H. now subst.
  - intros [= ->]. apply String.eqb_refl.
Qed.

Lemma valid_square_letters (sq : Square) :
  is_valid_square sq = true ->
  has_file_letter sq = true /\ has_rank_digit sq = true.
Proof.
  destruct sq as [s|]; [|discriminate]. cbn [is_valid_square].
  destruct s as [|c1 [|c2 [|]]]; try discriminate.
  cbn [is_square_name]. intros E. apply andb_true_iff in E.
  unfold has_file_letter, has_rank_digit. cbn. exact E.
Qed.

Lemma valid_square_point (sq : Square) :
  is_valid_square sq = true ->
  exists j k, algebraicToPoint sq = mkPoint (Int j) (Int k)
              /\ 0 <= j <= 7 /\ 0 <= k <= 7
              /\ toAlgebraic (mkPoint (Int j) (Int (7 - k))) = sq.
Proof.
  intros Hv. destruct (valid_square_letters sq Hv) as (Hl & Hd).
  destruct (algebraicToPoint_letters sq Hl Hd)
    as (j & k & Hpt & Hj & Hk).
  exists j, k. repeat split; try assumption; try lia.
  destruct sq as [s|]; [|discriminate]. cbn [is_valid_square] in Hv.
  apply is_square_name_In in Hv.
  assert (forallb (fun s =>
            Square_eqb
              (toAlgebraic (mkPoint (file (algebraicToPoint (SqStr s)))
                                    (sub (Int 7) (rank (algebraicToPoint (SqStr s))))))
              (SqStr s)) square_names = true) as Hall by (vm_compute; reflexivity).
  rewrite forallb_forall in Hall. specialize (Hall s Hv).
  apply Square_eqb_eq in Hall. rewrite Hpt in Hall. exact Hall.
Qed.

(** X14: every board that the methods can build is the 8x8 grid of the
    constructor, and a valid square name read on it gives [null] or a piece
    whose own [square] is that name: the point of a piece always agrees
    with the slot that holds it. *)
Theorem reachable_board_consistent (w : World) :
  reachable w ->
  board_grid (board w) /\
  forall sq, is_valid_square sq = true ->
    getPieceAtSquare (board w) sq = Ok Null
    \/ exists pc, getPieceAtSquare (board w) sq = Ok (Occ pc)
                  /\ square pc = Some sq.
Proof.
  intros Hr. pose proof (reachable_board_grid w Hr) as Hg.
  split; [exact Hg|]. intros sq Hsq.
  destruct (valid_square_point sq Hsq) as (j & k & Hpt & Hj & Hk & Hname).
  destruct (grid_read (board w) j k Hg Hj Hk) as (row & c & _ & _ & Hslot & Hget).
  rewrite (Hget sq Hpt).
  destruct c as [| |pc]; [now left | destruct Hslot |].
  right. exists pc. split; [reflexivity|].
  cbn [slot_ok] in Hslot. unfold square. rewrite Hslot.
  rewrite !Z2Nat.id by lia. now rewrite Hname.
Qed.

Lemma reachable_board_consistent_witness :
  reachable (exec setInitialPosition new_World) /\
  (getPieceAtSquare (board (exec setInitialPosition new_World)) (SqStr "e1") = Ok Null
   \/ exists pc,
        getPieceAtSquare (board (exec setInitialPosition new_World)) (SqStr "e1")
        = Ok (Occ pc)
        /\ square pc = Some (SqStr "e1")).
Proof.
  assert (reachable (exec setInitialPosition new_World)) as Hr
    by (apply reach_setPositionFromFEN; apply reach_new).
  split; [exact Hr|].
  apply (proj2 (reachable_board_consistent _ Hr)). reflexivity.
Defined.

Lemma In_fold_left_app (rows : list (list Piece)) :
  forall acc pc,
    In pc acc \/ (exists row, In row rows /\ In pc row) ->
    In pc (fold_left (fun pieceArray row => pieceArray ++ row) rows acc).
Proof.
  induction rows as [|row rows IH]; intros acc pc H; cbn.
  - destruct H as [H|(row & [] & _)]. exact H.
  - apply IH. destruct H as [H|(row' & [<-|Hr] & Hpc)].
    + left. apply in_or_app. now left.
    + left. apply in_or_app. now right.
    + right. exists row'. split; assumption.
Qed.

Lemma In_filter_not_null (cs : list Cell) (pc : Piece) :
  In (Occ pc) cs -> In pc (filter_not_null cs).
Proof.
  induction cs as [|c cs IH]; cbn; [tauto|].
  intros [->|H]; [now left|].
  destruct c; cbn; auto.
Qed.

Lemma pieces_In (b : Board) (pc : Piece) :
  In pc (pieces b) <-> exists row, In row (pieceList b) /\ In (Occ pc) (cells row).
Proof.
  unfold pieces. split.
  - intros H. apply fold_left_app_In in H. destruct H as [[]|(l & Hl & Hpc)].
    apply in_map_iff in Hl. destruct Hl as (row & <- & Hrow).
    exists row. split; [exact Hrow | now apply filter_not_null_In].
  - intros (row & Hrow & Hpc). apply In_fold_left_app. right.
    exists (filter_not_null (cells row)). split.
    + apply in_map_iff. exists row. split; [reflexivity | exact Hrow].
    + now apply In_filter_not_null.
Qed.

Lemma on_board_valid_name (j k : Z) :
  0 <= j <= 7 -> 0 <= k <= 7 ->
  is_valid_square (toAlgebraic (mkPoint (Int j) (Int k))) = true.
Proof.
  intros Hj Hk.
  destruct (small_cases j Hj) as [->|[->|[->|[->|[->|[->|[->| ->]]]]]]];
    destruct (small_cases k Hk) as [->|[->|[->|[->|[->|[->|[->| ->]]]]]]];
    reflexivity.
Qed.

(** X15: on every board that the methods can build, the getter [pieces] lists
    exactly the pieces that [getPieceAtSquare] finds on the 64 valid
    squares. *)
Theorem pieces_are_the_occupants (w : World) (pc : Piece) :
  reachable w ->
  (In pc (pieces (board w))
   <-> exists sq, is_valid_square sq = true
                  /\ getPieceAtSquare (board w) sq = Ok (Occ pc)).
Proof.
  intros Hr. pose proof (reachable_board_grid w Hr) as Hg.
  rewrite pieces_In. split.
  - intros (row & Hrow & Hpc).
    apply In_nth_error in Hrow. destruct Hrow as (i & Hrow).
    apply In_nth_error in Hpc. destruct Hpc as (j & Hpc).
    destruct Hg as (Hlen & Hrows). destruct (Hrows _ _ Hrow) as (Hcells & _).
    assert (i < 8)%nat as Hi
      by (rewrite <- Hlen; apply nth_error_Some; rewrite Hrow; discriminate).
    assert (j < 8)%nat as Hj
      by (rewrite <- Hcells; apply nth_error_Some; rewrite Hpc; discriminate).
    exists (toAlgebraic (mkPoint (Int (Z.of_nat j)) (Int (7 - Z.of_nat i)))).
    split; [apply on_board_valid_name; lia|].
    unfold getPieceAtSquare.
    rewrite algebraicToPoint_toAlgebraic by lia. cbn [rank file].
    replace (7 - (7 - Z.of_nat i)) with (Z.of_nat i) by ring.
    unfold pieceList_at.
    assert ((0 <=? Z.of_nat i) = true) as -> by (apply Z.leb_le; lia).
    rewrite Nat2Z.id, Hrow. unfold row_get.
    assert ((0 <=? Z.of_nat j) = true) as -> by (apply Z.leb_le; lia).
    rewrite Nat2Z.id. f_equal. now apply nth_error_nth.
  - intros (sq & Hv & Hget).
    destruct (valid_square_point sq Hv) as (j & k & Hpt & Hj & Hk & _).
    destruct (grid_read (board w) j k Hg Hj Hk) as (row & c & Hrow & Hc & _ & Hread).
    rewrite (Hread sq Hpt) in Hget. injection Hget as ->.
    exists row. split; [eapply nth_error_In; exact Hrow
                       | eapply nth_error_In; exact Hc].
Qed.

Lemma pieces_are_the_occupants_witness :
  reachable rook_on_a1 /\
  (In {| type := ROOK; point := Some (mkPoint (Int 0) (Int 0)); color := WHITE |}
      (pieces (board rook_on_a1))
   <-> exists sq, is_valid_square sq = true
                  /\ getPieceAtSquare (board rook_on_a1) sq
                     = Ok (Occ {| type := ROOK; point := Some (mkPoint (Int 0) (Int 0));
                                  color := WHITE |})).
Proof.
  assert (reachable rook_on_a1) as Hr
    by (apply reach_setPositionFromFEN; apply reach_new).
  split; [exact Hr|].
  apply (pieces_are_the_occupants rook_on_a1 _ Hr).
Defined.



(** ** Pawns *)

Lemma isValid_spec (p : Point) : isValid p = true <-> on_board p.
Proof. destruct p as [f r]. apply _isInBounds_spec. Qed.

(** X17: the squares of a pawn, from its point alone (the board is not looked
    at). The point ahead is on the same file, one rank further in the
    direction of the colour, or [null] when that is off the board; the point
    two ahead, when there is one, is the point ahead of the point ahead; the
    attack points are the squares of the board on the rank ahead and on a
    file next to the pawn's. *)
Theorem pawn_points (this : Piece) (f r : Z) :
  point this = Some (mkPoint (Int f) (Int r)) ->
  on_board (mkPoint (Int f) (Int r)) ->
  getPointAhead this
  = Ok (if (0 <=? r + pawn_step this) && (r + pawn_step this <=? 7)
        then Some (mkPoint (Int f) (Int (r + pawn_step this))) else None) /\
  (forall q2, getPointTwoAhead this = Ok (Some q2) ->
     exists q1, getPointAhead this = Ok (Some q1)
                /\ getPointAhead (moved_to this q1) = Ok (Some q2)) /\
  (exists l, getPawnAttackPoints this = Ok l /\
     forall q, In q l <->
       on_board q /\ rank q = Int (r + pawn_step this)
       /\ (file q = Int (f - 1) \/ file q = Int (f + 1))).
Proof.
  intros Hp (f' & r' & [= <- <-] & Hf & Hr).
  unfold pawn_step.
  split; [|split].
  - unfold getPointAhead, on_point, isValid, _isInBounds. rewrite Hp.
    cbn [file rank add sub geb leb].
    assert ((0 <=? f) = true) as -> by (apply Z.leb_le; lia).
    assert ((f <=? 7) = true) as -> by (apply Z.leb_le; lia).
    destruct (Color_eqb (color this) BLACK); cbn [andb];
      replace (r - 1) with (r + -1) by ring; reflexivity.
  - intros q2. unfold getPointTwoAhead, getPointAhead, on_point, moved_to.
    rewrite Hp. cbn [point color file rank].
    destruct (Color_eqb (color this) BLACK);
      cbn [add sub file rank];
      (destruct (isValid _) eqn:E2; [|discriminate]); intros [= <-];
      apply isValid_spec in E2; destruct E2 as (a & b & [= <- Hb] & _ & Hb2).
    + assert (isValid (mkPoint (Int f) (Int (r + 1))) = true) as E1
        by (apply isValid_spec; exists f, (r + 1); split; [reflexivity | lia]).
      rewrite E1. eexists. split; [reflexivity|]. cbn [file rank add].
      replace (r + 1 + 1) with (r + 2) by ring.
      assert (isValid (mkPoint (Int f) (Int (r + 2))) = true) as ->
        by (apply isValid_spec; exists f, (r + 2); split; [reflexivity | lia]).
      reflexivity.
    + assert (isValid (mkPoint (Int f) (Int (r - 1))) = true) as E1
        by (apply isValid_spec; exists f, (r - 1); split; [reflexivity | lia]).
      rewrite E1. eexists. split; [reflexivity|]. cbn [file rank sub].
      replace (r - 1 - 1) with (r - 2) by ring.
      assert (isValid (mkPoint (Int f) (Int (r - 2))) = true) as ->
        by (apply isValid_spec; exists f, (r - 2); split; [reflexivity | lia]).
      reflexivity.
  - unfold getPawnAttackPoints, on_point. rewrite Hp. cbn [file rank add sub].
    eexists. split; [reflexivity|]. intros q.
    assert ((if Color_eqb (color this) BLACK then Int 1 else Int (-1))
            = Int (if Color_eqb (color this) BLACK then 1 else -1)) as ->
      by (destruct (Color_eqb (color this) BLACK); reflexivity).
    cbn [add]. rewrite in_app_iff. split.
    + intros [H|H];
        (destruct (isValid _) eqn:E in H; [|destruct H]);
        destruct H as [<-|[]]; apply isValid_spec in E;
        (split; [exact E|]); cbn [file rank]; auto.
    + intros (Hb & Hrank & Hfile). destruct q as [qf qr]. cbn [file rank] in *.
      subst qr. apply isValid_spec in Hb.
      destruct Hfile as [-> | ->]; [left | right]; rewrite Hb; now left.
Qed.

Lemma pawn_points_witness :
  getPawnAttackPoints (moved_to (new_Piece PAWN WHITE) (mkPoint (Int 0) (Int 6)))
  = Ok [mkPoint (Int 1) (Int 5)]
  /\ exists l,
       getPawnAttackPoints (moved_to (new_Piece PAWN WHITE) (mkPoint (Int 0) (Int 6))) = Ok l
       /\ forall q, In q l <->
            on_board q /\ rank q = Int 5 /\ (file q = Int (-1) \/ file q = Int 1).
Proof.
  split; [reflexivity|].
  assert (on_board (mkPoint (Int 0) (Int 6))) as H
    by (exists 0, 6; split; [reflexivity | lia]).
  exact (proj2 (proj2 (pawn_points
                         (moved_to (new_Piece PAWN WHITE) (mkPoint (Int 0) (Int 6)))
                         0 6 eq_refl H))).
Defined.

Lemma reachable_read_point (w : World) (sq : Square) (pc : Piece) :
  reachable w -> is_valid_square sq = true ->
  getPieceAtSquare (board w) sq = Ok (Occ pc) ->
  exists j r, 0 <= j <= 7 /\ 0 <= r <= 7
              /\ point pc = Some (mkPoint (Int j) (Int r))
              /\ toAlgebraic (mkPoint (Int j) (Int r)) = sq.
Proof.
  intros Hr Hsq Hget. pose proof (reachable_board_grid w Hr) as Hg.
  destruct (valid_square_point sq Hsq) as (j & k & Hpt & Hj & Hk & Hname).
  destruct (grid_read (board w) j k Hg Hj Hk) as (row & c & _ & _ & Hslot & Hread).
  rewrite (Hread sq Hpt) in Hget. injection Hget as ->.
  cbn [slot_ok] in Hslot. rewrite !Z2Nat.id in Hslot by lia.
  exists j, (7 - k). repeat split; try lia; assumption.
Qed.

(** X18: on a board reached through the methods of [Board], the pawn read at a
    square is on its starting square exactly when it is black and the square
    is on the rank named 2, or white and on the rank named 7; and its point
    ahead, when there is one, is named with the same letter and the next
    digit for black, the digit before for white. *)
Theorem pawn_direction_by_name (w : World) (sq : Square) (pc : Piece) :
  reachable w -> is_valid_square sq = true ->
  getPieceAtSquare (board w) sq = Ok (Occ pc) ->
  Pawn_isOnStartingSquare pc
  = Ok ((Color_eqb (color pc) BLACK && rank_digit_is sq "2")
        || (Color_eqb (color pc) WHITE && rank_digit_is sq "7")) /\
  forall q, getPointAhead pc = Ok (Some q) ->
    exists l d d',
      sq = SqStr (String l (String d EmptyString))
      /\ toAlgebraic q = SqStr (String l (String d' EmptyString))
      /\ code d' = code d + pawn_step pc.
Proof.
  intros Hr Hsq Hget.
  destruct (reachable_read_point w sq pc Hr Hsq Hget) as (j & r & Hj & Hr' & Hp & <-).
  unfold Pawn_isOnStartingSquare, getPointAhead, pawn_step, on_point. rewrite Hp.
  assert (j = 0 \/ j = 1 \/ j = 2 \/ j = 3 \/ j = 4 \/ j = 5 \/ j = 6 \/ j = 7)
    as Ej by lia.
  assert (r = 0 \/ r = 1 \/ r = 2 \/ r = 3 \/ r = 4 \/ r = 5 \/ r = 6 \/ r = 7)
    as Er by lia.
  clear Hj Hr' Hp Hget Hsq.
  destruct (color pc);
    repeat (destruct Ej as [-> | Ej]); subst;
    repeat (destruct Er as [-> | Er]); subst;
    (split; [reflexivity|]);
    intros q H; vm_compute in H; try discriminate H;
    injection H as <-; do 3 eexists; repeat split.
Qed.

Lemma pawn_direction_by_name_witness :
  exists pc,
    getPieceAtSquare (board (exec setInitialPosition new_World)) (SqStr "e2")
    = Ok (Occ pc)
    /\ color pc = WHITE
    /\ Pawn_isOnStartingSquare pc = Ok false
    /\ getPointAhead pc = Ok (Some (mkPoint (Int 4) (Int 0))).
Proof.
  eexists. split; [reflexivity|]. split; [reflexivity|].
  assert (reachable (exec setInitialPosition new_World)) as Hr
    by (apply reach_setPositionFromFEN; apply reach_new).
  split; [|reflexivity].
  exact (proj1 (pawn_direction_by_name _ (SqStr "e2") _ Hr eq_refl eq_refl)).
Defined.

(** ** The squares the enumerator keeps *)

Lemma findUnblockedPoints_loop_filter (b : Board) (color0 : Color) (caps : bool)
    (pointList : list Point) :
  (8 <= List.length (pieceList b))%nat -> Forall on_board pointList ->
  forall acc,
    findUnblockedPoints_loop b pointList color0 caps acc
    = Ok (acc ++ filter (unblocked b color0 caps) pointList).
Proof.
  intros Hrows. induction 1 as [|p l Hp _ IH]; intros acc;
    cbn [findUnblockedPoints_loop filter].
  - now rewrite app_nil_r.
  - destruct (occupant_total b p Hrows Hp) as (v & Hv).
    unfold unblocked. rewrite Hv. unfold occupant in Hv. rewrite Hv. cbn [obind].
    destruct v as [| |q];
      [rewrite IH, <- app_assoc; reflexivity
      |rewrite IH, <- app_assoc; reflexivity|].
    destruct (caps && negb (Color_eqb (color q) color0) && negb (isKing q));
      rewrite IH, <- ?app_assoc; reflexivity.
Qed.

(** X19: [findUnblockedPoints] is a filter: of the points of the board it is
    given it returns, in their order, those whose square is empty or, when
    captures are included, holds a piece of the other colour that is not a
    king. It does not throw. *)
Theorem findUnblockedPoints_filters (b : Board) (pointList : list Point)
    (color0 : Color) (includeCaptures : bool) :
  (8 <= List.length (pieceList b))%nat -> Forall on_board pointList ->
  findUnblockedPoints b pointList color0 includeCaptures
  = Ok (filter (unblocked b color0 includeCaptures) pointList).
Proof.
  intros Hrows Hl. unfold findUnblockedPoints.
  now rewrite findUnblockedPoints_loop_filter.
Qed.

Lemma findUnblockedPoints_filters_witness :
  (8 <= List.length (pieceList (board rook_d4_king_d5)))%nat /\
  findUnblockedPoints (board rook_d4_king_d5)
    (getSurroundingPoints (at_square "d5")) BLACK true
  = Ok (filter (unblocked (board rook_d4_king_d5) BLACK true)
          (getSurroundingPoints (at_square "d5"))).
Proof.
  assert (8 <= List.length (pieceList (board rook_d4_king_d5)))%nat as H
    by (vm_compute; lia).
  split; [exact H|].
  apply (findUnblockedPoints_filters _ _ BLACK true H).
  apply Forall_forall. intros q Hq. vm_compute in Hq.
  repeat (destruct Hq as [<-|Hq];
          [eexists; eexists; split; [reflexivity | lia]|]).
  destruct Hq.
Defined.

Lemma line_loop_sound (b : Board) (color0 : Color) (line : list Point) :
  (8 <= List.length (pieceList b))%nat -> Forall on_board line ->
  forall blocked acc,
  exists l, line_loop b color0 line blocked acc = Ok (acc ++ l)
            /\ (forall p, In p l -> In p line /\ unblocked b color0 true p = true)
            /\ (blocked = false ->
                forall p rest, line = p :: rest ->
                               unblocked b color0 true p = true -> In p l).
Proof.
  intros Hrows. induction 1 as [|p line Hp _ IH]; intros blocked acc;
    cbn [line_loop].
  - exists []. rewrite app_nil_r.
    split; [reflexivity|]. split; [intros ? [] | intros _ ? ? [=]].
  - destruct blocked.
    { exists []. rewrite app_nil_r.
      split; [reflexivity|]. split; [intros ? [] | discriminate]. }
    destruct (occupant_total b p Hrows Hp) as (v & Hv).
    assert (unblocked b color0 true p
            = match v with
              | Occ q => negb (Color_eqb (color q) color0) && negb (isKing q)
              | _ => true
              end) as Hu by (unfold unblocked; rewrite Hv; reflexivity).
    unfold occupant in Hv. rewrite Hv. cbn [obind].
    assert (forall blocked',
               exists l, line_loop b color0 line blocked' (acc ++ [p])
                         = Ok (acc ++ l)
                         /\ (forall p0, In p0 l ->
                               In p0 (p :: line) /\ unblocked b color0 true p0 = true
                               \/ p0 = p)
                         /\ In p l) as Hadd.
    { intros blocked'. destruct (IH blocked' (acc ++ [p])) as (l & Hl & Hs & _).
      exists (p :: l). rewrite Hl, <- app_assoc. split; [reflexivity|].
      split; [|now left].
      intros p0 [<-|H0]; [now right|]. left. destruct (Hs p0 H0). split; [now right|assumption]. }
    assert (forall blocked',
               exists l, line_loop b color0 line blocked' acc = Ok (acc ++ l)
                         /\ (forall p0, In p0 l ->
                               In p0 (p :: line) /\ unblocked b color0 true p0 = true))
      as Hskip.
    { intros blocked'. destruct (IH blocked' acc) as (l & Hl & Hs & _).
      exists l. split; [exact Hl|]. intros p0 H0. destruct (Hs p0 H0).
      split; [now right|assumption]. }
    destruct v as [| |q].
    + destruct (Hadd false) as (l & Hl & Hs & Hin). exists l.
      split; [exact Hl|]. split.
      * intros p0 H0. destruct (Hs p0 H0) as [?| ->]; [assumption|].
        split; [now left | exact Hu].
      * intros _ p0 rest [= <- <-] _. exact Hin.
    + destruct (Hadd false) as (l & Hl & Hs & Hin). exists l.
      split; [exact Hl|]. split.
      * intros p0 H0. destruct (Hs p0 H0) as [?| ->]; [assumption|].
        split; [now left | exact Hu].
      * intros _ p0 rest [= <- <-] _. exact Hin.
    + unfold isKing in Hu.
      destruct (Color_eqb (color q) color0); cbn [negb andb] in *.
      * destruct (Hskip true) as (l & Hl & Hs). exists l.
        split; [exact Hl|]. split; [exact Hs|].
        intros _ p0 rest [= <- <-] H0. congruence.
      * destruct (PieceType_eqb (type q) KING); cbn [negb] in *.
        -- destruct (Hskip false) as (l & Hl & Hs). exists l.
           split; [exact Hl|]. split; [exact Hs|].
           intros _ p0 rest [= <- <-] H0. congruence.
        -- destruct (Hadd true) as (l & Hl & Hs & Hin). exists l.
           split; [exact Hl|]. split.
           ++ intros p0 H0. destruct (Hs p0 H0) as [?| ->]; [assumption|].
              split; [now left | exact Hu].
           ++ intros _ p0 rest [= <- <-] _. exact Hin.
Qed.

Lemma lines_loop_sound (b : Board) (color0 : Color) (lines : list (list Point)) :
  (8 <= List.length (pieceList b))%nat -> Forall (Forall on_board) lines ->
  forall acc,
  exists l, lines_loop b color0 lines acc = Ok (acc ++ l)
            /\ (forall p, In p l ->
                  In p (List.concat lines) /\ unblocked b color0 true p = true)
            /\ (forall p rest, In (p :: rest) lines ->
                  unblocked b color0 true p = true -> In p l).
Proof.
  intros Hrows. induction 1 as [|line lines Hline _ IH]; intros acc;
    cbn [lines_loop List.concat].
  - exists []. rewrite app_nil_r.
    split; [reflexivity|]. split; [intros ? [] | intros ? ? []].
  - destruct (line_loop_sound b color0 line Hrows Hline false acc)
      as (l1 & -> & Hs1 & Hc1). cbn [obind].
    destruct (IH (acc ++ l1)) as (l2 & -> & Hs2 & Hc2).
    exists (l1 ++ l2). rewrite app_assoc. split; [reflexivity|]. split.
    + intros p Hp. apply in_app_iff in Hp. destruct Hp as [Hp|Hp].
      * destruct (Hs1 p Hp). split; [apply in_app_iff; now left | assumption].
      * destruct (Hs2 p Hp). split; [apply in_app_iff; now right | assumption].
    + intros p rest [Heq|Hin] Hu; apply in_app_iff.
      * left. exact (Hc1 eq_refl p rest Heq Hu).
      * right. exact (Hc2 p rest Hin Hu).
Qed.

(** X20: [findUnblockedPointsOnLine] on lines of points of the board returns,
    without throwing, points of these lines only, each of which passes the
    test of [findUnblockedPoints] with captures: no square of a piece of the
    walker's colour and no square of a king is ever returned. The first
    point of a line is returned whenever it passes this test. *)
Theorem findUnblockedPointsOnLine_sound (b : Board) (lines : list (list Point))
    (color0 : Color) :
  (8 <= List.length (pieceList b))%nat -> Forall (Forall on_board) lines ->
  exists l,
    findUnblockedPointsOnLine b lines color0 = Ok l
    /\ (forall p, In p l ->
          In p (List.concat lines) /\ unblocked b color0 true p = true)
    /\ (forall p rest, In (p :: rest) lines ->
          unblocked b color0 true p = true -> In p l).
Proof.
  intros Hrows Hlines. unfold findUnblockedPointsOnLine.
  destruct (lines_loop_sound b color0 lines Hrows Hlines []) as (l & Hl & Hs & Hc).
  exists l. auto.
Qed.

Lemma findUnblockedPointsOnLine_sound_witness :
  (8 <= List.length (pieceList (board rook_d4_king_d5)))%nat /\
  exists l,
    findUnblockedPointsOnLine (board rook_d4_king_d5)
      [[mkPoint (Int 3) (Int 4); mkPoint (Int 3) (Int 5)]] WHITE = Ok l
    /\ (forall p, In p l ->
          In p (List.concat [[mkPoint (Int 3) (Int 4); mkPoint (Int 3) (Int 5)]])
          /\ unblocked (board rook_d4_king_d5) WHITE true p = true)
    /\ (forall p rest,
          In (p :: rest) [[mkPoint (Int 3) (Int 4); mkPoint (Int 3) (Int 5)]] ->
          unblocked (board rook_d4_king_d5) WHITE true p = true -> In p l).
Proof.
  assert (8 <= List.length (pieceList (board rook_d4_king_d5)))%nat as H
    by (vm_compute; lia).
  split; [exact H|].
  apply (findUnblockedPointsOnLine_sound _ _ WHITE H).
  apply Forall_cons; [|apply Forall_nil].
  apply Forall_forall. intros q Hq.
  repeat (destruct Hq as [<-|Hq];
          [eexists; eexists; split; [reflexivity | lia]|]).
  destruct Hq.
Defined.

(** X21: on a board reached through the methods of [Board], what the enumerator
    finds on the square of a point of the board is [null] or a piece whose
    point is that very point: the two mirrors (of [toAlgebraic] in the name
    and of [setPieceAtSquare] in the row) cancel on this path. *)
Theorem occupant_has_the_point (w : World) (p : Point) :
  reachable w -> on_board p ->
  occupant (board w) p = Ok Null
  \/ exists pc, occupant (board w) p = Ok (Occ pc) /\ point pc = Some p.
Proof.
  intros Hr (f & r & -> & Hf & Hr').
  pose proof (reachable_board_grid w Hr) as Hg.
  assert (0 <= 7 - r <= 7) as Hk by lia.
  destruct (grid_read (board w) f (7 - r) Hg Hf Hk) as (row & c & _ & _ & Hslot & Hread).
  unfold occupant.
  rewrite (Hread _ (algebraicToPoint_toAlgebraic f r Hf Hr')).
  destruct c as [| |pc]; [now left | destruct Hslot |].
  right. exists pc. split; [reflexivity|].
  cbn [slot_ok] in Hslot. rewrite Hslot, !Z2Nat.id by lia.
  do 3 f_equal. lia.
Qed.

Lemma occupant_has_the_point_witness :
  occupant (board rook_on_d4) (mkPoint (Int 3) (Int 3)) = Ok Null
  \/ exists pc, occupant (board rook_on_d4) (mkPoint (Int 3) (Int 3)) = Ok (Occ pc)
                /\ point pc = Some (mkPoint (Int 3) (Int 3)).
Proof.
  apply (occupant_has_the_point rook_on_d4).
  - apply reach_setPositionFromFEN, reach_new.
  - exists 3, 3. split; [reflexivity | lia].
Defined.

(** ** Loading a position *)

Lemma addPiece_occupant (w : World) (t : PieceType) (c : Color) (j i : Z) :
  (8 <= List.length (pieceList (board w)))%nat -> 0 <= j <= 7 -> 0 <= i <= 7 ->
  exists w1,
    addPiece t c (toAlgebraic (mkPoint (Int j) (Int i))) w = (Ok tt, w1)
    /\ List.length (pieceList (board w1)) = List.length (pieceList (board w))
    /\ forall j' r', 0 <= j' <= 7 -> 0 <= r' <= 7 ->
         occupant (board w1) (mkPoint (Int j') (Int r'))
         = if (j' =? j) && (r' =? 7 - i)
           then Ok (Occ {| type := t;
                           point := Some (mkPoint (Int j) (Int (7 - i)));
                           color := c |})
           else occupant (board w) (mkPoint (Int j') (Int r')).
Proof.
  intros Hrows Hj Hi.
  pose proof (algebraicToPoint_toAlgebraic j i Hj Hi) as Hpt.
  destruct (addPiece_writes w t c _ j (7 - i) Hrows Hpt) as (row & Hrow & Hadd);
    [lia|].
  eexists. split; [exact Hadd|]. cbn [board pieceList].
  split; [apply length_update_nth|].
  intros j' r' Hj' Hr'. rewrite !occupant_on_board by assumption.
  unfold stored_piece. rewrite Hpt.
  destruct (r' =? 7 - i) eqn:Er.
  - apply Z.eqb_eq in Er. subst r'. cbn [board pieceList].
    rewrite nth_error_update_nth_eq
      by (apply nth_error_Some; rewrite Hrow; discriminate).
    rewrite Hrow. rewrite andb_true_r.
    pose proof (row_get_row_set row j j'
                  {| type := t; point := Some (mkPoint (Int j) (Int (7 - i)));
                     color := c |}) as Hg.
    unfold row_get in Hg at 1 2.
    assert ((0 <=? j') = true) as E by (apply Z.leb_le; lia).
    rewrite E in Hg. rewrite Hg by lia.
    destruct (j' =? j); reflexivity.
  - apply Z.eqb_neq in Er. rewrite andb_false_r. cbn [board pieceList].
    rewrite nth_error_update_nth_ne by lia. reflexivity.
Qed.

Lemma place_letter_letter_piece (ch : ascii) (sq : Square) :
  place_letter (toUpperCase ch) (if is_black_letter ch then BLACK else WHITE) sq
  = match letter_piece ch with
    | Some (t, c) => addPiece t c sq
    | None => ret tt
    end.
Proof. destruct ch as [[] [] [] [] [] [] [] []]; reflexivity. Qed.

Lemma digit_value_range (ch : ascii) :
  is_digit ch = true -> 0 <= digit_value ch <= 9.
Proof.
  destruct ch as [[] [] [] [] [] [] [] []]; vm_compute; intros H;
    try discriminate H; split; discriminate.
Qed.

Lemma width_from_ge (str : list ascii) :
  forall n, n <= width_from str n.
Proof.
  unfold width_from. induction str as [|ch rest IH]; intros n; cbn [fold_left].
  - lia.
  - destruct (is_digit ch) eqn:E.
    + pose proof (digit_value_range ch E). specialize (IH (n + digit_value ch)). lia.
    + specialize (IH (n + 1)). lia.
Qed.

Lemma rank_lookup_past (str : list ascii) :
  forall file0 j, j < file0 -> rank_lookup str file0 j = None.
Proof.
  induction str as [|ch rest IH]; intros file0 j Hj; cbn [rank_lookup].
  - reflexivity.
  - destruct (is_digit ch) eqn:E.
    + pose proof (digit_value_range ch E). apply IH. lia.
    + assert ((file0 =? j) = false) as -> by (apply Z.eqb_neq; lia).
      apply IH. lia.
Qed.

(** One rank of the placement field, from [file0] on: what the enumerator
    finds on each point afterwards. *)
Lemma fen_row_reads (i : Z) (str : list ascii) :
  0 <= i <= 7 ->
  forall file0 w,
    0 <= file0 -> (8 <= List.length (pieceList (board w)))%nat ->
    width_from str file0 <= 8 ->
    exists w',
      fen_row i str file0 w = (Ok tt, w')
      /\ List.length (pieceList (board w')) = List.length (pieceList (board w))
      /\ forall j r, 0 <= j <= 7 -> 0 <= r <= 7 ->
           occupant (board w') (mkPoint (Int j) (Int r))
           = match (if r =? 7 - i
                    then match rank_lookup str file0 j with
                         | Some ch => letter_piece ch
                         | None => None
                         end
                    else None) with
             | Some (t, c) =>
                 Ok (Occ {| type := t; point := Some (mkPoint (Int j) (Int r));
                            color := c |})
             | None => occupant (board w) (mkPoint (Int j) (Int r))
             end.
Proof.
  intros Hi. induction str as [|ch rest IH]; intros file0 w Hf Hrows Hw;
    cbn [fen_row rank_lookup].
  - exists w. split; [reflexivity|]. split; [reflexivity|].
    intros j r _ _. destruct (r =? 7 - i); reflexivity.
  - pose proof (width_from_ge (ch :: rest) file0) as Hge.
    assert ((file0 <=? 8) = true) as -> by (apply Z.leb_le; lia).
    unfold width_from in Hw. cbn [fold_left] in Hw.
    destruct (is_digit ch) eqn:Ed.
    + pose proof (digit_value_range ch Ed).
      apply IH; [lia | assumption | exact Hw].
    + pose proof (width_from_ge rest (file0 + 1)) as Hge1.
      unfold width_from in Hge1.
      rewrite place_letter_letter_piece. unfold mbind.
      destruct (letter_piece ch) as [[t c]|] eqn:El.
      * destruct (addPiece_occupant w t c file0 i Hrows) as (w1 & -> & Hlen1 & Hocc1);
          [lia | lia |].
        destruct (IH (file0 + 1) w1) as (w' & -> & Hlen' & Hocc');
          [lia | lia | exact Hw |].
        exists w'. split; [reflexivity|]. split; [congruence|].
        intros j r Hj Hr. rewrite (Hocc' j r Hj Hr), (Hocc1 j r Hj Hr).
        destruct (r =? 7 - i) eqn:Er.
        -- apply Z.eqb_eq in Er. rewrite (Z.eqb_sym j file0).
           destruct (file0 =? j) eqn:Ej.
           ++ apply Z.eqb_eq in Ej. subst j.
              rewrite rank_lookup_past by lia. rewrite El. cbn [andb].
              now subst r.
           ++ cbn [andb]. reflexivity.
        -- rewrite andb_false_r. reflexivity.
      * cbn [ret].
        destruct (IH (file0 + 1) w) as (w' & -> & Hlen' & Hocc');
          [lia | assumption | exact Hw |].
        exists w'. split; [reflexivity|]. split; [assumption|].
        intros j r Hj Hr. rewrite (Hocc' j r Hj Hr).
        destruct (r =? 7 - i) eqn:Er; [|reflexivity].
        destruct (file0 =? j) eqn:Ej; [|reflexivity].
        apply Z.eqb_eq in Ej. subst j.
        rewrite rank_lookup_past by lia. rewrite El. reflexivity.
Qed.

(** The ranks whose indexes are in [l], one after the other. *)
Lemma fen_ranks_read (rows : list string) (l : list nat) :
  NoDup l ->
  (forall i, In i l ->
     (i < 8)%nat /\ exists s, nth_error rows i = Some s /\ rank_width s <= 8) ->
  forall w,
    (8 <= List.length (pieceList (board w)))%nat ->
    exists w',
      for_each (fen_rank rows) l w = (Ok tt, w')
      /\ List.length (pieceList (board w')) = List.length (pieceList (board w))
      /\ forall j r, 0 <= j <= 7 -> 0 <= r <= 7 ->
           occupant (board w') (mkPoint (Int j) (Int r))
           = match (if existsb (Nat.eqb (Z.to_nat (7 - r))) l
                    then rows_piece rows (7 - r) j else None) with
             | Some (t, c) =>
                 Ok (Occ {| type := t; point := Some (mkPoint (Int j) (Int r));
                            color := c |})
             | None => occupant (board w) (mkPoint (Int j) (Int r))
             end.
Proof.
  induction 1 as [|i l Hnotin _ IH]; intros Hall w Hrows; cbn [for_each existsb].
  - exists w. split; [reflexivity|]. split; [reflexivity|]. reflexivity.
  - destruct (Hall i (or_introl eq_refl)) as (Hi & s & Hs & Hwidth).
    unfold mbind, fen_rank at 1. rewrite Hs.
    destruct (fen_row_reads (Z.of_nat i) (chars s)) with (file0 := 0) (w := w)
      as (w1 & -> & Hlen1 & Hocc1); [lia | lia | assumption | exact Hwidth |].
    destruct (IH (fun k Hk => Hall k (or_intror Hk)) w1) as (w' & -> & Hlen' & Hocc');
      [lia|].
    exists w'. split; [reflexivity|]. split; [congruence|].
    intros j r Hj Hr. rewrite (Hocc' j r Hj Hr), (Hocc1 j r Hj Hr).
    destruct (Nat.eqb (Z.to_nat (7 - r)) i) eqn:Ei.
    + apply Nat.eqb_eq in Ei. subst i. cbn [orb].
      assert (existsb (Nat.eqb (Z.to_nat (7 - r))) l = false) as ->.
      { apply not_true_iff_false. intros H. apply existsb_exists in H.
        destruct H as (x & Hx & Ex). apply Nat.eqb_eq in Ex. subst x. tauto. }
      rewrite Z2Nat.id by lia.
      assert ((r =? 7 - (7 - r)) = true) as -> by (apply Z.eqb_eq; lia).
      unfold rows_piece. rewrite Hs. reflexivity.
    + apply Nat.eqb_neq in Ei. cbn [orb].
      assert ((r =? 7 - Z.of_nat i) = false) as -> by (apply Z.eqb_neq; lia).
      reflexivity.
Qed.

Lemma valid_square_codes (sq : Square) :
  is_valid_square sq = true ->
  exists l d,
    sq = SqStr (String l (String d EmptyString))
    /\ 0 <= code l - code "a" <= 7 /\ 0 <= code "8" - code d <= 7
    /\ toAlgebraic (mkPoint (Int (code l - code "a")) (Int (7 - (code "8" - code d))))
       = sq.
Proof.
  destruct sq as [s|]; [|discriminate]. cbn [is_valid_square]. intros H.
  apply is_square_name_In in H. vm_compute in H.
  repeat (destruct H as [<-|H];
          [do 2 eexists; split; [reflexivity|]; vm_compute;
           repeat split; discriminate|]).
  destruct H.
Qed.

Lemma setPositionFromFEN_occupants (w : World) (fen : string) :
  (8 <= List.length (pieceList (board w)))%nat ->
  (forall i, (i < 8)%nat ->
     exists s, nth_error (placement_ranks fen) i = Some s /\ rank_width s <= 8) ->
  exists w',
    setPositionFromFEN fen w = (Ok tt, w')
    /\ forall j r, 0 <= j <= 7 -> 0 <= r <= 7 ->
         occupant (board w') (mkPoint (Int j) (Int r))
         = match rows_piece (placement_ranks fen) (7 - r) j with
           | Some (t, c) =>
               Ok (Occ {| type := t; point := Some (mkPoint (Int j) (Int r));
                          color := c |})
           | None => occupant (board w) (mkPoint (Int j) (Int r))
           end.
Proof.
  intros Hrows Hranks.
  destruct (fen_ranks_read (placement_ranks fen) [0; 1; 2; 3; 4; 5; 6; 7]%nat)
    with (w := w) as (w' & Hrun & _ & Hocc).
  - repeat (apply NoDup_cons; [cbn; lia|]). apply NoDup_nil.
  - intros i Hi. assert (i < 8)%nat as Hlt by (cbn in Hi; lia).
    split; [exact Hlt | exact (Hranks i Hlt)].
  - exact Hrows.
  - exists w'. split; [exact Hrun|]. intros j r Hj Hr. rewrite (Hocc j r Hj Hr).
    assert (existsb (Nat.eqb (Z.to_nat (7 - r))) [0; 1; 2; 3; 4; 5; 6; 7]%nat = true)
      as ->; [|reflexivity].
    apply existsb_exists. exists (Z.to_nat (7 - r)).
    split; [cbn [In]; lia | apply Nat.eqb_refl].
Qed.

Lemma occupants_reads_as (w w' : World) (rows : list string) :
  (forall j r, 0 <= j <= 7 -> 0 <= r <= 7 ->
     occupant (board w') (mkPoint (Int j) (Int r))
     = match rows_piece rows (7 - r) j with
       | Some (t, c) =>
           Ok (Occ {| type := t; point := Some (mkPoint (Int j) (Int r));
                      color := c |})
       | None => occupant (board w) (mkPoint (Int j) (Int r))
       end) ->
  forall sq, is_valid_square sq = true -> reads_as w w' sq (square_piece rows sq).
Proof.
  intros Hocc sq Hsq.
  destruct (valid_square_codes sq Hsq) as (l & d & -> & Hl & Hd & Hname).
  cbn [square_piece].
  pose proof (Hocc (code l - code "a") (7 - (code "8" - code d))) as H.
  unfold occupant in H. rewrite Hname in H.
  replace (7 - (7 - (code "8" - code d))) with (code "8" - code d) in H by ring.
  unfold reads_as. rewrite !H by lia. clear H.
  destruct (rows_piece _ _ _) as [[t c]|]; [|reflexivity].
  eexists. split; [reflexivity|]. cbn [type color]. split; [reflexivity|].
  split; [reflexivity|]. unfold square. cbn [point]. now rewrite Hname.
Qed.

(** X22: loading a placement field with at least eight ranks, none of the first
    eight wider than eight squares, on a board with its eight rows: the call
    returns, and every square reads as the record says where the record has a
    piece letter, with a piece that knows that square; every other square
    reads as before the call, so that nothing is removed from the board. *)
Theorem setPositionFromFEN_places_the_record (w : World) (fen : string) :
  (8 <= List.length (pieceList (board w)))%nat ->
  (forall i, (i < 8)%nat ->
     exists s, nth_error (placement_ranks fen) i = Some s /\ rank_width s <= 8) ->
  result (setPositionFromFEN fen) w = Ok tt /\
  forall sq, is_valid_square sq = true ->
    reads_as w (exec (setPositionFromFEN fen) w) sq (fen_piece fen sq).
Proof.
  intros Hrows Hranks.
  destruct (setPositionFromFEN_occupants w fen Hrows Hranks) as (w' & Hrun & Hocc).
  unfold result, exec. rewrite Hrun. cbn [fst snd].
  split; [reflexivity|]. exact (occupants_reads_as w w' _ Hocc).
Qed.

Lemma setPositionFromFEN_places_the_record_witness :
  (8 <= List.length (pieceList (board rook_on_a1)))%nat /\
  (forall i, (i < 8)%nat ->
     exists s, nth_error (placement_ranks "8/8/8/8/4p3/8/8/8") i = Some s
               /\ rank_width s <= 8) /\
  reads_as rook_on_a1 (exec (setPositionFromFEN "8/8/8/8/4p3/8/8/8") rook_on_a1)
    (SqStr "e4") (Some (PAWN, BLACK)) /\
  reads_as rook_on_a1 (exec (setPositionFromFEN "8/8/8/8/4p3/8/8/8") rook_on_a1)
    (SqStr "a1") None.
Proof.
  assert (8 <= List.length (pieceList (board rook_on_a1)))%nat as H
    by (vm_compute; lia).
  assert (forall i, (i < 8)%nat ->
            exists s, nth_error (placement_ranks "8/8/8/8/4p3/8/8/8") i = Some s
                      /\ rank_width s <= 8) as Hr.
  { intros i Hi.
    do 8 (destruct i as [|i];
          [eexists; split; [reflexivity | vm_compute; discriminate]|]).
    lia. }
  split; [exact H|]. split; [exact Hr|].
  split.
  - exact (proj2 (setPositionFromFEN_places_the_record rook_on_a1 _ H Hr)
             (SqStr "e4") eq_refl).
  - exact (proj2 (setPositionFromFEN_places_the_record rook_on_a1 _ H Hr)
             (SqStr "a1") eq_refl).
Defined.

Lemma preset_ranks (fen : string) :
  forallb (fun s => rank_width s <=? 8) (firstn 8 (placement_ranks fen)) = true ->
  (8 <=? List.length (placement_ranks fen))%nat = true ->
  forall i, (i < 8)%nat ->
    exists s, nth_error (placement_ranks fen) i = Some s /\ rank_width s <= 8.
Proof.
  intros Hw Hl i Hi. apply Nat.leb_le in Hl.
  destruct (nth_error (placement_ranks fen) i) as [s|] eqn:E.
  - exists s. split; [reflexivity|]. rewrite forallb_forall in Hw.
    apply Z.leb_le, Hw.
    rewrite <- (firstn_skipn 8 (placement_ranks fen)) in E.
    rewrite nth_error_app1 in E by (rewrite length_firstn; lia).
    exact (nth_error_In _ _ E).
  - apply nth_error_None in E. lia.
Qed.

Lemma initial_piece_fen (pawns : bool) (sq : Square) :
  is_valid_square sq = true ->
  fen_piece (if pawns
             then "rnbqkbnr/pppppppp/8/8/8/8/PPPPPPPP/RNBQKBNR w KQkq - 0 1"
             else "rnbqkbnr/8/8/8/8/8/8/RNBQKBNR w KQkq - 0 1") sq
  = initial_piece pawns sq.
Proof.
  destruct sq as [s|]; [|discriminate]. cbn [is_valid_square]. intros H.
  apply is_square_name_In in H. vm_compute in H.
  destruct pawns;
    repeat (destruct H as [<-|H]; [vm_compute; reflexivity|]); destruct H.
Qed.

(** X23: [setInitialPosition] and [setNoPawnsPosition] on a board with its eight
    rows return and put the pieces of the start of a game on the first and
    eighth ranks, and the first also the pawns on the second and seventh;
    the squares in between read as before the call: neither method clears
    the board first. *)
Theorem preset_positions (w : World) (sq : Square) :
  (8 <= List.length (pieceList (board w)))%nat -> is_valid_square sq = true ->
  result setInitialPosition w = Ok tt /\
  reads_as w (exec setInitialPosition w) sq (initial_piece true sq) /\
  result setNoPawnsPosition w = Ok tt /\
  reads_as w (exec setNoPawnsPosition w) sq (initial_piece false sq).
Proof.
  intros Hrows Hsq. unfold setInitialPosition, setNoPawnsPosition.
  rewrite <- (initial_piece_fen true sq Hsq), <- (initial_piece_fen false sq Hsq).
  destruct (setPositionFromFEN_occupants w
              "rnbqkbnr/pppppppp/8/8/8/8/PPPPPPPP/RNBQKBNR w KQkq - 0 1" Hrows)
    as (w1 & Hrun1 & Hocc1); [apply preset_ranks; reflexivity|].
  destruct (setPositionFromFEN_occupants w
              "rnbqkbnr/8/8/8/8/8/8/RNBQKBNR w KQkq - 0 1" Hrows)
    as (w2 & Hrun2 & Hocc2); [apply preset_ranks; reflexivity|].
  unfold result, exec. rewrite Hrun1, Hrun2. cbn [fst snd].
  split; [reflexivity|].
  split; [exact (occupants_reads_as w w1 _ Hocc1 sq Hsq)|].
  split; [reflexivity|].
  exact (occupants_reads_as w w2 _ Hocc2 sq Hsq).
Qed.

Lemma preset_positions_witness :
  reads_as (exec setInitialPosition new_World)
    (exec setNoPawnsPosition (exec setInitialPosition new_World))
    (SqStr "e2") None.
Proof.
  assert (8 <= List.length (pieceList (board (exec setInitialPosition new_World))))%nat
    as H by (vm_compute; lia).
  exact (proj2 (proj2 (proj2 (preset_positions
                                (exec setInitialPosition new_World)
                                (SqStr "e2") H eq_refl)))).
Defined.

Lemma row_set_keeps_pieces (row : Row) (k k' : num) (pc q : Piece) :
  row_get row k' = Occ q ->
  exists q', row_get (row_set row k pc) k' = Occ q'.
Proof.
  intros Hq.
  assert (forall ps, prop_get ps k' = Occ q ->
            exists q', prop_get ((k, pc) :: ps) k' = Occ q') as Hprops.
  { intros ps Hps. cbn [prop_get]. destruct (key_eqb k' k); eauto. }
  unfold row_get, row_set in *.
  destruct k as [z|]; [destruct (0 <=? z) eqn:Ez|]; cbn [cells props];
    (destruct k' as [z'|]; [destruct (0 <=? z') eqn:Ez'|]); eauto.
  apply Z.leb_le in Ez, Ez'.
  destruct (Z.to_nat z <? List.length (cells row))%nat eqn:El.
  - apply Nat.ltb_lt in El.
    destruct (Nat.eq_dec (Z.to_nat z) (Z.to_nat z')) as [E|E].
    + rewrite <- E, nth_update_nth_eq by exact El. eauto.
    + rewrite nth_update_nth_ne by exact E. eauto.
  - assert (Z.to_nat z' < List.length (cells row))%nat as Hlt.
    { destruct (Nat.lt_ge_cases (Z.to_nat z') (List.length (cells row)))
        as [H|H]; [exact H|].
      rewrite nth_overflow in Hq by exact H. discriminate. }
    rewrite app_nth1 by exact Hlt. eauto.
Qed.

Lemma setPieceAtSquare_keeps_occupied (sq sq' : Square) (piece : Cell) :
  preserves (occupied_at sq) (setPieceAtSquare sq' piece).
Proof.
  intros w (q & Hq). unfold setPieceAtSquare. cbv zeta.
  destruct piece as [| |pc]; try (exists q; exact Hq).
  destruct (pieceList_at (board w) _) as [[i row]|] eqn:E; [|exists q; exact Hq].
  apply pieceList_at_Some in E. destruct E as (z & _ & _ & -> & Hrow).
  cbn [snd]. unfold occupied_at, getPieceAtSquare in *. cbn [board pieceList].
  destruct (pieceList_at (board w) (rank (algebraicToPoint sq)))
    as [[i0 row0]|] eqn:E0; [|discriminate].
  injection Hq as Hq.
  change (row_get row0 (file (algebraicToPoint sq)) = Occ q) in Hq.
  pose proof (pieceList_at_Some _ _ _ _ E0) as (z0 & Hz0 & Hz0' & -> & Hrow0).
  rewrite Hz0. unfold pieceList_at. cbn [pieceList].
  assert ((0 <=? z0) = true) as -> by (now apply Z.leb_le).
  destruct (Nat.eq_dec (Z.to_nat z) (Z.to_nat z0)) as [Ei|Ei].
  - rewrite <- Ei, nth_error_update_nth_eq
      by (apply nth_error_Some; rewrite Hrow; discriminate).
    rewrite <- Ei, Hrow in Hrow0. injection Hrow0 as <-.
    destruct (row_set_keeps_pieces row
                (file (algebraicToPoint sq'))
                (file (algebraicToPoint sq))
                {| type := type pc; point := Some (algebraicToPoint sq');
                   color := color pc |} q Hq) as (q' & ->).
    eauto.
  - rewrite nth_error_update_nth_ne by exact Ei. rewrite Hrow0, Hq. eauto.
Qed.

Lemma place_letter_keeps_occupied (sq : Square) (ch : ascii) (c : Color)
    (sq' : Square) :
  preserves (occupied_at sq) (place_letter ch c sq').
Proof.
  unfold place_letter.
  repeat match goal with
         | |- context [if ?t then _ else _] =>
             destruct t;
             [rewrite addPiece_setPieceAtSquare; apply setPieceAtSquare_keeps_occupied|]
         end.
  apply preserves_ret.
Qed.

Lemma fen_row_keeps_occupied (sq : Square) (rank0 : Z) (str : list ascii) :
  forall file0, preserves (occupied_at sq) (fen_row rank0 str file0).
Proof.
  induction str as [|ch rest IH]; intros file0; cbn [fen_row].
  - apply preserves_ret.
  - destruct (file0 <=? 8); [|apply preserves_ret].
    destruct (is_digit ch); [apply IH|].
    apply preserves_mbind; [apply place_letter_keeps_occupied | intros _; apply IH].
Qed.

(** X24: none of the three methods that write the board ever takes a piece off
    it: a square on which [getPieceAtSquare] finds a piece still holds one
    after [addPiece], after [clearSquare] (the same piece) and after
    [setPositionFromFEN], whatever their arguments and whether they return
    or throw. *)
Theorem occupied_squares_stay_occupied (w : World) (sq : Square) (pc : Piece) :
  getPieceAtSquare (board w) sq = Ok (Occ pc) ->
  (forall t c sq', occupied_at sq (exec (addPiece t c sq') w)) /\
  (forall sq', getPieceAtSquare (board (exec (clearSquare sq') w)) sq = Ok (Occ pc)) /\
  (forall fen, occupied_at sq (exec (setPositionFromFEN fen) w)).
Proof.
  intros Hq.
  assert (occupied_at sq w) as Ho by (exists pc; exact Hq).
  split; [|split].
  - intros t c sq'. rewrite addPiece_setPieceAtSquare.
    exact (setPieceAtSquare_keeps_occupied sq sq' _ w Ho).
  - intros sq'. exact Hq.
  - intros fen. unfold setPositionFromFEN.
    refine (preserves_for_each _ _ _ _ w Ho).
    intros i. unfold fen_rank. destruct (nth_error _ i).
    + apply fen_row_keeps_occupied.
    + apply preserves_lift.
Qed.

Lemma occupied_squares_stay_occupied_witness :
  occupied_at (SqStr "a1") (exec (setPositionFromFEN "8/8/8/8/8/8/8/8") rook_on_a1).
Proof.
  assert (exists pc, getPieceAtSquare (board rook_on_a1) (SqStr "a1") = Ok (Occ pc))
    as (pc & H) by (eexists; reflexivity).
  exact (proj2 (proj2 (occupied_squares_stay_occupied rook_on_a1 (SqStr "a1") pc H))
           "8/8/8/8/8/8/8/8"%string).
Defined.

Lemma split_first_field (p rest : string) :
  hd EmptyString (split " " (p ++ String " " rest)) = hd EmptyString (split " " p).
Proof.
  induction p as [|c p IH]; cbn [String.append split].
  - reflexivity.
  - destruct (Ascii.eqb c " "); [reflexivity|].
    destruct (split " " (p ++ String " " rest)) as [|a l],
             (split " " p) as [|b l']; cbn [hd] in *; congruence.
Qed.

(** X25: [setPositionFromFEN] reads the record up to its first space only: the
    side to move, the castling rights and the other fields change nothing,
    and may be left out. *)
Theorem setPositionFromFEN_first_field_only (p rest : string) :
  setPositionFromFEN (p ++ String " " rest) = setPositionFromFEN p.
Proof.
  unfold setPositionFromFEN. cbv zeta. now rewrite split_first_field.
Qed.

